(** * Santa-hat compositor: a shallow embedding of [add_santa_hat] (src/app.py)

    The function under study overlays a hat picture on a profile picture with
    Pillow.  The embedding has three layers:

    - Python numbers: [int] is [Z]; [float] is IEEE binary64, modelled by the
      standard library's [spec_float] with [prec = 53], [emax = 1024];
      conversions that raise in Python return [Err].
    - Pillow images as values: a mode, a size and rows of 8-bit pixels, with the
      raster operations the function calls ([convert], [resize], [rotate],
      [new], [alpha_composite], [paste]).
    - Pillow images as objects: a store of image objects addressed by
      references, an error/state monad [M], and the record of the library
      calls a run makes.  [paste] updates its receiver in place; every other
      operation allocates its result.

    Two parts of Pillow depend on the platform's [sin]/[cos] and on
    floating-point filter tables: the Lanczos filter of [resize] and the
    nearest-neighbour affine resampling [rotate] falls back to when the angle
    is not a multiple of 90 degrees.  They are taken as a parameter
    ([Kernels]); everything around them (sizes, modes, fast paths, errors) is
    modelled as Pillow does it.

    Pillow's C functions take sizes and coordinates as C [int]s: a target
    size or a paste box outside that range raises [OverflowError], and the
    model raises it where Pillow does.  The store itself is unbounded: that
    Pillow can run out of memory for a very large picture ([MemoryError]) is
    not modelled, so no general statement below says that a run returns:
    the statements are about the runs that return, about exceptions raised
    before a picture is allocated, or compare two runs; that a run returns
    is stated for concrete, small pictures only. *)

From Stdlib Require Import ZArith Bool Lia.
From Stdlib Require Import Floats.SpecFloat.
From stdpp Require Import base numbers option list list_numbers gmap strings.

Local Open Scope Z_scope.

(** ** Python exceptions and results *)

Inductive PyError : Type :=
  | ValueError
  | OverflowError
  | ZeroDivisionError
  | DanglingReference.   (* a reference that names no object; unreachable from Python *)

Inductive Result (A : Type) : Type :=
  | Ok (a : A)
  | Err (e : PyError).
Arguments Ok {A} a.
Arguments Err {A} e.

#[global] Instance PyError_eq_dec : EqDecision PyError.
Proof. solve_decision. Defined.

#[global] Instance Result_eq_dec {A : Type} `{EqDecision A} : EqDecision (Result A).
Proof. solve_decision. Defined.

#[global] Instance Result_ret : MRet Result := fun A a => Ok a.
#[global] Instance Result_bind : MBind Result := fun A B f r =>
  match r with
  | Ok a => f a
  | Err e => Err e
  end.

(** ** Python floats (binary64) and the arithmetic of lines 43-44 *)

Module Py.

Definition prec : Z := 53.
Definition emax : Z := 1024.

Definition float : Type := spec_float.

(** The float [m * 2^e], correctly rounded: how a literal such as [0.5]
    ([dyadic 1 (-1)]) is written. *)
Definition dyadic (m e : Z) : float := binary_normalize prec emax m e false.

Definition zero : float := S754_zero false.

(** [float(n)] for an [int]: round to nearest even, [OverflowError] when the
    result does not fit. *)
Definition to_float (n : Z) : Result float :=
  match binary_normalize prec emax n 0 false with
  | S754_infinity _ => Err OverflowError
  | x => Ok x
  end.

(** [int(x)]: truncation toward zero; [int(nan)] raises [ValueError],
    [int(inf)] raises [OverflowError]. *)
Definition int (x : float) : Result Z :=
  match x with
  | S754_nan => Err ValueError
  | S754_infinity _ => Err OverflowError
  | S754_zero _ => Ok 0
  | S754_finite s m e => Ok (cond_Zopp s (Z.shiftl (Z.pos m) e))
  end.

(** [n * x] with [n : int], [x : float]. *)
Definition mul_int_float (n : Z) (x : float) : Result float :=
  y ← to_float n; Ok (SFmul prec emax y x).

(** [a / b] on two [int]s (true division).  Both operands are image
    dimensions, C [int]s in Pillow, hence exactly representable; the
    quotient of the two floats is then the correctly rounded quotient. *)
Definition truediv (a b : Z) : Result float :=
  if decide (b = 0) then Err ZeroDivisionError
  else x ← to_float a; y ← to_float b; Ok (SFdiv prec emax x y).

(** [n % 360.0] with [n : int].  [float(n)] is an integer-valued float and
    the float remainder of an integer by 360 is exact, so the result is the
    integer [float(n) mod 360] (sign of the divisor, as Python has it). *)
Definition mod_360 (n : Z) : Result Z :=
  x ← to_float n; v ← int x; Ok (v `mod` 360).

(** The value of a finite float as a fraction [num / den]. *)
Definition num (x : float) : Z :=
  match x with
  | S754_finite s m e => cond_Zopp s (Z.pos m * 2 ^ Z.max 0 e)
  | _ => 0
  end.
Definition den (x : float) : Z :=
  match x with
  | S754_finite s m e => 2 ^ Z.max 0 (- e)
  | _ => 1
  end.

(** Python's [round(x)] (nearest integer, ties to even).  The program never
    calls it; it is what the specification's formula for the target size
    says. *)
Definition round (x : float) : Result Z :=
  match x with
  | S754_nan => Err ValueError
  | S754_infinity _ => Err OverflowError
  | S754_zero _ => Ok 0
  | S754_finite s m e =>
      let n := Z.pos m * 2 ^ Z.max 0 e in
      let d := 2 ^ Z.max 0 (- e) in
      let q := n `div` d in
      let r := n `mod` d in
      let up := match 2 * r ?= d with
                | Lt => false
                | Gt => true
                | Eq => Z.odd q
                end in
      Ok (cond_Zopp s (if up then q + 1 else q))
  end.

End Py.

(** ** Pillow images as values *)

Inductive Mode : Type := L | RGB | RGBA.

#[global] Instance Mode_eq_dec : EqDecision Mode.
Proof. solve_decision. Defined.

(** Four 8-bit bands per pixel, as in Pillow's 32-bit storage.  Mode [RGB]
    keeps 255 in the fourth byte; mode [L] has one band, kept in [red]. *)
Record Pixel : Type := px { red : Z; green : Z; blue : Z; alpha : Z }.

Record Image : Type := mkImage {
  mode : Mode;
  width : Z;
  height : Z;
  rows : list (list Pixel)   (* [height] rows of [width] pixels *)
}.

Definition transparent : Pixel := px 0 0 0 0.

Definition im_size (im : Image) : Z * Z := (width im, height im).

(** The pixel at column [x], row [y]. *)
Definition getpixel (im : Image) (x y : Z) : Pixel :=
  if decide (0 <= x < width im /\ 0 <= y < height im)
  then default transparent (row ← rows im !! Z.to_nat y; row !! Z.to_nat x)
  else transparent.

(** A freshly allocated [w] x [h] image filled pixel by pixel. *)
Definition raster (m : Mode) (w h : Z) (f : Z -> Z -> Pixel) : Image :=
  {| mode := m;
     width := Z.max 0 w;
     height := Z.max 0 h;
     rows := (fun y => (fun x => f x y) <$> seqZ 0 w) <$> seqZ 0 h |}.

(** The rows agree with the declared size. *)
Definition well_formed (im : Image) : Prop :=
  0 <= width im /\ 0 <= height im /\
  length (rows im) = Z.to_nat (height im) /\
  Forall (fun row => length row = Z.to_nat (width im)) (rows im).

(** [Image.new(mode, size, color)] *)
Definition im_new (m : Mode) (size : Z * Z) (color : Pixel) : Image :=
  raster m size.1 size.2 (fun _ _ => color).

(** [im.copy()]: a new image, line by line. *)
Definition im_copy (im : Image) : Image :=
  raster (mode im) (width im) (height im) (getpixel im).

(** *** [convert] *)

Definition l24 (p : Pixel) : Z :=
  red p * 19595 + green p * 38470 + blue p * 7471 + 32768.

Definition convert_pixel (from to : Mode) (p : Pixel) : Pixel :=
  match from, to with
  | L, L | RGB, RGB | RGBA, RGBA => p
  | L, (RGB | RGBA) => px (red p) (red p) (red p) 255
  | RGB, RGBA | RGBA, RGB => px (red p) (green p) (blue p) 255
  | (RGB | RGBA), L => px (Z.shiftr (l24 p) 16) 0 0 0
  end.

(** [im.convert(mode)]: a copy when the mode is unchanged. *)
Definition im_convert (im : Image) (m : Mode) : Image :=
  if decide (m = mode im) then im_copy im
  else raster m (width im) (height im)
         (fun x y => convert_pixel (mode im) m (getpixel im x y)).

(** *** Resampling kernels (the part of Pillow taken as a parameter) *)

Record Kernels : Type := {
  (* pixel (x, y) of [im] resized to [w] x [h] with the Lanczos filter *)
  lanczos_pixel : Image -> Z -> Z -> Z -> Z -> Pixel;
  (* size of the expanded canvas for [angle] degrees on a [w] x [h] image *)
  affine_size : Z -> Z -> Z -> Z * Z;
  (* pixel (x, y) of [im] rotated by [angle] degrees on the expanded canvas *)
  affine_pixel : Z -> Image -> Z -> Z -> Pixel
}.

(** A nearest-neighbour stand-in, to run the model on examples. *)
Definition nearest_kernels : Kernels :=
  {| lanczos_pixel := fun im w h x y =>
       getpixel im ((x * width im) `div` w) ((y * height im) `div` h);
     affine_size := fun _ w h => (w + h, w + h);
     affine_pixel := fun _ im x y => getpixel im (x - height im) y |}.

(** *** [transpose] *)

Definition im_rotate_90 (im : Image) : Image :=
  raster (mode im) (height im) (width im)
    (fun x y => getpixel im (width im - 1 - y) x).

Definition im_rotate_180 (im : Image) : Image :=
  raster (mode im) (width im) (height im)
    (fun x y => getpixel im (width im - 1 - x) (height im - 1 - y)).

Definition im_rotate_270 (im : Image) : Image :=
  raster (mode im) (height im) (width im)
    (fun x y => getpixel im y (height im - 1 - x)).

(** *** [alpha_composite] and [paste] arithmetic *)

Definition uint8 (z : Z) : Z := z `mod` 256.

(** [SHIFTFORDIV255] *)
Definition shift_for_div255 (a : Z) : Z := Z.shiftr (Z.shiftr a 8 + a) 8.

(** [DIV255]: [a / 255] rounded, for [0 <= a <= 255 * 255]. *)
Definition div255 (a : Z) : Z := shift_for_div255 (a + 128).

(** [BLEND8(mask, in1, in2)], stored into an 8-bit band. *)
Definition blend8 (mask in1 in2 : Z) : Z :=
  uint8 (div255 (in1 * (255 - mask) + in2 * mask)).

Definition blend_pixel (mask : Z) (out inp : Pixel) : Pixel :=
  px (blend8 mask (red out) (red inp))
     (blend8 mask (green out) (green inp))
     (blend8 mask (blue out) (blue inp))
     (blend8 mask (alpha out) (alpha inp)).

(** One pixel of [ImagingAlphaComposite]: [src] over [dst]. *)
Definition alpha_composite_pixel (dst src : Pixel) : Pixel :=
  if decide (alpha src = 0) then dst
  else
    let blend := alpha dst * (255 - alpha src) in
    let outa255 := alpha src * 255 + blend in
    let coef1 := (alpha src * 255 * 255 * 128) `div` outa255 in
    let coef2 := 255 * 128 - coef1 in
    let band (s d : Z) :=
      uint8 (Z.shiftr (shift_for_div255 (s * coef1 + d * coef2 + 128 * 128)) 7) in
    px (band (red src) (red dst))
       (band (green src) (green dst))
       (band (blue src) (blue dst))
       (uint8 (shift_for_div255 (outa255 + 128))).

Definition im_alpha_composite (im1 im2 : Image) : Result Image :=
  if decide (mode im1 = RGBA /\ mode im2 = RGBA) then
    if decide (im_size im1 = im_size im2) then
      Ok (raster RGBA (width im1) (height im1)
            (fun x y => alpha_composite_pixel (getpixel im1 x y) (getpixel im2 x y)))
    else Err ValueError   (* images do not match *)
  else Err ValueError.    (* image has wrong mode *)

(** The range of a C [int].  Pillow's C functions parse sizes and box
    coordinates with the format [i]; a Python [int] outside the range makes
    the call raise [OverflowError]. *)
Definition c_int (z : Z) : Prop := - 2 ^ 31 <= z < 2 ^ 31.

#[global] Instance c_int_dec z : Decision (c_int z).
Proof. unfold c_int. apply _. Defined.

(** [paste] extends a two-coordinate box [(x0, y0)] by the pasted image's
    size to [(x0, y0, x0 + width, y0 + height)] and hands the four numbers
    to the C function. *)
Definition box_fits (box : Z * Z) (im : Image) : Prop :=
  c_int box.1 /\ c_int box.2 /\
  c_int (box.1 + width im) /\ c_int (box.2 + height im).

#[global] Instance box_fits_dec box im : Decision (box_fits box im).
Proof. unfold box_fits. apply _. Defined.

(** Clipping of [ImagingPaste] along one axis.  [d0] is where the pasted
    image starts on the destination, [size] its extent, [outsize] the
    destination's extent; the result is the clipped start on the destination,
    the start in the pasted image and the clipped extent. *)
Definition paste_clip (d0 size outsize : Z) : Z * Z * Z :=
  let '(size, s0, d0) :=
    if decide (d0 < 0) then (size + d0, - d0, 0) else (size, 0, d0) in
  let size := if decide (d0 + size > outsize) then outsize - d0 else size in
  (d0, s0, size).

(** The matte value a mask gives at a pixel: the alpha band of an [RGBA]
    mask, the grey value of an [L] mask. *)
Definition mask_value (mask : Image) (x y : Z) : Z :=
  match mode mask with
  | L => red (getpixel mask x y)
  | _ => alpha (getpixel mask x y)
  end.

(** [self.paste(im, box, mask)] with a two-coordinate [box]; the value [self]
    holds afterwards.  The box is parsed before anything is written. *)
Definition im_paste (self im : Image) (box : Z * Z) (mask : Image) : Result Image :=
  let im :=
    if decide (mode self = mode im) then im
    else if decide (mode self = RGB /\ mode im = RGBA) then im
    else im_convert im (mode self) in
  if decide (box_fits box im) then
    if decide (im_size mask = im_size im) then
      let '(dx, sx, xsize) := paste_clip box.1 (width im) (width self) in
      let '(dy, sy, ysize) := paste_clip box.2 (height im) (height self) in
      if decide (xsize <= 0 \/ ysize <= 0) then Ok self
      else
        match mode mask with
        | RGB => Err ValueError   (* bad transparency mask *)
        | _ =>
            Ok (raster (mode self) (width self) (height self) (fun x y =>
                  if decide (dx <= x < dx + xsize /\ dy <= y < dy + ysize)
                  then blend_pixel (mask_value mask (x - dx + sx) (y - dy + sy))
                         (getpixel self x y)
                         (getpixel im (x - dx + sx) (y - dy + sy))
                  else getpixel self x y))
        end
    else Err ValueError         (* images do not match *)
  else Err OverflowError.       (* a box coordinate is no C int *)

Section Resampling.

Context (K : Kernels).

(** [im.resize(size, Image.Resampling.LANCZOS)]: a copy when the size is
    unchanged; otherwise the C function parses the target size, rejects a
    target below 1 x 1 and resamples. *)
Definition im_resize (im : Image) (size : Z * Z) : Result Image :=
  if decide (size = im_size im) then Ok (im_copy im)
  else if decide (c_int size.1 /\ c_int size.2) then
    if decide (size.1 < 1 \/ size.2 < 1)
    then Err ValueError      (* height and width must be > 0 *)
    else Ok (raster (mode im) size.1 size.2 (lanczos_pixel K im size.1 size.2))
  else Err OverflowError.    (* the target size is no pair of C ints *)

(** [im.rotate(angle, expand=True)] *)
Definition im_rotate (im : Image) (angle : Z) : Result Image :=
  a ← Py.mod_360 angle;
  if decide (a = 0) then Ok (im_copy im)
  else if decide (a = 180) then Ok (im_rotate_180 im)
  else if decide (a = 90) then Ok (im_rotate_90 im)
  else if decide (a = 270) then Ok (im_rotate_270 im)
  else
    let '(nw, nh) := affine_size K a (width im) (height im) in
    Ok (raster (mode im) nw nh (affine_pixel K a im)).

End Resampling.

(** ** Pillow images as objects *)

Abbreviation ref := positive.

(** A call into Pillow, with the values of its image arguments when it is
    made. *)
Inductive Call : Type :=
  | CallConvert (im : Image) (m : Mode)
  | CallResize (im : Image) (size : Z * Z)
  | CallRotate (im : Image) (angle : Z)
  | CallNew (m : Mode) (size : Z * Z) (color : Pixel)
  | CallAlphaComposite (im1 im2 : Image)
  | CallPaste (self im : Image) (box : Z * Z) (mask : Image).

Record State : Type := mkState {
  heap : gmap ref Image;   (* the image objects alive *)
  calls : list Call        (* the library calls made so far, oldest first *)
}.

(** Computations that read and update the store and may raise. *)
Definition M (A : Type) : Type := State -> State * Result A.

#[global] Instance M_ret : MRet M := fun A a st => (st, Ok a).
#[global] Instance M_bind : MBind M := fun A B f m st =>
  match m st with
  | (st', Ok a) => f a st'
  | (st', Err e) => (st', Err e)
  end.

Definition lift {A : Type} (r : Result A) : M A := fun st => (st, r).

Definition log (c : Call) : M unit :=
  fun st => (mkState (heap st) (calls st ++ [c]), Ok tt).

Definition alloc (im : Image) : M ref :=
  fun st =>
    let r := fresh (dom (heap st)) in
    (mkState (<[r := im]> (heap st)) (calls st), Ok r).

Definition load (r : ref) : M Image :=
  fun st =>
    (st, match heap st !! r with
         | Some im => Ok im
         | None => Err DanglingReference
         end).

Definition store (r : ref) (im : Image) : M unit :=
  fun st => (mkState (<[r := im]> (heap st)) (calls st), Ok tt).

Definition Image_width (self : ref) : M Z := im ← load self; mret (width im).
Definition Image_height (self : ref) : M Z := im ← load self; mret (height im).
Definition Image_size (self : ref) : M (Z * Z) := im ← load self; mret (im_size im).

Definition Image_convert (self : ref) (m : Mode) : M ref :=
  im ← load self;
  log (CallConvert im m);;
  alloc (im_convert im m).

Definition Image_new (m : Mode) (size : Z * Z) (color : Pixel) : M ref :=
  log (CallNew m size color);;
  alloc (im_new m size color).

Definition Image_alpha_composite (im1 im2 : ref) : M ref :=
  a ← load im1;
  b ← load im2;
  log (CallAlphaComposite a b);;
  out ← lift (im_alpha_composite a b);
  alloc out.

(** [paste] writes into [self]; no object is created. *)
Definition Image_paste (self im : ref) (box : Z * Z) (mask : ref) : M unit :=
  s ← load self;
  i ← load im;
  k ← load mask;
  log (CallPaste s i box k);;
  out ← lift (im_paste s i box k);
  store self out.

Section Compositor.

Context (K : Kernels).

Definition Image_resize (self : ref) (size : Z * Z) : M ref :=
  im ← load self;
  log (CallResize im size);;
  out ← lift (im_resize K im size);
  alloc out.

Definition Image_rotate (self : ref) (angle : Z) : M ref :=
  im ← load self;
  log (CallRotate im angle);;
  out ← lift (im_rotate K im angle);
  alloc out.

(** [add_santa_hat], statement by statement. *)
Definition add_santa_hat (profile_image santa_hat : ref) (hat_scale : Py.float)
    (hat_offset_x hat_offset_y hat_rotation : Z) : M ref :=
  profile_image ← Image_convert profile_image RGBA;
  santa_hat ← Image_convert santa_hat RGBA;
  (* hat_width = int(profile_image.width * hat_scale) *)
  pw ← Image_width profile_image;
  hat_width ← lift (Py.mul_int_float pw hat_scale ≫= Py.int);
  (* hat_height = int(santa_hat.height * (hat_width / santa_hat.width)) *)
  sh ← Image_height santa_hat;
  sw ← Image_width santa_hat;
  hat_height ← lift (q ← Py.truediv hat_width sw;
                     Py.mul_int_float sh q ≫= Py.int);
  santa_hat ← Image_resize santa_hat (hat_width, hat_height);
  santa_hat ← Image_rotate santa_hat hat_rotation;
  (* hat_position *)
  pw ← Image_width profile_image;
  rw ← Image_width santa_hat;
  let hat_position := ((pw - rw) `div` 2 + hat_offset_x, hat_offset_y) in
  (* combined_image = Image.alpha_composite(profile_image, Image.new(...)) *)
  psize ← Image_size profile_image;
  blank ← Image_new RGBA psize transparent;
  combined_image ← Image_alpha_composite profile_image blank;
  Image_paste combined_image santa_hat hat_position santa_hat;;
  mret combined_image.

(** The compositor with the rotation step left out: the resized overlay is
    pasted as it is.  The program has no such path; this is the comparison
    the specification's rotation-neutrality property names. *)
Definition add_santa_hat_unrotated (profile_image santa_hat : ref)
    (hat_scale : Py.float) (hat_offset_x hat_offset_y : Z) : M ref :=
  profile_image ← Image_convert profile_image RGBA;
  santa_hat ← Image_convert santa_hat RGBA;
  pw ← Image_width profile_image;
  hat_width ← lift (Py.mul_int_float pw hat_scale ≫= Py.int);
  sh ← Image_height santa_hat;
  sw ← Image_width santa_hat;
  hat_height ← lift (q ← Py.truediv hat_width sw;
                     Py.mul_int_float sh q ≫= Py.int);
  santa_hat ← Image_resize santa_hat (hat_width, hat_height);
  pw ← Image_width profile_image;
  rw ← Image_width santa_hat;
  let hat_position := ((pw - rw) `div` 2 + hat_offset_x, hat_offset_y) in
  psize ← Image_size profile_image;
  blank ← Image_new RGBA psize transparent;
  combined_image ← Image_alpha_composite profile_image blank;
  Image_paste combined_image santa_hat hat_position santa_hat;;
  mret combined_image.

End Compositor.

(** The image a run returns, read from the final store. *)
Definition returned_image (out : State * Result ref) : Result Image :=
  match out with
  | (st, Ok r) =>
      match heap st !! r with
      | Some im => Ok im
      | None => Err DanglingReference
      end
  | (_, Err e) => Err e
  end.

(** ** The quantities the statements below name *)

(** Lines 43-44 as a function of the two RGBA images' dimensions:
    [pw] the profile width, [sw] x [sh] the hat size. *)
Definition hat_size (pw sw sh : Z) (hat_scale : Py.float) : Result (Z * Z) :=
  hat_width ← Py.mul_int_float pw hat_scale ≫= Py.int;
  hat_height ← (q ← Py.truediv hat_width sw; Py.mul_int_float sh q ≫= Py.int);
  Ok (hat_width, hat_height).

(** The same two lines with [round] in place of [int], as the specification
    writes them. *)
Definition hat_size_rounded (pw sw sh : Z) (hat_scale : Py.float) : Result (Z * Z) :=
  hat_width ← Py.mul_int_float pw hat_scale ≫= Py.round;
  hat_height ← (q ← Py.truediv hat_width sw; Py.mul_int_float sh q ≫= Py.round);
  Ok (hat_width, hat_height).

(** Lines 51-55: [pw] the profile width, [rw] the rotated hat's width. *)
Definition hat_position (pw rw hat_offset_x hat_offset_y : Z) : Z * Z :=
  ((pw - rw) `div` 2 + hat_offset_x, hat_offset_y).

(** Inputs the specification calls valid. *)
Definition valid_raster (im : Image) : Prop := 1 <= width im /\ 1 <= height im.

Definition positive_scale (s : Py.float) : Prop := SFltb Py.zero s = true.

Definition byte (z : Z) : Prop := 0 <= z <= 255.

Definition pixel_ok (p : Pixel) : Prop :=
  byte (red p) /\ byte (green p) /\ byte (blue p) /\ byte (alpha p).

(** Every pixel of the image holds 8-bit values. *)
Definition bytes_ok (im : Image) : Prop :=
  forall x y, pixel_ok (getpixel im x y).

(** The image's alpha band is 0 at every pixel. *)
Definition fully_transparent (im : Image) : Prop :=
  mode im = RGBA /\
  forall x y, 0 <= x < width im -> 0 <= y < height im -> alpha (getpixel im x y) = 0.

(** What [self] holds after [self.paste(hat, (x0, y0), hat)]: inside the
    pasted box each band is blended with the hat's alpha as matte, outside
    it [self] is kept. *)
Definition pasted (self hat : Image) (pos : Z * Z) : Image :=
  raster (mode self) (width self) (height self) (fun x y =>
    if decide (pos.1 <= x < pos.1 + width hat /\ pos.2 <= y < pos.2 + height hat)
    then blend_pixel (alpha (getpixel hat (x - pos.1) (y - pos.2)))
           (getpixel self x y)
           (getpixel hat (x - pos.1) (y - pos.2))
    else getpixel self x y).

(** ** Runs *)

(** [wp m st Q]: running [m] from [st] ends in a state and a result that
    satisfy [Q]. *)
Definition wp {A : Type} (m : M A) (st : State) (Q : State -> Result A -> Prop) : Prop :=
  Q (m st).1 (m st).2.

(** The ways a run of [add_santa_hat] on the images [B] (profile) and [O]
    (hat) can end in the model, with the calls it has made by then. *)
Inductive outcome (K : Kernels) (B O : Image) (hat_scale : Py.float)
    (hat_offset_x hat_offset_y hat_rotation : Z) (st : State) :
    State -> Result ref -> Prop :=
  | size_error st' e :
      hat_size (width (im_convert B RGBA)) (width (im_convert O RGBA))
        (height (im_convert O RGBA)) hat_scale = Err e ->
      calls st' = calls st ++ [CallConvert B RGBA; CallConvert O RGBA] ->
      outcome K B O hat_scale hat_offset_x hat_offset_y hat_rotation st st' (Err e)
  | resize_error st' w h e :
      hat_size (width (im_convert B RGBA)) (width (im_convert O RGBA))
        (height (im_convert O RGBA)) hat_scale = Ok (w, h) ->
      im_resize K (im_convert O RGBA) (w, h) = Err e ->
      calls st' = calls st ++ [CallConvert B RGBA; CallConvert O RGBA;
                               CallResize (im_convert O RGBA) (w, h)] ->
      outcome K B O hat_scale hat_offset_x hat_offset_y hat_rotation st st' (Err e)
  | rotate_error st' w h resized e :
      hat_size (width (im_convert B RGBA)) (width (im_convert O RGBA))
        (height (im_convert O RGBA)) hat_scale = Ok (w, h) ->
      im_resize K (im_convert O RGBA) (w, h) = Ok resized ->
      im_rotate K resized hat_rotation = Err e ->
      calls st' = calls st ++ [CallConvert B RGBA; CallConvert O RGBA;
                               CallResize (im_convert O RGBA) (w, h);
                               CallRotate resized hat_rotation] ->
      outcome K B O hat_scale hat_offset_x hat_offset_y hat_rotation st st' (Err e)
  | paste_error st' w h resized rotated :
      hat_size (width (im_convert B RGBA)) (width (im_convert O RGBA))
        (height (im_convert O RGBA)) hat_scale = Ok (w, h) ->
      im_resize K (im_convert O RGBA) (w, h) = Ok resized ->
      im_rotate K resized hat_rotation = Ok rotated ->
      ~ box_fits (hat_position (width (im_convert B RGBA)) (width rotated)
                    hat_offset_x hat_offset_y) rotated ->
      calls st' = calls st ++ [CallConvert B RGBA; CallConvert O RGBA;
                               CallResize (im_convert O RGBA) (w, h);
                               CallRotate resized hat_rotation;
                               CallNew RGBA (im_size (im_convert B RGBA)) transparent;
                               CallAlphaComposite (im_convert B RGBA)
                                 (im_new RGBA (im_size (im_convert B RGBA)) transparent);
                               CallPaste (im_convert B RGBA) rotated
                                 (hat_position (width (im_convert B RGBA)) (width rotated)
                                    hat_offset_x hat_offset_y)
                                 rotated] ->
      outcome K B O hat_scale hat_offset_x hat_offset_y hat_rotation st st'
        (Err OverflowError)
  | returned st' w h resized rotated r :
      hat_size (width (im_convert B RGBA)) (width (im_convert O RGBA))
        (height (im_convert O RGBA)) hat_scale = Ok (w, h) ->
      im_resize K (im_convert O RGBA) (w, h) = Ok resized ->
      im_rotate K resized hat_rotation = Ok rotated ->
      box_fits (hat_position (width (im_convert B RGBA)) (width rotated)
                  hat_offset_x hat_offset_y) rotated ->
      heap st !! r = None ->
      heap st' !! r =
        Some (pasted (im_convert B RGBA) rotated
                (hat_position (width (im_convert B RGBA)) (width rotated)
                   hat_offset_x hat_offset_y)) ->
      calls st' = calls st ++ [CallConvert B RGBA; CallConvert O RGBA;
                               CallResize (im_convert O RGBA) (w, h);
                               CallRotate resized hat_rotation;
                               CallNew RGBA (im_size (im_convert B RGBA)) transparent;
                               CallAlphaComposite (im_convert B RGBA)
                                 (im_new RGBA (im_size (im_convert B RGBA)) transparent);
                               CallPaste (im_convert B RGBA) rotated
                                 (hat_position (width (im_convert B RGBA)) (width rotated)
                                    hat_offset_x hat_offset_y)
                                 rotated] ->
      outcome K B O hat_scale hat_offset_x hat_offset_y hat_rotation st st' (Ok r).

(** ** Observing a run *)

(** The calls made between two states of one run. *)
Definition new_calls (st st' : State) : list Call :=
  drop (length (calls st)) (calls st').

(** The [resize] calls among [cs]: the image resized and the size asked. *)
Definition resize_requests (cs : list Call) : list (Image * (Z * Z)) :=
  omap (fun c => match c with CallResize im size => Some (im, size) | _ => None end) cs.

(** The [rotate] calls among [cs]: the image rotated and the angle. *)
Definition rotate_requests (cs : list Call) : list (Image * Z) :=
  omap (fun c => match c with CallRotate im angle => Some (im, angle) | _ => None end) cs.

(** The [paste] calls among [cs]: receiver, pasted image and top-left corner. *)
Definition paste_requests (cs : list Call) : list (Image * Image * (Z * Z)) :=
  omap (fun c => match c with CallPaste self im box _ => Some (self, im, box) | _ => None end) cs.

(** The returned image as a function of the two input images. *)
Definition composite (K : Kernels) (B O : Image) (hat_scale : Py.float)
    (hat_offset_x hat_offset_y hat_rotation : Z) : Result Image :=
  let profile := im_convert B RGBA in
  let hat := im_convert O RGBA in
  size ← hat_size (width profile) (width hat) (height hat) hat_scale;
  resized ← im_resize K hat size;
  rotated ← im_rotate K resized hat_rotation;
  let box := hat_position (width profile) (width rotated) hat_offset_x hat_offset_y in
  if decide (box_fits box rotated) then Ok (pasted profile rotated box)
  else Err OverflowError.

Definition composite_unrotated (K : Kernels) (B O : Image) (hat_scale : Py.float)
    (hat_offset_x hat_offset_y : Z) : Result Image :=
  let profile := im_convert B RGBA in
  let hat := im_convert O RGBA in
  size ← hat_size (width profile) (width hat) (height hat) hat_scale;
  resized ← im_resize K hat size;
  let box := hat_position (width profile) (width resized) hat_offset_x hat_offset_y in
  if decide (box_fits box resized) then Ok (pasted profile resized box)
  else Err OverflowError.

(** Python's [hat_scale <= 0]. *)
Definition nonpositive_scale (s : Py.float) : Prop := SFleb s Py.zero = true.

(** The float is [nan] or carries the sign [sx]. *)
Definition sign_is (sx : bool) (x : Py.float) : Prop :=
  match x with
  | S754_nan => True
  | S754_zero s' | S754_infinity s' | S754_finite s' _ _ => s' = sx
  end.

(** The float is [nan], a zero, or negative. *)
Definition not_positive (x : Py.float) : Prop :=
  match x with
  | S754_nan | S754_zero _ => True
  | S754_infinity s' | S754_finite s' _ _ => s' = true
  end.

(** Reading the image anywhere gives alpha 0. *)
Definition transparent_everywhere (im : Image) : Prop :=
  forall u v, alpha (getpixel im u v) = 0.

(** The size [resize] is asked for, from the two input pictures. *)
Definition target_size (B O : Image) (s : Py.float) : Result (Z * Z) :=
  hat_size (width (im_convert B RGBA)) (width (im_convert O RGBA))
    (height (im_convert O RGBA)) s.

(** Resampling a picture whose alpha band is 0 everywhere gives alpha 0
    everywhere: the filter sees only zeros in the premultiplied bands, and
    the rotation copies source pixels or the transparent fill. *)
Definition keeps_transparency (K : Kernels) : Prop :=
  (forall im w h x y,
      (forall u v, alpha (getpixel im u v) = 0) ->
      alpha (lanczos_pixel K im w h x y) = 0) /\
  (forall a im x y,
      (forall u v, alpha (getpixel im u v) = 0) ->
      alpha (affine_pixel K a im x y) = 0).

(** ** Example data *)

Definition white : Pixel := px 255 255 255 255.
Definition opaque_red : Pixel := px 255 0 0 255.
Definition half_red : Pixel := px 255 0 0 128.

(** A store holding a profile picture at reference 1 and a hat at 2. *)
Definition initial_store (B O : Image) : State :=
  mkState (<[2%positive := O]> (<[1%positive := B]> ∅)) [].

(** A 4 x 4 white [RGB] profile picture and a 2 x 1 half-transparent hat. *)
Definition small_profile : Image := im_new RGB (4, 4) white.
Definition small_hat : Image := im_new RGBA (2, 1) half_red.

(** The floats [0.5], [0.75] and [1.0]. *)
Definition scale_half : Py.float := Py.dyadic 1 (-1).
Definition scale_three_quarters : Py.float := Py.dyadic 3 (-2).
Definition scale_one : Py.float := Py.dyadic 1 0.

(** The specification's reading of the scale step: the image handed to
    [rotate] has the rounded size. *)
Definition resized_to_rounded_size (K : Kernels) (st : State) (b o : ref)
    (B O : Image) (s : Py.float) (ox oy rot : Z) : Prop :=
  forall st' res resized angle,
    add_santa_hat K b o s ox oy rot st = (st', res) ->
    (resized, angle) ∈ rotate_requests (new_calls st st') ->
    hat_size_rounded (width B) (width O) (height O) s = Ok (im_size resized).

(** The image shows the colour [c] at every pixel. *)
Definition flat (im : Image) (c : Pixel) : Prop :=
  forall x y, 0 <= x < width im -> 0 <= y < height im -> getpixel im x y = c.

(** Resampling the flat picture [im] to [w] x [h] gives the same flat colour
    (the filter's weights sum to one). *)
Definition flat_resample (K : Kernels) (im : Image) (w h : Z) (c : Pixel) : Prop :=
  flat im c ->
  forall x y, 0 <= x < w -> 0 <= y < h -> lanczos_pixel K im w h x y = c.

(** The pictures of the specification's scenario. *)
Definition scenario_profile : Image := im_new RGBA (800, 800) white.
Definition scenario_hat : Image := im_new RGBA (200, 100) opaque_red.

(** A 100 x 1 profile and a 1000 x 1 hat. *)
Definition wide_profile : Image := im_new RGB (100, 1) white.
Definition flat_hat : Image := im_new RGBA (1000, 1) opaque_red.

(** Under the placed hat every pixel of the result is [blend base hat];
    elsewhere it is the profile picture's pixel. *)
Definition composited_with (blend : Pixel -> Pixel -> Pixel) (K : Kernels)
    (st : State) (b o : ref) (B O : Image) (s : Py.float) (ox oy rot : Z) : Prop :=
  forall st' r,
    add_santa_hat K b o s ox oy rot st = (st', Ok r) ->
    exists out self hat pos,
      heap st' !! r = Some out /\
      paste_requests (new_calls st st') = [(self, hat, pos)] /\
      forall x y, 0 <= x < width B -> 0 <= y < height B ->
        getpixel out x y =
        if decide (pos.1 <= x < pos.1 + width hat /\ pos.2 <= y < pos.2 + height hat)
        then blend (getpixel (im_convert B RGBA) x y)
               (getpixel hat (x - pos.1) (y - pos.2))
        else getpixel (im_convert B RGBA) x y.

(** The specification's reading of the blend: the "over" operator, alpha
    band included. *)
Definition composited_over := composited_with alpha_composite_pixel.

(** What [paste] with the hat as its own mask does: each of the four bands
    is the mean of profile and hat weighted by the hat's alpha. *)
Definition paste_blend (base hat : Pixel) : Pixel := blend_pixel (alpha hat) base hat.

Definition composited_by_paste := composited_with paste_blend.

(** One-pixel pictures: a white profile and a half-transparent red hat. *)
Definition pixel_profile : Image := im_new RGB (1, 1) white.
Definition pixel_hat : Image := im_new RGBA (1, 1) half_red.

(** A 5 x 5 profile and a 3 x 3 hat. *)
Definition profile_5x5 : Image := im_new RGB (5, 5) white.
Definition hat_3x3 : Image := im_new RGBA (3, 3) opaque_red.

(** ** The script around the compositor *)

(** A path is the list of its components: "assets/santa_hat.png" is
    [["assets"; "santa_hat.png"]], and the empty path is the working
    directory. *)
Abbreviation path := (list string).
Abbreviation bytes := (list Byte.byte).

Definition SANTA_HAT_PATH : path := ["assets"; "santa_hat.png"].
Definition OUTPUT_DIR : path := ["outputs"].

(** [os.path.join(dir, name)] *)
Definition os_path_join (dir : path) (name : string) : path := dir ++ [name].

(** Exceptions of the script: those of the compositor and those of the file
    system, the image decoder and the widgets. *)
Inductive Exn : Type :=
  | PyExn (e : PyError)
  | FileNotFoundError
  | FileExistsError
  | IsADirectoryError
  | NotADirectoryError
  | UnidentifiedImageError
  | StreamlitAPIException.

Inductive Outcome (A : Type) : Type :=
  | Returned (a : A)
  | Raised (e : Exn).
Arguments Returned {A} a.
Arguments Raised {A} e.

#[global] Instance Exn_eq_dec : EqDecision Exn.
Proof. solve_decision. Defined.

(** *** Files *)

Inductive Node : Type :=
  | File (data : bytes)
  | Dir.

(** The node a path names; the working directory always exists. *)
Definition node_at (fs : gmap path Node) (p : path) : option Node :=
  match p with
  | [] => Some Dir
  | _ => fs !! p
  end.

(** Path resolution, one component at a time: a missing component raises
    [FileNotFoundError], a regular file used as a directory raises
    [NotADirectoryError]. *)
Fixpoint descend (fs : gmap path Node) (cur : path) (rest : list string) : Outcome Node :=
  match node_at fs cur with
  | None => Raised FileNotFoundError
  | Some n =>
      match rest with
      | [] => Returned n
      | c :: rest' =>
          match n with
          | File _ => Raised NotADirectoryError
          | Dir => descend fs (cur ++ [c]) rest'
          end
      end
  end.

(** [os.stat(p)] *)
Definition stat (fs : gmap path Node) (p : path) : Outcome Node := descend fs [] p.

(** [os.path.exists(p)] and [os.path.isdir(p)] *)
Definition path_exists (fs : gmap path Node) (p : path) : bool :=
  match stat fs p with
  | Returned _ => true
  | Raised _ => false
  end.

Definition path_isdir (fs : gmap path Node) (p : path) : bool :=
  match stat fs p with
  | Returned Dir => true
  | _ => false
  end.

(** [os.mkdir(p)] *)
Definition os_mkdir (p : path) (fs : gmap path Node) : gmap path Node * Outcome unit :=
  match stat fs p with
  | Returned _ => (fs, Raised FileExistsError)
  | Raised FileNotFoundError =>
      match stat fs (removelast p) with
      | Returned Dir => (<[p := Dir]> fs, Returned tt)
      | Returned (File _) => (fs, Raised NotADirectoryError)
      | Raised e => (fs, Raised e)
      end
  | Raised e => (fs, Raised e)
  end.

(** [os.makedirs(name, exist_ok=...)], on the reversed path [tail :: head]:
    missing ancestors are created first; an [OSError] of the final [mkdir] is
    swallowed only when [exist_ok] holds and the path is a directory. *)
Fixpoint makedirs_rev (rp : list string) (exist_ok : bool) (fs : gmap path Node)
    : gmap path Node * Outcome unit :=
  let final (fs : gmap path Node) :=
    match os_mkdir (rev rp) fs with
    | (fs', Raised e) =>
        if negb exist_ok || negb (path_isdir fs' (rev rp))
        then (fs', Raised e)
        else (fs', Returned tt)
    | done => done
    end in
  match rp with
  | [] => final fs
  | tail :: rhead =>
      if negb (bool_decide (rhead = [])) && negb (path_exists fs (rev rhead))
      then
        match makedirs_rev rhead exist_ok fs with
        | (fs', Raised FileExistsError) | (fs', Returned _) =>
            if bool_decide (tail = ".") then (fs', Returned tt) else final fs'
        | (fs', Raised e) => (fs', Raised e)
        end
      else final fs
  end.

Definition os_makedirs (p : path) (exist_ok : bool) (fs : gmap path Node)
    : gmap path Node * Outcome unit :=
  makedirs_rev (rev p) exist_ok fs.

(** Reading a whole file: [open(p, "rb").read()]. *)
Definition read_file (fs : gmap path Node) (p : path) : Outcome bytes :=
  match stat fs p with
  | Returned (File data) => Returned data
  | Returned Dir => Raised IsADirectoryError
  | Raised e => Raised e
  end.

(** Writing a whole file: [open(p, "w+b")], which creates or truncates
    it, then the data. *)
Definition write_file (p : path) (data : bytes) (fs : gmap path Node)
    : gmap path Node * Outcome unit :=
  match stat fs (removelast p) with
  | Returned Dir =>
      match stat fs p with
      | Returned Dir => (fs, Raised IsADirectoryError)
      | _ => (<[p := File data]> fs, Returned tt)
      end
  | Returned (File _) => (fs, Raised NotADirectoryError)
  | Raised e => (fs, Raised e)
  end.

(** *** Widgets *)

(** A call into Streamlit, with its arguments. *)
Inductive Widget : Type :=
  | st_title (body : string)
  | st_error (body : string)
  | st_file_uploader (label : string) (type : list string)
  | st_slider_float (label : string) (min_value max_value value step : Py.float)
  | st_slider_int (label : string) (min_value max_value value step : Z)
  | st_image (image : Image) (caption : string) (use_container_width : bool)
  | st_download_button (label : string) (data : bytes) (file_name mime : string).

(** What one run of the script gets from outside: the image codecs, the
    file in the uploader (if any) and what each slider returns (a value, or
    an exception of the widget).

    [decode d = Some im] stands for bytes that Pillow identifies as a
    picture and decodes completely to [im]; [decode d = None] for bytes it
    does not identify.  Pillow reads the pixel data lazily, at the first
    [convert]; a file whose header identifies but whose data is damaged
    (an [OSError] at that first read, inside the compositor) has no [decode]
    value and is outside the runs described here. *)
Record Env : Type := {
  decode : bytes -> option Image;   (* [None]: the bytes are no picture *)
  encode_png : Image -> bytes;
  upload : option bytes;
  pick_float : string -> Py.float -> Py.float -> Py.float -> Py.float -> Outcome Py.float;
  pick_int : string -> Z -> Z -> Z -> Z -> Outcome Z
}.

(** *** The script's state and monad *)

Record World : Type := mkWorld {
  pillow : State;              (* the image objects and the Pillow calls *)
  files : gmap path Node;      (* the file system under the working directory *)
  page : list Widget           (* the Streamlit calls made so far, oldest first *)
}.

Definition App (A : Type) : Type := World -> World * Outcome A.

#[global] Instance App_ret : MRet App := fun A a w => (w, Returned a).
#[global] Instance App_bind : MBind App := fun A B f m w =>
  match m w with
  | (w', Returned a) => f a w'
  | (w', Raised e) => (w', Raised e)
  end.

Definition raise {A : Type} (e : Exn) : App A := fun w => (w, Raised e).

Definition result {A : Type} (r : Outcome A) : App A := fun w => (w, r).

(** [open(p, "rb")] read to the end. *)
Definition read (p : path) : App bytes := fun w => (w, read_file (files w) p).

Definition st_call (x : Widget) : App unit :=
  fun w => (mkWorld (pillow w) (files w) (page w ++ [x]), Returned tt).

Definition with_files {A : Type}
    (f : gmap path Node -> gmap path Node * Outcome A) : App A :=
  fun w =>
    let '(fs, r) := f (files w) in
    (mkWorld (pillow w) fs (page w), r).

(** A Pillow computation inside the script; its exceptions propagate. *)
Definition with_pillow {A : Type} (m : M A) : App A :=
  fun w =>
    let '(st, r) := m (pillow w) in
    (mkWorld st (files w) (page w),
     match r with
     | Ok a => Returned a
     | Err e => Raised (PyExn e)
     end).

(** [try: body except FileNotFoundError: ...]: [None] when the handler is
    taken. *)
Definition except_FileNotFoundError {A : Type} (body : App A) : App (option A) :=
  fun w =>
    match body w with
    | (w', Returned a) => (w', Returned (Some a))
    | (w', Raised FileNotFoundError) => (w', Returned None)
    | (w', Raised e) => (w', Raised e)
    end.

(** [Image.open] on the content of a file, for files that decode completely
    once identified: the object then holds the pixels the first read will
    give. *)
Definition Image_open_bytes (env : Env) (data : bytes) : App ref :=
  match decode env data with
  | Some im => with_pillow (alloc im)
  | None => raise UnidentifiedImageError
  end.

(** [Image.open(path)] *)
Definition Image_open (env : Env) (p : path) : App ref :=
  data ← read p;
  Image_open_bytes env data.

(** [image.save(path, format="PNG")] *)
Definition Image_save_png (env : Env) (self : ref) (p : path) : App unit :=
  im ← with_pillow (load self);
  with_files (write_file p (encode_png env im)).

Definition file_uploader (env : Env) (label : string) (type : list string)
    : App (option bytes) :=
  st_call (st_file_uploader label type);;
  mret (upload env).

Definition slider_float (env : Env) (label : string)
    (min_value max_value value step : Py.float) : App Py.float :=
  st_call (st_slider_float label min_value max_value value step);;
  result (pick_float env label min_value max_value value step).

Definition slider_int (env : Env) (label : string)
    (min_value max_value value step : Z) : App Z :=
  st_call (st_slider_int label min_value max_value value step);;
  result (pick_int env label min_value max_value value step).

(** The float literals of the sliders: [0.1], [1.0], [0.6], [0.05]. *)
Definition f_0_1 : Py.float := S754_finite false 7205759403792794 (-56).
Definition f_1_0 : Py.float := S754_finite false 4503599627370496 (-52).
Definition f_0_6 : Py.float := S754_finite false 5404319552844595 (-53).
Definition f_0_05 : Py.float := S754_finite false 7205759403792794 (-57).

(** [prepare_directories] *)
Definition prepare_directories : App unit :=
  with_files (os_makedirs OUTPUT_DIR true).

(** [main], statement by statement. *)
Definition main (env : Env) (K : Kernels) : App unit :=
  st_call (st_title "サンタプロフィール画像メーカー");;
  santa_hat ← except_FileNotFoundError (Image_open env SANTA_HAT_PATH);
  match santa_hat with
  | None =>
      st_call (st_error
        "サンタクロースの帽子画像が見つかりません！assetsディレクトリにsanta_hat.pngを配置してください。")
  | Some santa_hat =>
      uploaded_file ← file_uploader env "プロフィール画像をアップロードしてください"
                        ["jpg"; "jpeg"; "png"];
      match uploaded_file with
      | None => mret tt
      | Some uploaded_file =>
          profile_image ← Image_open_bytes env uploaded_file;
          hat_scale ← slider_float env "帽子のサイズ (画像幅に対する割合)"
                        f_0_1 f_1_0 f_0_6 f_0_05;
          pw ← with_pillow (Image_width profile_image);
          hat_offset_x ← slider_int env "帽子の横方向位置調整" (- pw) pw 0 5;
          ph ← with_pillow (Image_height profile_image);
          hat_offset_y ← slider_int env "帽子の縦方向位置調整" (- ph) ph (-10) 5;
          hat_rotation ← slider_int env "帽子の回転角度 (度)" (-180) 180 0 5;
          combined_image ← with_pillow
            (add_santa_hat K profile_image santa_hat
               hat_scale hat_offset_x hat_offset_y hat_rotation);
          shown ← with_pillow (load combined_image);
          st_call (st_image shown "サンタクロースプロフィール画像" true);;
          let output_path := os_path_join OUTPUT_DIR "santa_profile.png" in
          Image_save_png env combined_image output_path;;
          data ← read output_path;
          st_call (st_download_button "画像をダウンロード" data
                     "santa_profile.png" "image/png")
      end
  end.

(** The [__main__] block. *)
Definition script (env : Env) (K : Kernels) : App unit :=
  prepare_directories;;
  main env K.

(** What the four sliders return in this run, for the uploaded picture [B]. *)
Definition picked_scale (env : Env) : Outcome Py.float :=
  pick_float env "帽子のサイズ (画像幅に対する割合)" f_0_1 f_1_0 f_0_6 f_0_05.

Definition picked_offset_x (env : Env) (B : Image) : Outcome Z :=
  pick_int env "帽子の横方向位置調整" (- width B) (width B) 0 5.

Definition picked_offset_y (env : Env) (B : Image) : Outcome Z :=
  pick_int env "帽子の縦方向位置調整" (- height B) (height B) (-10) 5.

Definition picked_rotation (env : Env) : Outcome Z :=
  pick_int env "帽子の回転角度 (度)" (-180) 180 0 5.

(** The file the script writes. *)
Definition output_path : path := os_path_join OUTPUT_DIR "santa_profile.png".

(** [awp m w Q]: running [m] from the world [w] ends in a world and an
    outcome that satisfy [Q]. *)
Definition awp {A : Type} (m : App A) (w : World) (Q : World -> Outcome A -> Prop) : Prop :=
  Q (m w).1 (m w).2.

(** [m] leaves every file other than [p] as it was. *)
Definition writes_only (p : path) {A : Type} (m : App A) : Prop :=
  forall w q, q <> p -> files (m w).1 !! q = files w !! q.

(** The widgets a run shows before it composes: the title, the uploader and
    the four sliders with the bounds taken from the uploaded picture [B]. *)
Definition is_controls (B : Image) (ws : list Widget) : Prop :=
  exists title l0 ty l1 l2 l3 l4,
    ws = [st_title title; st_file_uploader l0 ty;
          st_slider_float l1 f_0_1 f_1_0 f_0_6 f_0_05;
          st_slider_int l2 (- width B) (width B) 0 5;
          st_slider_int l3 (- height B) (height B) (-10) 5;
          st_slider_int l4 (-180) 180 0 5].

(** A sample environment: one-byte "files", sliders left at their defaults. *)
Definition sample_env (up : option bytes) : Env :=
  {| decode := fun d =>
       match d with
       | [Byte.x01] => Some small_hat
       | [Byte.x02] => Some small_profile
       | [Byte.x03] => Some pixel_profile
       | _ => None
       end;
     encode_png := fun im => [Byte.x89; Byte.x50; Byte.x4e; Byte.x47];
     upload := up;
     pick_float := fun _ _ _ v _ => Returned v;
     pick_int := fun _ _ _ v _ => Returned v |}.

Definition empty_world (fs : gmap path Node) : World :=
  mkWorld (mkState ∅ []) fs [].

(** A checkout with the hat asset in place and no output directory yet. *)
Definition fresh_checkout : gmap path Node :=
  <[SANTA_HAT_PATH := File [Byte.x01]]> (<[["assets"] := Dir]> ∅).

(** The statements of [main] from the call of the compositor on: compose,
    show, save, offer for download. *)
Definition compose_and_publish (env : Env) (K : Kernels) (profile_image santa_hat : ref)
    (hat_scale : Py.float) (hat_offset_x hat_offset_y hat_rotation : Z) : App unit :=
  combined_image ← with_pillow
    (add_santa_hat K profile_image santa_hat
       hat_scale hat_offset_x hat_offset_y hat_rotation);
  shown ← with_pillow (load combined_image);
  st_call (st_image shown "サンタクロースプロフィール画像" true);;
  let output_path := os_path_join OUTPUT_DIR "santa_profile.png" in
  Image_save_png env combined_image output_path;;
  data ← read output_path;
  st_call (st_download_button "画像をダウンロード" data
             "santa_profile.png" "image/png").

(** A run in which the hat asset and the upload both open and the four
    sliders return: [O] is the hat, [B] the uploaded picture. *)
Definition run_with_upload (env : Env) (w : World) (O B : Image)
    (s : Py.float) (ox oy rot : Z) : Prop :=
  exists a d,
    read_file (files w) SANTA_HAT_PATH = Returned a /\
    decode env a = Some O /\
    upload env = Some d /\
    decode env d = Some B /\
    picked_scale env = Returned s /\
    picked_offset_x env B = Returned ox /\
    picked_offset_y env B = Returned oy /\
    picked_rotation env = Returned rot.

(** * Properties *)

(** ** The model on concrete values *)

(** The scenario's target size: [int(800 * 0.5) = 400],
    [int(100 * (400 / 200)) = 200]. *)
Example hat_size_scenario : hat_size 800 200 100 scale_half = Ok (400, 200).
Proof. reflexivity. Qed.

(** [int] truncates where [round] goes to the nearest integer. *)
Example int_truncates :
  Py.mul_int_float 5 scale_three_quarters ≫= Py.int = Ok 3 /\
  Py.mul_int_float 5 scale_three_quarters ≫= Py.round = Ok 4.
Proof. split; reflexivity. Qed.

(** The product is a float product: [10 * 0.7] is exactly [7.0] in binary64
    although the double nearest to 0.7 lies below 0.7. *)
Example float_product_is_rounded :
  Py.mul_int_float 10 (S754_finite false 6305039478318694 (-53)) ≫= Py.int = Ok 7.
Proof. reflexivity. Qed.

(** [-90 % 360.0] is [270.0]. *)
Example mod_360_negative : Py.mod_360 (-90) = Ok 270.
Proof. reflexivity. Qed.

(** A quarter turn of a 2 x 1 picture is 1 x 2, its right pixel on top. *)
Example rotate_quarter_turn :
  im_rotate nearest_kernels (raster RGBA 2 1 (fun x _ => px x 0 0 255)) 90 =
  Ok (mkImage RGBA 1 2 [[px 1 0 0 255]; [px 0 0 0 255]]).
Proof. reflexivity. Qed.

(** Sizes and box coordinates are C [int]s: on one-pixel pictures a scale of
    [2^31] makes [resize] raise [OverflowError], and so does a vertical
    offset of [2^31 - 1] in [paste] (the box's lower edge is [2^31]). *)
Example resize_target_overflow :
  (add_santa_hat nearest_kernels 1 2 (Py.dyadic 1 31) 0 0 0
     (initial_store pixel_profile pixel_hat)).2 = Err OverflowError.
Proof. by vm_compute. Qed.

Example paste_box_overflow :
  (add_santa_hat nearest_kernels 1 2 scale_one 0 2147483647 0
     (initial_store pixel_profile pixel_hat)).2 = Err OverflowError /\
  (add_santa_hat nearest_kernels 1 2 scale_one 0 2147483646 0
     (initial_store pixel_profile pixel_hat)).2 = Ok 8%positive.
Proof. split; by vm_compute. Qed.

(** Pasting half-transparent red on opaque white. *)
Example paste_half_red :
  blend_pixel 128 white half_red = px 255 127 127 191 /\
  alpha_composite_pixel white half_red = px 255 127 127 255.
Proof. split; reflexivity. Qed.

(** ** Rasters *)

Section RasterFacts.

Implicit Types (m : Mode) (w h x y : Z) (f g : Z -> Z -> Pixel) (im : Image).

Lemma mode_raster m w h f : mode (raster m w h f) = m.
Proof. reflexivity. Qed.

Lemma width_raster m w h f : width (raster m w h f) = Z.max 0 w.
Proof. reflexivity. Qed.

Lemma height_raster m w h f : height (raster m w h f) = Z.max 0 h.
Proof. reflexivity. Qed.

Lemma getpixel_raster m w h f x y :
  0 <= x < w -> 0 <= y < h -> getpixel (raster m w h f) x y = f x y.
Proof.
  intros Hx Hy. unfold getpixel, raster; cbn [width height rows].
  rewrite decide_True by lia.
  rewrite list_lookup_fmap, lookup_seqZ_lt by lia. cbn.
  rewrite list_lookup_fmap, lookup_seqZ_lt by lia. cbn.
  f_equal; lia.
Qed.

Lemma getpixel_outside im x y :
  ~ (0 <= x < width im /\ 0 <= y < height im) -> getpixel im x y = transparent.
Proof. intros H. unfold getpixel. by rewrite decide_False. Qed.

(** Two rasters filled with pixels that agree on the canvas are the same
    image. *)
Lemma raster_ext m w h f g :
  (forall x y, 0 <= x < w -> 0 <= y < h -> f x y = g x y) ->
  raster m w h f = raster m w h g.
Proof.
  intros H. unfold raster. f_equal.
  apply Forall_fmap_ext, Forall_seqZ. intros y Hy.
  apply Forall_fmap_ext, Forall_seqZ. intros x Hx.
  apply H; lia.
Qed.

Lemma seqZ_max n : seqZ 0 (Z.max 0 n) = seqZ 0 n.
Proof. unfold seqZ. f_equal. f_equal. lia. Qed.

Lemma raster_max m w h f :
  raster m (Z.max 0 w) (Z.max 0 h) f = raster m w h f.
Proof.
  unfold raster. rewrite !seqZ_max. f_equal; lia.
Qed.

Lemma well_formed_raster m w h f : well_formed (raster m w h f).
Proof.
  unfold well_formed, raster; cbn. repeat split; try lia.
  - rewrite length_fmap, length_seqZ. lia.
  - apply Forall_fmap, Forall_forall. intros y _. cbn.
    rewrite length_fmap, length_seqZ. lia.
Qed.

(** On a well-formed image [raster] and [getpixel] are inverse: reading every
    pixel and writing it back gives the same image. *)
Lemma im_copy_well_formed im : well_formed im -> im_copy im = im.
Proof.
  destruct im as [m w h rs]. unfold well_formed, im_copy, raster; cbn.
  intros (Hw & Hh & Hlen & Hrows).
  rewrite !Z.max_r by lia. f_equal.
  apply list_eq. intros i. rewrite list_lookup_fmap.
  destruct (decide (i < length rs)%nat) as [Hi|Hi].
  - rewrite lookup_seqZ_lt by lia. cbn.
    destruct (lookup_lt_is_Some_2 rs i Hi) as [row Hrow]. rewrite Hrow. f_equal.
    assert (length row = Z.to_nat w) as Hrl
      by (eapply (proj1 (Forall_lookup _ _) Hrows); eauto).
    apply list_eq. intros j. rewrite list_lookup_fmap.
    destruct (decide (j < length row)%nat) as [Hj|Hj].
    + rewrite lookup_seqZ_lt by lia. cbn.
      unfold getpixel; cbn. rewrite decide_True by lia.
      rewrite !Z.add_0_l, !Nat2Z.id, Hrow. cbn.
      destruct (lookup_lt_is_Some_2 row j Hj) as [p Hp]. by rewrite Hp.
    + rewrite lookup_seqZ_ge by lia. cbn.
      symmetry. apply lookup_ge_None. lia.
  - rewrite lookup_seqZ_ge by lia. cbn.
    symmetry. apply lookup_ge_None. lia.
Qed.

(** Copying a raster gives the raster back. *)
Lemma im_copy_raster m w h f : im_copy (raster m w h f) = raster m w h f.
Proof.
  unfold im_copy. rewrite mode_raster, width_raster, height_raster, raster_max.
  apply raster_ext. intros. by apply getpixel_raster.
Qed.

Lemma im_copy_idemp im : im_copy (im_copy im) = im_copy im.
Proof. apply im_copy_raster. Qed.

Lemma getpixel_im_copy im x y : getpixel (im_copy im) x y = getpixel im x y.
Proof.
  destruct (decide (0 <= x < width im /\ 0 <= y < height im)) as [[??]|Hn].
  - by apply getpixel_raster.
  - rewrite (getpixel_outside im) by done.
    apply getpixel_outside. unfold im_copy.
    rewrite width_raster, height_raster. lia.
Qed.

Lemma im_size_raster m w h f :
  0 <= w -> 0 <= h -> im_size (raster m w h f) = (w, h).
Proof. intros. unfold im_size. rewrite width_raster, height_raster. f_equal; lia. Qed.

Lemma mode_im_convert im m : mode (im_convert im m) = m.
Proof. unfold im_convert. case_decide; [by subst|done]. Qed.

Lemma width_im_convert im m : width (im_convert im m) = Z.max 0 (width im).
Proof. unfold im_convert. by case_decide. Qed.

Lemma height_im_convert im m : height (im_convert im m) = Z.max 0 (height im).
Proof. unfold im_convert. by case_decide. Qed.

Lemma im_convert_alt im m :
  im_convert im m =
  raster m (width im) (height im)
    (fun x y => convert_pixel (mode im) m (getpixel im x y)).
Proof.
  unfold im_convert. case_decide as Hm; [|done]. subst m.
  unfold im_copy. apply raster_ext. intros. by destruct (mode im).
Qed.

Lemma getpixel_im_convert im m x y :
  0 <= x < width im -> 0 <= y < height im ->
  getpixel (im_convert im m) x y = convert_pixel (mode im) m (getpixel im x y).
Proof. intros. rewrite im_convert_alt. by apply getpixel_raster. Qed.

Lemma im_copy_im_convert im m : im_copy (im_convert im m) = im_convert im m.
Proof. rewrite im_convert_alt. apply im_copy_raster. Qed.

End RasterFacts.

(** ** 8-bit blending *)

Lemma div255_table : Forall (fun v => div255 (v * 255) = v) (seqZ 0 256).
Proof. apply (bool_decide_unpack _). by vm_compute. Qed.

Lemma div255_mul255 v : byte v -> div255 (v * 255) = v.
Proof.
  intros Hv. pose proof div255_table as H.
  rewrite Forall_seqZ in H. apply H. unfold byte in Hv. lia.
Qed.

(** A matte of 0 keeps the destination band. *)
Lemma blend8_clear o i : byte o -> blend8 0 o i = o.
Proof.
  intros Ho. unfold blend8.
  replace (o * (255 - 0) + i * 0) with (o * 255) by lia.
  rewrite div255_mul255 by done. unfold uint8, byte in *.
  apply Z.mod_small. lia.
Qed.

(** A matte of 255 takes the pasted band. *)
Lemma blend8_full o i : byte i -> blend8 255 o i = i.
Proof.
  intros Hi. unfold blend8.
  replace (o * (255 - 255) + i * 255) with (i * 255) by lia.
  rewrite div255_mul255 by done. unfold uint8, byte in *.
  apply Z.mod_small. lia.
Qed.

Lemma blend_pixel_clear o i : pixel_ok o -> blend_pixel 0 o i = o.
Proof.
  intros (?&?&?&?). destruct o. unfold blend_pixel. cbn in *.
  by rewrite !blend8_clear.
Qed.

Lemma blend_pixel_full o i : pixel_ok i -> blend_pixel 255 o i = i.
Proof.
  intros (?&?&?&?). destruct i. unfold blend_pixel. cbn in *.
  by rewrite !blend8_full.
Qed.

(** Clipping keeps exactly the part of the pasted extent that lies on the
    destination, and addresses the pasted image relative to the unclipped
    start. *)
Lemma paste_clip_spec d0 size outsize d s n x :
  paste_clip d0 size outsize = (d, s, n) ->
  0 <= x < outsize ->
  (d <= x < d + n <-> d0 <= x < d0 + size) /\ x - d + s = x - d0.
Proof.
  unfold paste_clip. intros Hc Hx.
  repeat case_decide; simplify_eq; lia.
Qed.

Lemma paste_clip_empty d0 size outsize d s n :
  paste_clip d0 size outsize = (d, s, n) ->
  n <= 0 -> forall x, 0 <= x < outsize -> ~ (d0 <= x < d0 + size).
Proof.
  unfold paste_clip. intros Hc Hn x Hx.
  repeat case_decide; simplify_eq; lia.
Qed.

(** ** [paste] and [alpha_composite] on RGBA rasters *)

Lemma im_paste_rgba self hat pos :
  mode self = RGBA -> mode hat = RGBA -> im_copy self = self ->
  im_paste self hat pos hat =
  if decide (box_fits pos hat) then Ok (pasted self hat pos) else Err OverflowError.
Proof.
  intros Hs Hh Hwf. unfold im_paste, pasted.
  rewrite Hs, Hh. rewrite (decide_True (P := RGBA = RGBA)) by done.
  destruct (decide (box_fits pos hat)) as [Hbox|Hbox]; [|done].
  rewrite decide_True by done.
  destruct (paste_clip pos.1 (width hat) (width self)) as [[dx sx] xsize] eqn:Hx.
  destruct (paste_clip pos.2 (height hat) (height self)) as [[dy sy] ysize] eqn:Hy.
  case_decide as Hempty.
  - f_equal. rewrite <- Hwf at 1. unfold im_copy. rewrite Hs.
    apply raster_ext. intros x y Hxr Hyr.
    rewrite decide_False; [done|]. intros [Hbx Hby].
    destruct Hempty as [He|He].
    + by eapply (paste_clip_empty _ _ _ _ _ _ Hx He x).
    + by eapply (paste_clip_empty _ _ _ _ _ _ Hy He y).
  - f_equal. apply raster_ext. intros x y Hxr Hyr.
    destruct (paste_clip_spec _ _ _ _ _ _ x Hx Hxr) as [Hix Hex].
    destruct (paste_clip_spec _ _ _ _ _ _ y Hy Hyr) as [Hiy Hey].
    unfold mask_value. rewrite Hh, Hex, Hey.
    repeat case_decide; try done; tauto.
Qed.

(** Compositing a fully transparent layer over an image copies the image. *)
Lemma im_alpha_composite_blank im :
  mode im = RGBA -> 0 <= width im -> 0 <= height im ->
  im_alpha_composite im (im_new RGBA (im_size im) transparent) = Ok (im_copy im).
Proof.
  intros Hm Hw Hh. unfold im_alpha_composite, im_new.
  rewrite decide_True by done.
  rewrite decide_True by (by cbn [fst snd im_size]; rewrite im_size_raster).
  f_equal. unfold im_copy. rewrite Hm. apply raster_ext. intros x y Hx Hy.
  unfold im_size; cbn [fst snd]. rewrite getpixel_raster by done.
  unfold alpha_composite_pixel. cbn. by rewrite decide_True.
Qed.

(** ** The store monad *)

Lemma wp_bind {A B : Type} (m : M A) (f : A -> M B) st Q :
  wp m st (fun st' r =>
    match r with
    | Ok a => wp (f a) st' Q
    | Err e => Q st' (Err e)
    end) ->
  wp (m ≫= f) st Q.
Proof.
  unfold wp, mbind, M_bind. destruct (m st) as [st' [a|e]]; cbn; done.
Qed.

Lemma wp_mono {A : Type} (m : M A) st (Q Q' : State -> Result A -> Prop) :
  wp m st Q -> (forall st' r, Q st' r -> Q' st' r) -> wp m st Q'.
Proof. unfold wp. auto. Qed.

Lemma wp_ret {A : Type} (a : A) st (Q : State -> Result A -> Prop) :
  Q st (Ok a) -> wp (mret a) st Q.
Proof. done. Qed.

Lemma wp_lift {A : Type} (r : Result A) st (Q : State -> Result A -> Prop) :
  Q st r -> wp (lift r) st Q.
Proof. done. Qed.

Lemma wp_load r im st (Q : State -> Result Image -> Prop) :
  heap st !! r = Some im -> Q st (Ok im) -> wp (load r) st Q.
Proof. unfold wp, load. cbn. by intros ->. Qed.

Lemma wp_log c st (Q : State -> Result unit -> Prop) :
  Q (mkState (heap st) (calls st ++ [c])) (Ok tt) -> wp (log c) st Q.
Proof. done. Qed.

(** An allocation extends the store at an unused reference. *)
Lemma wp_alloc im st (Q : State -> Result ref -> Prop) :
  (forall st' r,
      heap st !! r = None -> heap st ⊆ heap st' ->
      heap st' !! r = Some im -> calls st' = calls st ->
      Q st' (Ok r)) ->
  wp (alloc im) st Q.
Proof.
  intros H. unfold wp, alloc. cbn.
  assert (heap st !! fresh (dom (heap st)) = None) as Hfresh
    by apply not_elem_of_dom, is_fresh.
  apply H; cbn; try done.
  - by apply insert_subseteq.
  - apply lookup_insert_eq.
Qed.

Lemma wp_store r im st (Q : State -> Result unit -> Prop) :
  Q (mkState (<[r := im]> (heap st)) (calls st)) (Ok tt) -> wp (store r im) st Q.
Proof. done. Qed.

Lemma wp_attr {A : Type} (get : Image -> A) r im st (Q : State -> Result A -> Prop) :
  heap st !! r = Some im -> Q st (Ok (get im)) ->
  wp (im ← load r; mret (get im)) st Q.
Proof.
  intros Hr HQ. apply wp_bind, (wp_load _ im); [done|]. by apply wp_ret.
Qed.

(** ** One rule per Pillow method *)

Section MethodRules.

Context (K : Kernels).

Lemma wp_Image_convert r im m st (Q : State -> Result ref -> Prop) :
  heap st !! r = Some im ->
  (forall st' l,
      heap st !! l = None -> heap st ⊆ heap st' ->
      heap st' !! l = Some (im_convert im m) ->
      calls st' = calls st ++ [CallConvert im m] ->
      Q st' (Ok l)) ->
  wp (Image_convert r m) st Q.
Proof.
  intros Hr HQ. unfold Image_convert.
  apply wp_bind, (wp_load _ im); [done|].
  apply wp_bind, wp_log, wp_alloc. cbn. intros st' l ? ? ? ?.
  by apply HQ.
Qed.

Lemma wp_Image_new m size color st (Q : State -> Result ref -> Prop) :
  (forall st' l,
      heap st !! l = None -> heap st ⊆ heap st' ->
      heap st' !! l = Some (im_new m size color) ->
      calls st' = calls st ++ [CallNew m size color] ->
      Q st' (Ok l)) ->
  wp (Image_new m size color) st Q.
Proof.
  intros HQ. unfold Image_new.
  apply wp_bind, wp_log, wp_alloc. cbn. intros st' l ? ? ? ?.
  by apply HQ.
Qed.

Lemma wp_Image_resize r im size st (Q : State -> Result ref -> Prop) :
  heap st !! r = Some im ->
  match im_resize K im size with
  | Err e =>
      forall st', heap st' = heap st ->
        calls st' = calls st ++ [CallResize im size] -> Q st' (Err e)
  | Ok out =>
      forall st' l,
        heap st !! l = None -> heap st ⊆ heap st' ->
        heap st' !! l = Some out ->
        calls st' = calls st ++ [CallResize im size] ->
        Q st' (Ok l)
  end ->
  wp (Image_resize K r size) st Q.
Proof.
  intros Hr HQ. unfold Image_resize.
  apply wp_bind, (wp_load _ im); [done|].
  apply wp_bind, wp_log, wp_bind, wp_lift.
  destruct (im_resize K im size) as [out|e].
  - apply wp_alloc. cbn. intros st' l ? ? ? ?. by apply HQ.
  - by apply HQ.
Qed.

Lemma wp_Image_rotate r im angle st (Q : State -> Result ref -> Prop) :
  heap st !! r = Some im ->
  match im_rotate K im angle with
  | Err e =>
      forall st', heap st' = heap st ->
        calls st' = calls st ++ [CallRotate im angle] -> Q st' (Err e)
  | Ok out =>
      forall st' l,
        heap st !! l = None -> heap st ⊆ heap st' ->
        heap st' !! l = Some out ->
        calls st' = calls st ++ [CallRotate im angle] ->
        Q st' (Ok l)
  end ->
  wp (Image_rotate K r angle) st Q.
Proof.
  intros Hr HQ. unfold Image_rotate.
  apply wp_bind, (wp_load _ im); [done|].
  apply wp_bind, wp_log, wp_bind, wp_lift.
  destruct (im_rotate K im angle) as [out|e].
  - apply wp_alloc. cbn. intros st' l ? ? ? ?. by apply HQ.
  - by apply HQ.
Qed.

Lemma wp_Image_alpha_composite r1 r2 a b st (Q : State -> Result ref -> Prop) :
  heap st !! r1 = Some a -> heap st !! r2 = Some b ->
  match im_alpha_composite a b with
  | Err e =>
      forall st', heap st' = heap st ->
        calls st' = calls st ++ [CallAlphaComposite a b] -> Q st' (Err e)
  | Ok out =>
      forall st' l,
        heap st !! l = None -> heap st ⊆ heap st' ->
        heap st' !! l = Some out ->
        calls st' = calls st ++ [CallAlphaComposite a b] ->
        Q st' (Ok l)
  end ->
  wp (Image_alpha_composite r1 r2) st Q.
Proof.
  intros H1 H2 HQ. unfold Image_alpha_composite.
  apply wp_bind, (wp_load _ a); [done|].
  apply wp_bind, (wp_load _ b); [done|].
  apply wp_bind, wp_log, wp_bind, wp_lift.
  destruct (im_alpha_composite a b) as [out|e].
  - apply wp_alloc. cbn. intros st' l ? ? ? ?. by apply HQ.
  - by apply HQ.
Qed.

(** [paste] replaces the receiver's value and touches nothing else. *)
Lemma wp_Image_paste self im mask s i k box st (Q : State -> Result unit -> Prop) :
  heap st !! self = Some s -> heap st !! im = Some i -> heap st !! mask = Some k ->
  match im_paste s i box k with
  | Err e =>
      forall st', heap st' = heap st ->
        calls st' = calls st ++ [CallPaste s i box k] -> Q st' (Err e)
  | Ok out =>
      forall st',
        heap st' = <[self := out]> (heap st) ->
        calls st' = calls st ++ [CallPaste s i box k] ->
        Q st' (Ok tt)
  end ->
  wp (Image_paste self im box mask) st Q.
Proof.
  intros H1 H2 H3 HQ. unfold Image_paste.
  apply wp_bind, (wp_load _ s); [done|].
  apply wp_bind, (wp_load _ i); [done|].
  apply wp_bind, (wp_load _ k); [done|].
  apply wp_bind, wp_log, wp_bind, wp_lift.
  destruct (im_paste s i box k) as [out|e].
  - apply wp_store. by apply HQ.
  - by apply HQ.
Qed.

End MethodRules.

(** A reference that is unused in a larger store is unused in a smaller one. *)
Lemma lookup_None_weaken (h1 h2 : gmap ref Image) r :
  h1 ⊆ h2 -> h2 !! r = None -> h1 !! r = None.
Proof.
  intros Hsub Hr. destruct (h1 !! r) as [im|] eqn:E; [|done].
  by rewrite (lookup_weaken _ _ _ _ E Hsub) in Hr.
Qed.

Ltac in_store :=
  repeat first [ eassumption | eapply lookup_weaken; [|eassumption] ].

Ltac unused :=
  repeat first [ eassumption | eapply lookup_None_weaken; [eassumption|] ].

Ltac grows :=
  repeat first [ eassumption | reflexivity | etrans; [eassumption|] ].

(** ** Every run of [add_santa_hat] *)

Section Runs.

Context (K : Kernels).

Lemma hat_size_width_error pw sw sh s e :
  Py.mul_int_float pw s ≫= Py.int = Err e -> hat_size pw sw sh s = Err e.
Proof. unfold hat_size. by intros ->. Qed.

Lemma hat_size_height_error pw sw sh s hw e :
  Py.mul_int_float pw s ≫= Py.int = Ok hw ->
  (q ← Py.truediv hw sw; Py.mul_int_float sh q ≫= Py.int) = Err e ->
  hat_size pw sw sh s = Err e.
Proof. unfold hat_size. intros -> E. cbn. by rewrite E. Qed.

Lemma hat_size_ok pw sw sh s hw hh :
  Py.mul_int_float pw s ≫= Py.int = Ok hw ->
  (q ← Py.truediv hw sw; Py.mul_int_float sh q ≫= Py.int) = Ok hh ->
  hat_size pw sw sh s = Ok (hw, hh).
Proof. unfold hat_size. intros -> E. cbn. by rewrite E. Qed.

Lemma mode_im_resize im size out :
  im_resize K im size = Ok out -> mode out = mode im /\ im_copy out = out.
Proof.
  unfold im_resize. repeat case_decide; intros ?; simplify_eq.
  - split; [done|apply im_copy_idemp].
  - split; [done|apply im_copy_raster].
Qed.

Lemma mode_im_rotate im angle out :
  im_rotate K im angle = Ok out -> mode out = mode im /\ im_copy out = out.
Proof.
  unfold im_rotate. destruct (Py.mod_360 angle) as [a|]; [cbn|done].
  repeat case_decide; try destruct (affine_size K a (width im) (height im));
    intros ?; simplify_eq; (split; [done|apply im_copy_raster]).
Qed.

(** The run ends in one of the four ways of [outcome], and every object
    that was in the store is still there, unchanged. *)
Lemma add_santa_hat_outcome st b o B O s ox oy rot :
  heap st !! b = Some B -> heap st !! o = Some O ->
  wp (add_santa_hat K b o s ox oy rot) st (fun st' res =>
    heap st ⊆ heap st' /\ outcome K B O s ox oy rot st st' res).
Proof.
  intros Hb Ho. unfold add_santa_hat.
  apply wp_bind, (wp_Image_convert b B); [done|].
  intros st1 p Hp0 Hs1 Hp Hc1.
  apply wp_bind, (wp_Image_convert o O); [in_store|].
  intros st2 h0 Hh00 Hs2 Hh0 Hc2.
  rewrite Hc1 in Hc2. rewrite <- app_assoc in Hc2. cbn [app] in Hc2.
  apply wp_bind, (wp_attr width p (im_convert B RGBA)); [in_store|].
  apply wp_bind, wp_lift.
  destruct (Py.mul_int_float (width (im_convert B RGBA)) s ≫= Py.int)
    as [hw|e] eqn:Ehw; cycle 1.
  { split; [grows|]. apply size_error; [|done]. by apply hat_size_width_error. }
  apply wp_bind, (wp_attr height h0 (im_convert O RGBA)); [in_store|].
  apply wp_bind, (wp_attr width h0 (im_convert O RGBA)); [in_store|].
  apply wp_bind, wp_lift.
  destruct (q ← Py.truediv hw (width (im_convert O RGBA));
            Py.mul_int_float (height (im_convert O RGBA)) q ≫= Py.int)
    as [hh|e] eqn:Ehh; cycle 1.
  { split; [grows|]. apply size_error; [|done]. by eapply hat_size_height_error. }
  pose proof (hat_size_ok _ _ _ _ _ _ Ehw Ehh) as Hsize.
  apply wp_bind, (wp_Image_resize K h0 (im_convert O RGBA)); [in_store|].
  destruct (im_resize K (im_convert O RGBA) (hw, hh)) as [resized|e] eqn:Eres; cycle 1.
  { intros st3 Hh3 Hc3. rewrite Hh3. split; [grows|].
    eapply resize_error; [done..|]. rewrite Hc3, Hc2, <- app_assoc. done. }
  intros st3 h1 Hh10 Hs3 Hh1 Hc3.
  rewrite Hc2 in Hc3. rewrite <- app_assoc in Hc3. cbn [app] in Hc3.
  apply wp_bind, (wp_Image_rotate K h1 resized); [in_store|].
  destruct (im_rotate K resized rot) as [rotated|e] eqn:Erot; cycle 1.
  { intros st4 Hh4 Hc4. rewrite Hh4. split; [grows|].
    eapply rotate_error; [done..|]. rewrite Hc4, Hc3, <- app_assoc. done. }
  intros st4 h2 Hh20 Hs4 Hh2 Hc4.
  rewrite Hc3 in Hc4. rewrite <- app_assoc in Hc4. cbn [app] in Hc4.
  apply wp_bind, (wp_attr width p (im_convert B RGBA)); [in_store|].
  apply wp_bind, (wp_attr width h2 rotated); [in_store|].
  apply wp_bind, (wp_attr im_size p (im_convert B RGBA)); [in_store|].
  apply wp_bind, wp_Image_new.
  intros st5 blank Hbl0 Hs5 Hbl Hc5.
  rewrite Hc4 in Hc5. rewrite <- app_assoc in Hc5. cbn [app] in Hc5.
  apply wp_bind,
    (wp_Image_alpha_composite p blank (im_convert B RGBA)
       (im_new RGBA (im_size (im_convert B RGBA)) transparent)); [in_store..|].
  rewrite im_alpha_composite_blank;
    [|apply mode_im_convert
     |rewrite width_im_convert; lia
     |rewrite height_im_convert; lia].
  rewrite im_copy_im_convert.
  intros st6 c Hc0 Hs6 Hc Hc6.
  rewrite Hc5 in Hc6. rewrite <- app_assoc in Hc6. cbn [app] in Hc6.
  destruct (mode_im_resize _ _ _ Eres) as [Hm1 _].
  destruct (mode_im_rotate _ _ _ Erot) as [Hm2 _].
  apply wp_bind,
    (wp_Image_paste c h2 h2 (im_convert B RGBA) rotated rotated); [in_store..|].
  rewrite im_paste_rgba;
    [|apply mode_im_convert
     |by rewrite Hm2, Hm1, mode_im_convert
     |apply im_copy_im_convert].
  case_decide as Hbox; cycle 1.
  { intros st7 Hh7 Hc7. rewrite Hh7. split; [grows|].
    eapply paste_error; [done..|]. rewrite Hc7, Hc6, <- app_assoc. done. }
  intros st7 Hh7 Hc7.
  rewrite Hc6 in Hc7. rewrite <- app_assoc in Hc7. cbn [app] in Hc7.
  assert (heap st !! c = None) as Hfresh.
  { eapply lookup_None_weaken; [|exact Hc0]. grows. }
  apply wp_ret. split.
  - rewrite Hh7. apply insert_subseteq_r; [done|]. grows.
  - eapply returned; [done..| |done].
    rewrite Hh7. apply lookup_insert_eq.
Qed.

End Runs.

Section RunFacts.

Context (K : Kernels).

Lemma add_santa_hat_run st b o B O s ox oy rot :
  heap st !! b = Some B -> heap st !! o = Some O ->
  exists st' res,
    add_santa_hat K b o s ox oy rot st = (st', res) /\
    heap st ⊆ heap st' /\
    outcome K B O s ox oy rot st st' res.
Proof.
  intros Hb Ho.
  pose proof (add_santa_hat_outcome K st b o B O s ox oy rot Hb Ho) as H.
  unfold wp in H.
  destruct (add_santa_hat K b o s ox oy rot st) as [st' res]. eauto.
Qed.

Lemma new_calls_app st st' cs :
  calls st' = calls st ++ cs -> new_calls st st' = cs.
Proof. unfold new_calls. intros ->. by rewrite drop_app_length. Qed.

(** The run returns what [composite] computes. *)
Lemma outcome_composite st st' res B O s ox oy rot :
  outcome K B O s ox oy rot st st' res ->
  returned_image (st', res) = composite K B O s ox oy rot.
Proof.
  unfold composite.
  destruct 1 as [st' e Hs|st' w h e Hs Hr|st' w h rz e Hs Hr Ht
                |st' w h rz rt Hs Hr Ht Hbox
                |st' w h rz rt r Hs Hr Ht Hbox Hf Hl]; rewrite Hs; cbn.
  - done.
  - by rewrite Hr.
  - rewrite Hr. cbn. by rewrite Ht.
  - rewrite Hr. cbn. rewrite Ht. cbn. by rewrite decide_False.
  - rewrite Hr. cbn. rewrite Ht. cbn. by rewrite decide_True, Hl.
Qed.

Lemma im_size_im_resize im w h out :
  0 <= width im -> 0 <= height im ->
  im_resize K im (w, h) = Ok out -> width out = w /\ height out = h.
Proof.
  intros Hw Hh. unfold im_resize, im_size.
  repeat case_decide; intros ?; simplify_eq; cbn [fst snd] in *.
  - unfold im_copy. rewrite width_raster, height_raster. lia.
  - rewrite width_raster, height_raster. lia.
Qed.

Lemma size_pasted self hat pos :
  width (pasted self hat pos) = Z.max 0 (width self) /\
  height (pasted self hat pos) = Z.max 0 (height self).
Proof. done. Qed.

End RunFacts.

(** * Properties of the compositor *)

Section Claims.

Context (K : Kernels).

Implicit Types (st : State) (b o : ref) (B O : Image) (s : Py.float).

Lemma width_profile_rgba B : valid_raster B -> width (im_convert B RGBA) = width B.
Proof. intros [??]. rewrite width_im_convert. lia. Qed.

Lemma height_profile_rgba B : valid_raster B -> height (im_convert B RGBA) = height B.
Proof. intros [??]. rewrite height_im_convert. lia. Qed.

(** C1 (dimension invariant).  On valid rasters the image the compositor
    returns has exactly the profile picture's width and height, whatever the
    scale, the angle and the offsets: however large the resized and rotated
    hat is and however far its box reaches beyond the canvas, [paste] clips
    it and the canvas keeps its size. *)
Theorem dimension_invariant st b o B O s ox oy rot :
  heap st !! b = Some B -> heap st !! o = Some O ->
  valid_raster B -> valid_raster O ->
  forall st' r,
    add_santa_hat K b o s ox oy rot st = (st', Ok r) ->
    exists out, heap st' !! r = Some out /\
                width out = width B /\ height out = height B.
Proof.
  intros Hb Ho HB HO st' r Hrun.
  destruct (add_santa_hat_run K st b o B O s ox oy rot Hb Ho)
    as (st0 & res & E & Hsub & Hout).
  rewrite Hrun in E. injection E as <- <-.
  inversion Hout as [| | | |? w h rz rt ? Hs Hr Ht Hbox Hf Hl Hc]; subst.
  eexists. split; [exact Hl|].
  destruct HB. cbn. rewrite width_im_convert, height_im_convert. lia.
Qed.


(** C5 (inputs are not mutated).  Whatever the run does, the profile
    picture and the hat the caller passed hold the same pixels afterwards,
    as does every other object that existed before the call; and a returned
    reference names an object that did not exist before, so it is neither
    of the two inputs. *)
Theorem inputs_not_mutated st b o B O s ox oy rot :
  heap st !! b = Some B -> heap st !! o = Some O ->
  forall st' res,
    add_santa_hat K b o s ox oy rot st = (st', res) ->
    heap st' !! b = Some B /\
    heap st' !! o = Some O /\
    (forall l im, heap st !! l = Some im -> heap st' !! l = Some im) /\
    (forall r, res = Ok r -> heap st !! r = None /\ r <> b /\ r <> o).
Proof.
  intros Hb Ho st' res Hrun.
  destruct (add_santa_hat_run K st b o B O s ox oy rot Hb Ho)
    as (st0 & res0 & E & Hsub & Hout).
  rewrite Hrun in E. injection E as <- <-.
  repeat split.
  - by eapply lookup_weaken.
  - by eapply lookup_weaken.
  - intros l im Hl. by eapply lookup_weaken.
  - subst res. by inversion Hout.
  - intros ->. subst res. inversion Hout; congruence.
  - intros ->. subst res. inversion Hout; congruence.
Qed.

End Claims.

Lemma dimension_invariant_witness :
  heap (initial_store small_profile small_hat) !! 1%positive = Some small_profile /\
  heap (initial_store small_profile small_hat) !! 2%positive = Some small_hat /\
  valid_raster small_profile /\ valid_raster small_hat /\
  exists st' r,
    add_santa_hat nearest_kernels 1 2 scale_one 3 (-1) 45
      (initial_store small_profile small_hat) = (st', Ok r) /\
    exists out, heap st' !! r = Some out /\
                width out = width small_profile /\ height out = height small_profile.
Proof.
  assert (H1 : heap (initial_store small_profile small_hat) !! 1%positive = Some small_profile)
    by reflexivity.
  assert (H2 : heap (initial_store small_profile small_hat) !! 2%positive = Some small_hat)
    by reflexivity.
  assert (H3 : valid_raster small_profile) by (split; vm_compute; discriminate).
  assert (H4 : valid_raster small_hat) by (split; vm_compute; discriminate).
  do 4 (split; [assumption|]).
  eexists _, _.
  assert (Hrun : add_santa_hat nearest_kernels 1 2 scale_one 3 (-1) 45
                   (initial_store small_profile small_hat) =
                 ((add_santa_hat nearest_kernels 1 2 scale_one 3 (-1) 45
                     (initial_store small_profile small_hat)).1, Ok 8%positive))
    by (vm_compute; reflexivity).
  split; [exact Hrun|].
  exact (dimension_invariant nearest_kernels _ _ _ _ _ _ _ _ _ H1 H2 H3 H4 _ _ Hrun).
Defined.

(** ** Truncation *)

Lemma int_quot x z : Py.int x = Ok z -> z = Py.num x `quot` Py.den x.
Proof.
  destruct x as [sx|sx| |sx m e]; cbn; intros [= <-]; try done.
  destruct (Z.max_spec 0 e) as [[He ->]|[He ->]],
           (Z.max_spec 0 (- e)) as [[He' ->]|[He' ->]]; try lia.
  - rewrite Z.shiftl_mul_pow2 by lia. change (2 ^ 0) with 1.
    by rewrite Z.quot_1_r.
  - replace e with (- (- e)) at 1 by lia.
    rewrite Z.shiftl_opp_r, Z.shiftr_div_pow2 by lia.
    change (2 ^ 0) with 1. rewrite Z.mul_1_r.
    assert (0 < 2 ^ (- e)) by (apply Z.pow_pos_nonneg; lia).
    destruct sx; cbn [cond_Zopp].
    + rewrite Z.quot_opp_l by lia. f_equal.
      symmetry. apply Z.quot_div_nonneg; lia.
    + symmetry. apply Z.quot_div_nonneg; lia.
  - assert (e = 0) as -> by lia. cbn. rewrite Z.quot_1_r.
    by rewrite Z.mul_1_r.
Qed.

Lemma hat_size_inv pw sw sh s w h :
  hat_size pw sw sh s = Ok (w, h) ->
  exists x q y,
    Py.mul_int_float pw s = Ok x /\ Py.int x = Ok w /\
    Py.truediv w sw = Ok q /\
    Py.mul_int_float sh q = Ok y /\ Py.int y = Ok h.
Proof.
  unfold hat_size.
  destruct (Py.mul_int_float pw s) as [x|] eqn:Ex; [cbn|done].
  destruct (Py.int x) as [w'|] eqn:Ew; [cbn|done].
  destruct (Py.truediv w' sw) as [q|] eqn:Eq; [cbn|done].
  destruct (Py.mul_int_float sh q) as [y|] eqn:Ey; [cbn|done].
  destruct (Py.int y) as [h'|] eqn:Eh; [cbn|done].
  intros [= <- <-]. by exists x, q, y.
Qed.

Section ScaleAndBlend.

Context (K : Kernels).

(** C2, as amended.  The image handed to [rotate] has the size lines 43-44
    compute with [int]: its width is [width B * s] truncated toward zero
    (not rounded), and its height is [height O * (width / width O)]
    truncated toward zero. *)
Theorem resized_to_truncated_size st b o B O s ox oy rot :
  heap st !! b = Some B -> heap st !! o = Some O ->
  valid_raster B -> valid_raster O ->
  forall st' res resized angle,
    add_santa_hat K b o s ox oy rot st = (st', res) ->
    (resized, angle) ∈ rotate_requests (new_calls st st') ->
    hat_size (width B) (width O) (height O) s = Ok (im_size resized) /\
    exists x q y,
      Py.mul_int_float (width B) s = Ok x /\
      width resized = Py.num x `quot` Py.den x /\
      Py.truediv (width resized) (width O) = Ok q /\
      Py.mul_int_float (height O) q = Ok y /\
      height resized = Py.num y `quot` Py.den y.
Proof.
  intros Hb Ho HB HO st' res resized angle Hrun Hin.
  destruct (add_santa_hat_run K st b o B O s ox oy rot Hb Ho)
    as (st0 & res0 & E & Hsub & Hout).
  rewrite Hrun in E. injection E as <- <-.
  assert (exists w h,
    hat_size (width B) (width O) (height O) s = Ok (w, h) /\
    im_resize K (im_convert O RGBA) (w, h) = Ok resized) as (w & h & Hs & Hr).
  { destruct Hout as [st' e Hs Hc|st' w h e Hs Hr Hc|st' w h rz e Hs Hr Ht Hc
                     |st' w h rz rt Hs Hr Ht Hbox Hc
                     |st' w h rz rt r Hs Hr Ht Hbox Hf Hl Hc];
      rewrite (new_calls_app _ _ _ Hc) in Hin; cbn in Hin;
      rewrite !width_profile_rgba, height_profile_rgba in Hs by done.
    - by apply elem_of_nil in Hin.
    - by apply elem_of_nil in Hin.
    - apply list_elem_of_singleton in Hin as [= -> ->]. eauto.
    - apply list_elem_of_singleton in Hin as [= -> ->]. eauto.
    - apply list_elem_of_singleton in Hin as [= -> ->]. eauto. }
  destruct (im_size_im_resize K _ _ _ _
              ltac:(rewrite width_im_convert; lia)
              ltac:(rewrite height_im_convert; lia) Hr) as [Hw Hh].
  unfold im_size. rewrite Hw, Hh. split; [done|].
  destruct (hat_size_inv _ _ _ _ _ _ Hs) as (x & q & y & Hx & Hwx & Hq & Hy & Hhy).
  exists x, q, y. repeat split; try done; by apply int_quot.
Qed.

(** C3, as amended.  Under the placed hat each of the four bands of the
    result, alpha included, is [DIV255(base * (255 - a) + hat * a)] with
    [a] the hat's alpha at that pixel; outside the hat's box the result is
    the profile picture (converted to RGBA). *)
Theorem blended_by_paste st b o B O s ox oy rot :
  heap st !! b = Some B -> heap st !! o = Some O -> valid_raster B ->
  composited_by_paste K st b o B O s ox oy rot.
Proof.
  intros Hb Ho HB st' r Hrun.
  destruct (add_santa_hat_run K st b o B O s ox oy rot Hb Ho)
    as (st0 & res0 & E & Hsub & Hout).
  rewrite Hrun in E. injection E as <- <-.
  inversion Hout as [| | | |? w h rz rt ? Hs Hr Ht Hbox Hf Hl Hc]; subst.
  rewrite (new_calls_app _ _ _ Hc).
  eexists _, _, _, _. split; [exact Hl|]. split; [reflexivity|].
  intros x y Hx Hy. unfold pasted.
  rewrite getpixel_raster
    by (rewrite ?width_profile_rgba, ?height_profile_rgba; done).
  done.
Qed.

End ScaleAndBlend.

(** C2, as the specification states it, fails: with a 5-pixel-wide
    profile picture and scale 0.75 the product is 3.75; the program resizes
    the hat to width 3, where rounding gives 4. *)
Lemma resized_to_rounded_size_fails :
  ~ resized_to_rounded_size nearest_kernels (initial_store profile_5x5 hat_3x3) 1 2
      profile_5x5 hat_3x3 scale_three_quarters 0 0 0.
Proof.
  intros H.
  specialize (H _ _ (im_copy hat_3x3) 0 ltac:(vm_compute; reflexivity)).
  assert (Hin : (im_copy hat_3x3, 0) ∈
            rotate_requests (new_calls (initial_store profile_5x5 hat_3x3)
              (add_santa_hat nearest_kernels 1 2 scale_three_quarters 0 0 0
                 (initial_store profile_5x5 hat_3x3)).1)).
  { vm_compute. apply list_elem_of_here. }
  vm_compute in H. specialize (H Hin). discriminate H.
Qed.

Lemma resized_to_truncated_size_witness :
  heap (initial_store profile_5x5 hat_3x3) !! 1%positive = Some profile_5x5 /\
  heap (initial_store profile_5x5 hat_3x3) !! 2%positive = Some hat_3x3 /\
  valid_raster profile_5x5 /\ valid_raster hat_3x3 /\
  exists st' res resized angle,
    add_santa_hat nearest_kernels 1 2 scale_three_quarters 0 0 0
      (initial_store profile_5x5 hat_3x3) = (st', res) /\
    (resized, angle) ∈
      rotate_requests (new_calls (initial_store profile_5x5 hat_3x3) st') /\
    hat_size (width profile_5x5) (width hat_3x3) (height hat_3x3)
      scale_three_quarters = Ok (im_size resized) /\
    exists x q y,
      Py.mul_int_float (width profile_5x5) scale_three_quarters = Ok x /\
      width resized = Py.num x `quot` Py.den x /\
      Py.truediv (width resized) (width hat_3x3) = Ok q /\
      Py.mul_int_float (height hat_3x3) q = Ok y /\
      height resized = Py.num y `quot` Py.den y.
Proof.
  assert (H1 : heap (initial_store profile_5x5 hat_3x3) !! 1%positive = Some profile_5x5)
    by reflexivity.
  assert (H2 : heap (initial_store profile_5x5 hat_3x3) !! 2%positive = Some hat_3x3)
    by reflexivity.
  assert (H3 : valid_raster profile_5x5) by (split; vm_compute; discriminate).
  assert (H4 : valid_raster hat_3x3) by (split; vm_compute; discriminate).
  do 4 (split; [assumption|]).
  eexists _, _, (im_copy hat_3x3), 0.
  assert (Hrun : add_santa_hat nearest_kernels 1 2 scale_three_quarters 0 0 0
                   (initial_store profile_5x5 hat_3x3) =
                 ((add_santa_hat nearest_kernels 1 2 scale_three_quarters 0 0 0
                     (initial_store profile_5x5 hat_3x3)).1,
                  (add_santa_hat nearest_kernels 1 2 scale_three_quarters 0 0 0
                     (initial_store profile_5x5 hat_3x3)).2))
    by (vm_compute; reflexivity).
  assert (Hin : (im_copy hat_3x3, 0) ∈
            rotate_requests (new_calls (initial_store profile_5x5 hat_3x3)
              (add_santa_hat nearest_kernels 1 2 scale_three_quarters 0 0 0
                 (initial_store profile_5x5 hat_3x3)).1))
    by (vm_compute; apply list_elem_of_here).
  split; [exact Hrun|]. split; [exact Hin|].
  exact (resized_to_truncated_size nearest_kernels _ _ _ _ _ _ _ _ _
           H1 H2 H3 H4 _ _ _ _ Hrun Hin).
Defined.

(** C3, as the specification states it, fails: a half-transparent
    red pixel pasted on an opaque white one leaves alpha 191, where "over"
    gives alpha 255. *)
Lemma composited_over_fails :
  ~ composited_over nearest_kernels (initial_store pixel_profile pixel_hat) 1 2
      pixel_profile pixel_hat scale_one 0 0 0.
Proof.
  intros H.
  destruct (H _ _ ltac:(vm_compute; reflexivity))
    as (out & self & hat & pos & Hout & Hreq & Hpix).
  vm_compute in Hout. injection Hout as <-.
  vm_compute in Hreq. injection Hreq as <- <- <-.
  specialize (Hpix 0 0 ltac:(done) ltac:(done)).
  vm_compute in Hpix. discriminate Hpix.
Qed.

Lemma blended_by_paste_witness :
  heap (initial_store pixel_profile pixel_hat) !! 1%positive = Some pixel_profile /\
  heap (initial_store pixel_profile pixel_hat) !! 2%positive = Some pixel_hat /\
  valid_raster pixel_profile /\
  composited_by_paste nearest_kernels (initial_store pixel_profile pixel_hat) 1 2
    pixel_profile pixel_hat scale_one 0 0 0.
Proof.
  assert (H1 : heap (initial_store pixel_profile pixel_hat) !! 1%positive = Some pixel_profile)
    by reflexivity.
  assert (H2 : heap (initial_store pixel_profile pixel_hat) !! 2%positive = Some pixel_hat)
    by reflexivity.
  assert (H3 : valid_raster pixel_profile) by (split; vm_compute; discriminate).
  do 3 (split; [assumption|]).
  exact
    (blended_by_paste nearest_kernels _ _ _ _ _ scale_one 0 0 0 H1 H2 H3).
Defined.


Lemma inputs_not_mutated_witness :
  heap (initial_store small_profile small_hat) !! 1%positive = Some small_profile /\
  heap (initial_store small_profile small_hat) !! 2%positive = Some small_hat /\
  exists st' res,
    add_santa_hat nearest_kernels 1 2 scale_half 1 1 180
      (initial_store small_profile small_hat) = (st', res) /\
    heap st' !! 1%positive = Some small_profile /\
    heap st' !! 2%positive = Some small_hat /\
    (forall l im, heap (initial_store small_profile small_hat) !! l = Some im ->
                  heap st' !! l = Some im) /\
    (forall r, res = Ok r ->
       heap (initial_store small_profile small_hat) !! r = None /\
       r <> 1%positive /\ r <> 2%positive).
Proof.
  assert (H1 : heap (initial_store small_profile small_hat) !! 1%positive = Some small_profile)
    by reflexivity.
  assert (H2 : heap (initial_store small_profile small_hat) !! 2%positive = Some small_hat)
    by reflexivity.
  do 2 (split; [assumption|]).
  eexists _, _.
  assert (Hrun : add_santa_hat nearest_kernels 1 2 scale_half 1 1 180
                   (initial_store small_profile small_hat) =
                 ((add_santa_hat nearest_kernels 1 2 scale_half 1 1 180
                     (initial_store small_profile small_hat)).1, Ok 8%positive))
    by (vm_compute; reflexivity).
  split; [exact Hrun|].
  exact (inputs_not_mutated nearest_kernels _ _ _ _ _ _ _ _ _ H1 H2 _ _ Hrun).
Defined.

(** ** Signs through the float arithmetic *)

Lemma binary_round_aux_sign sx mx ex lx :
  sign_is sx (binary_round_aux Py.prec Py.emax sx mx ex lx).
Proof.
  unfold binary_round_aux.
  destruct (shr_fexp Py.prec Py.emax mx ex lx) as [m1 e1].
  destruct (shr_fexp Py.prec Py.emax _ e1 loc_Exact) as [m2 e2].
  destruct (shr_m m2); [done| |done].
  by destruct (Z.leb e2 (Py.emax - Py.prec)).
Qed.

Lemma to_float_sign n x : 0 <= n -> Py.to_float n = Ok x -> sign_is false x.
Proof.
  intros Hn. unfold Py.to_float, binary_normalize.
  destruct n as [|p|p]; [by intros [= <-]| |lia].
  unfold binary_round.
  destruct (shl_align p 0 _) as [mz ez].
  pose proof (binary_round_aux_sign false (Z.pos mz) ez loc_Exact) as Hs.
  destruct (binary_round_aux Py.prec Py.emax false (Z.pos mz) ez loc_Exact);
    intros [= <-]; done.
Qed.

Lemma nonpositive_scale_inv s :
  nonpositive_scale s ->
  match s with
  | S754_zero _ => True
  | S754_nan => False
  | S754_infinity sx | S754_finite sx _ _ => sx = true
  end.
Proof. unfold nonpositive_scale. by destruct s as [[]|[]| |[] ? ?]. Qed.

Lemma SFmul_not_positive y s :
  sign_is false y -> nonpositive_scale s ->
  not_positive (SFmul Py.prec Py.emax y s).
Proof.
  intros Hy Hs%nonpositive_scale_inv.
  destruct y as [sy|sy| |sy my ey], s as [ss|ss| |ss ms es];
    cbn in *; subst; try done.
  pose proof (binary_round_aux_sign true (Z.pos (my * ms)) (ey + es) loc_Exact) as H.
  by destruct (binary_round_aux _ _ _ _ _ _).
Qed.

Lemma int_not_positive x z : not_positive x -> Py.int x = Ok z -> z <= 0.
Proof.
  destruct x as [sx|sx| |sx m e]; cbn; intros Hx [= <-]; [done|].
  subst sx. cbn.
  pose proof (proj2 (Z.shiftl_nonneg (Z.pos m) e) ltac:(lia)). lia.
Qed.

Lemma int_error x e : Py.int x = Err e -> e = ValueError \/ e = OverflowError.
Proof. destruct x; cbn; intros [= <-]; auto. Qed.

Lemma to_float_error n e : Py.to_float n = Err e -> e = OverflowError.
Proof.
  unfold Py.to_float.
  by destruct (binary_normalize _ _ _ _ _); intros [= <-].
Qed.

Lemma mul_int_float_error n x e :
  Py.mul_int_float n x = Err e -> e = OverflowError.
Proof.
  unfold Py.mul_int_float.
  destruct (Py.to_float n) as [y|e'] eqn:E; [done|].
  intros [= <-]. by eapply to_float_error.
Qed.

Lemma truediv_error a b e :
  b <> 0 -> Py.truediv a b = Err e -> e = OverflowError.
Proof.
  intros Hb. unfold Py.truediv. rewrite decide_False by done.
  destruct (Py.to_float a) as [x|e1] eqn:Ea; cbn.
  - destruct (Py.to_float b) as [y|e2] eqn:Eb; cbn; [done|].
    intros [= <-]. by eapply to_float_error.
  - intros [= <-]. by eapply to_float_error.
Qed.

(** With a non-degenerate hat the size arithmetic raises nothing but
    [ValueError] and [OverflowError]. *)
Lemma hat_size_error pw sw sh s e :
  sw <> 0 -> hat_size pw sw sh s = Err e -> e = ValueError \/ e = OverflowError.
Proof.
  intros Hsw. unfold hat_size.
  destruct (Py.mul_int_float pw s) as [x|e1] eqn:Ex; cbn;
    [|intros [= <-]; right; by eapply mul_int_float_error].
  destruct (Py.int x) as [w|e2] eqn:Ew; cbn;
    [|intros [= <-]; by eapply int_error].
  destruct (Py.truediv w sw) as [q|e3] eqn:Eq; cbn;
    [|intros [= <-]; right; by eapply truediv_error].
  destruct (Py.mul_int_float sh q) as [y|e4] eqn:Ey; cbn;
    [|intros [= <-]; right; by eapply mul_int_float_error].
  destruct (Py.int y) as [h|e5] eqn:Eh; cbn; [done|].
  intros [= <-]. by eapply int_error.
Qed.

Lemma hat_width_not_positive pw sw sh s w h :
  0 <= pw -> nonpositive_scale s -> hat_size pw sw sh s = Ok (w, h) -> w <= 0.
Proof.
  intros Hpw Hs Hsize.
  destruct (hat_size_inv _ _ _ _ _ _ Hsize) as (x & q & y & Hx & Hw & _).
  unfold Py.mul_int_float in Hx.
  destruct (Py.to_float pw) as [f|] eqn:Ef; [|done].
  cbn in Hx. injection Hx as <-.
  eapply int_not_positive; [|exact Hw].
  apply SFmul_not_positive; [|done]. by eapply to_float_sign.
Qed.

Lemma hat_width_zero pw sw sh s w h :
  Py.mul_int_float pw s ≫= Py.int = Ok 0 -> hat_size pw sw sh s = Ok (w, h) -> w = 0.
Proof.
  intros H0 Hsize.
  destruct (hat_size_inv _ _ _ _ _ _ Hsize) as (x & q & y & Hx & Hw & _).
  rewrite Hx in H0. cbn in H0. congruence.
Qed.

Section Degenerate.

Context (K : Kernels).

(** [resize] rejects every target whose width is below 1 when the image is
    at least one pixel wide: with [ValueError], or with [OverflowError] when
    the target is no pair of C [int]s. *)
Lemma im_resize_rejects im w h :
  1 <= width im -> w <= 0 ->
  exists e, im_resize K im (w, h) = Err e /\ (e = ValueError \/ e = OverflowError).
Proof.
  intros Him Hw. unfold im_resize, im_size.
  rewrite decide_False by (intros [= ??]; lia).
  case_decide; [|by eauto].
  rewrite decide_True by (cbn; lia). eauto.
Qed.

(** C6 (degenerate scale).  On valid rasters, when the scale is not positive
    or makes the target width come out as 0, the run raises and returns no
    image.  The exception is Python's [ValueError] (from [resize], "height
    and width must be > 0", or from [int] on a NaN) or [OverflowError] (from
    [int] on an infinity, or from [resize] when the target is no pair of C
    [int]s): the exceptions by which Python reports an argument outside the
    domain. *)
Theorem degenerate_scale_fails st b o B O s ox oy rot :
  heap st !! b = Some B -> heap st !! o = Some O ->
  valid_raster B -> valid_raster O ->
  nonpositive_scale s \/ Py.mul_int_float (width B) s ≫= Py.int = Ok 0 ->
  exists st' e,
    add_santa_hat K b o s ox oy rot st = (st', Err e) /\
    (e = ValueError \/ e = OverflowError).
Proof.
  intros Hb Ho HB HO Hdeg.
  destruct (add_santa_hat_run K st b o B O s ox oy rot Hb Ho)
    as (st' & res & -> & Hsub & Hout).
  assert (forall w h,
    hat_size (width B) (width O) (height O) s = Ok (w, h) ->
    exists e, im_resize K (im_convert O RGBA) (w, h) = Err e /\
              (e = ValueError \/ e = OverflowError)) as Hrej.
  { intros w h Hs. apply im_resize_rejects.
    - rewrite width_profile_rgba by done. by destruct HO.
    - destruct Hdeg as [Hneg|Hzero].
      + eapply hat_width_not_positive; [|done..]. destruct HB. lia.
      + by rewrite (hat_width_zero _ _ _ _ _ _ Hzero Hs). }
  destruct Hout as [st' e Hs|st' w h e Hs Hr|st' w h rz e Hs Hr Ht
                   |st' w h rz rt Hs Hr Ht Hbox
                   |st' w h rz rt r Hs Hr Ht Hbox Hf Hl];
    rewrite !width_profile_rgba, height_profile_rgba in Hs by done.
  - exists st', e. split; [done|].
    eapply hat_size_error; [|done]. destruct HO. lia.
  - destruct (Hrej _ _ Hs) as (e' & He' & Hor).
    rewrite He' in Hr. injection Hr as <-. eauto.
  - destruct (Hrej _ _ Hs) as (e' & He' & _). by rewrite He' in Hr.
  - destruct (Hrej _ _ Hs) as (e' & He' & _). by rewrite He' in Hr.
  - destruct (Hrej _ _ Hs) as (e' & He' & _). by rewrite He' in Hr.
Qed.

End Degenerate.

Lemma degenerate_scale_fails_witness :
  heap (initial_store small_profile small_hat) !! 1%positive = Some small_profile /\
  heap (initial_store small_profile small_hat) !! 2%positive = Some small_hat /\
  valid_raster small_profile /\ valid_raster small_hat /\
  (nonpositive_scale (Py.dyadic (-1) (-1)) \/
   Py.mul_int_float (width small_profile) (Py.dyadic (-1) (-1)) ≫= Py.int = Ok 0) /\
  exists st' e,
    add_santa_hat nearest_kernels 1 2 (Py.dyadic (-1) (-1)) 0 0 0
      (initial_store small_profile small_hat) = (st', Err e) /\
    (e = ValueError \/ e = OverflowError).
Proof.
  assert (H1 : heap (initial_store small_profile small_hat) !! 1%positive = Some small_profile)
    by reflexivity.
  assert (H2 : heap (initial_store small_profile small_hat) !! 2%positive = Some small_hat)
    by reflexivity.
  assert (H3 : valid_raster small_profile) by (split; vm_compute; discriminate).
  assert (H4 : valid_raster small_hat) by (split; vm_compute; discriminate).
  assert (H5 : nonpositive_scale (Py.dyadic (-1) (-1)) \/
               Py.mul_int_float (width small_profile) (Py.dyadic (-1) (-1)) ≫= Py.int = Ok 0)
    by (left; vm_compute; reflexivity).
  do 5 (split; [assumption|]).
  exact
    (degenerate_scale_fails nearest_kernels _ _ _ _ _ _ 0 0 0 H1 H2 H3 H4 H5).
Defined.

(** ** Transparent hats *)

Lemma transparent_raster m w h f :
  (forall x y, alpha (f x y) = 0) -> transparent_everywhere (raster m w h f).
Proof.
  intros Hf u v.
  destruct (decide (0 <= u < w /\ 0 <= v < h)) as [[??]|Hn].
  - by rewrite getpixel_raster.
  - rewrite getpixel_outside; [done|].
    rewrite width_raster, height_raster. lia.
Qed.

Lemma transparent_im_copy im :
  transparent_everywhere im -> transparent_everywhere (im_copy im).
Proof. intros H u v. by rewrite getpixel_im_copy. Qed.

Lemma fully_transparent_everywhere O :
  fully_transparent O -> transparent_everywhere (im_convert O RGBA).
Proof.
  intros [Hm Ha]. unfold im_convert. rewrite decide_True by done.
  apply transparent_im_copy. intros u v.
  destruct (decide (0 <= u < width O /\ 0 <= v < height O)) as [[??]|Hn].
  - by apply Ha.
  - by rewrite getpixel_outside.
Qed.

Lemma pixel_ok_transparent : pixel_ok transparent.
Proof. unfold pixel_ok, byte. cbn. lia. Qed.

Lemma pixel_ok_convert_rgba m p : pixel_ok p -> pixel_ok (convert_pixel m RGBA p).
Proof.
  unfold pixel_ok, byte. intros (?&?&?&?).
  destruct m; cbn; lia.
Qed.

Lemma bytes_ok_im_convert B : bytes_ok B -> bytes_ok (im_convert B RGBA).
Proof.
  intros HB x y.
  destruct (decide (0 <= x < width B /\ 0 <= y < height B)) as [[??]|Hn].
  - rewrite getpixel_im_convert by done. apply pixel_ok_convert_rgba, HB.
  - rewrite getpixel_outside; [apply pixel_ok_transparent|].
    rewrite width_im_convert, height_im_convert. lia.
Qed.

Lemma bytes_ok_im_new m size c : pixel_ok c -> bytes_ok (im_new m size c).
Proof.
  intros Hc x y. unfold im_new.
  destruct (decide (0 <= x < size.1 /\ 0 <= y < size.2)) as [[??]|Hn].
  - by rewrite getpixel_raster.
  - rewrite getpixel_outside; [apply pixel_ok_transparent|].
    rewrite width_raster, height_raster. lia.
Qed.

Lemma fully_transparent_im_new size c :
  alpha c = 0 -> fully_transparent (im_new RGBA size c).
Proof.
  intros Hc. split; [done|]. intros x y. unfold im_new.
  rewrite width_raster, height_raster. intros ??.
  rewrite getpixel_raster by lia. done.
Qed.

(** Pasting a hat that is transparent everywhere changes nothing. *)
Lemma pasted_transparent self hat pos :
  bytes_ok self -> transparent_everywhere hat ->
  pasted self hat pos = im_copy self.
Proof.
  intros Hs Hh. unfold pasted, im_copy. apply raster_ext. intros x y _ _.
  case_decide; [|done]. rewrite Hh. by apply blend_pixel_clear.
Qed.

Lemma keeps_transparency_nearest : keeps_transparency nearest_kernels.
Proof. split; intros; cbn; auto. Qed.

Section Transparency.

Context (K : Kernels).

Lemma transparent_im_resize im size out :
  keeps_transparency K -> transparent_everywhere im ->
  im_resize K im size = Ok out -> transparent_everywhere out.
Proof.
  intros [HK _] Him. unfold im_resize.
  repeat case_decide; intros [= <-].
  - by apply transparent_im_copy.
  - apply transparent_raster. intros. by apply HK.
Qed.

Lemma transparent_im_rotate im angle out :
  keeps_transparency K -> transparent_everywhere im ->
  im_rotate K im angle = Ok out -> transparent_everywhere out.
Proof.
  intros [_ HK] Him. unfold im_rotate.
  destruct (Py.mod_360 angle) as [a|e0]; [|done].
  change (Ok a ≫= ?f) with (f a). cbv beta.
  repeat case_decide; try destruct (affine_size K a (width im) (height im));
    intros [= <-].
  - by apply transparent_im_copy.
  - apply transparent_raster. intros. apply Him.
  - apply transparent_raster. intros. apply Him.
  - apply transparent_raster. intros. apply Him.
  - apply transparent_raster. intros. by apply HK.
Qed.

(** C7 (full transparency is a no-op).  When the hat's alpha band is 0 at
    every pixel and the resampling kernels keep a transparent picture
    transparent, the image the compositor returns is the profile picture
    converted to RGBA, pixel for pixel, whatever the offsets, the scale and
    the angle. *)
Theorem transparent_hat_is_identity st b o B O s ox oy rot :
  heap st !! b = Some B -> heap st !! o = Some O ->
  bytes_ok B -> fully_transparent O -> keeps_transparency K ->
  forall st' r,
    add_santa_hat K b o s ox oy rot st = (st', Ok r) ->
    heap st' !! r = Some (im_convert B RGBA).
Proof.
  intros Hb Ho HB HO HK st' r Hrun.
  destruct (add_santa_hat_run K st b o B O s ox oy rot Hb Ho)
    as (st0 & res & E & Hsub & Hout).
  rewrite Hrun in E. injection E as <- <-.
  inversion Hout as [| | | |? w h rz rt ? Hs Hr Ht Hbox Hf Hl Hc]; subst.
  rewrite Hl. f_equal.
  rewrite pasted_transparent.
  - apply im_copy_im_convert.
  - by apply bytes_ok_im_convert.
  - eapply transparent_im_rotate; [done| |exact Ht].
    eapply transparent_im_resize; [done| |exact Hr].
    by apply fully_transparent_everywhere.
Qed.

End Transparency.

Lemma transparent_hat_is_identity_witness :
  heap (initial_store small_profile (im_new RGBA (2, 1) transparent)) !! 1%positive
    = Some small_profile /\
  heap (initial_store small_profile (im_new RGBA (2, 1) transparent)) !! 2%positive
    = Some (im_new RGBA (2, 1) transparent) /\
  bytes_ok small_profile /\
  fully_transparent (im_new RGBA (2, 1) transparent) /\
  keeps_transparency nearest_kernels /\
  exists st' r,
    add_santa_hat nearest_kernels 1 2 scale_one 1 2 30
      (initial_store small_profile (im_new RGBA (2, 1) transparent)) = (st', Ok r) /\
    heap st' !! r = Some (im_convert small_profile RGBA).
Proof.
  assert (H1 : heap (initial_store small_profile (im_new RGBA (2, 1) transparent))
                 !! 1%positive = Some small_profile) by reflexivity.
  assert (H2 : heap (initial_store small_profile (im_new RGBA (2, 1) transparent))
                 !! 2%positive = Some (im_new RGBA (2, 1) transparent)) by reflexivity.
  assert (H3 : bytes_ok small_profile).
  { apply bytes_ok_im_new. unfold pixel_ok, byte. cbn. lia. }
  assert (H4 : fully_transparent (im_new RGBA (2, 1) transparent))
    by (by apply fully_transparent_im_new).
  pose proof keeps_transparency_nearest as H5.
  do 5 (split; [assumption|]).
  eexists _, _.
  assert (Hrun : add_santa_hat nearest_kernels 1 2 scale_one 1 2 30
                   (initial_store small_profile (im_new RGBA (2, 1) transparent)) =
                 ((add_santa_hat nearest_kernels 1 2 scale_one 1 2 30
                     (initial_store small_profile (im_new RGBA (2, 1) transparent))).1,
                  Ok 8%positive))
    by (vm_compute; reflexivity).
  split; [exact Hrun|].
  exact (transparent_hat_is_identity nearest_kernels _ _ _ _ _ scale_one 1 2 30
           H1 H2 H3 H4 H5 _ _ Hrun).
Defined.

(** ** Rotation by 0 degrees *)

Section RotationNeutral.

Context (K : Kernels).

Lemma im_rotate_zero im : im_rotate K im 0 = Ok (im_copy im).
Proof. reflexivity. Qed.

Lemma composite_zero B O s ox oy :
  composite K B O s ox oy 0 = composite_unrotated K B O s ox oy.
Proof.
  unfold composite, composite_unrotated.
  destruct (hat_size _ _ _ s) as [size|e]; [cbn|done].
  destruct (im_resize K (im_convert O RGBA) size) as [rz|e] eqn:Hr; [cbn|done].
  destruct (mode_im_resize K _ _ _ Hr) as [_ Hwf].
  by rewrite Hwf.
Qed.

(** The run without the rotation step returns what [composite_unrotated]
    computes. *)
Lemma add_santa_hat_unrotated_returns st b o B O s ox oy :
  heap st !! b = Some B -> heap st !! o = Some O ->
  wp (add_santa_hat_unrotated K b o s ox oy) st (fun st' res =>
    returned_image (st', res) = composite_unrotated K B O s ox oy).
Proof.
  intros Hb Ho. unfold add_santa_hat_unrotated, composite_unrotated.
  apply wp_bind, (wp_Image_convert b B); [done|].
  intros st1 p Hp0 Hs1 Hp Hc1.
  apply wp_bind, (wp_Image_convert o O); [in_store|].
  intros st2 h0 Hh00 Hs2 Hh0 Hc2.
  apply wp_bind, (wp_attr width p (im_convert B RGBA)); [in_store|].
  apply wp_bind, wp_lift.
  destruct (Py.mul_int_float (width (im_convert B RGBA)) s ≫= Py.int)
    as [hw|e] eqn:Ehw; cycle 1.
  { by erewrite hat_size_width_error. }
  apply wp_bind, (wp_attr height h0 (im_convert O RGBA)); [in_store|].
  apply wp_bind, (wp_attr width h0 (im_convert O RGBA)); [in_store|].
  apply wp_bind, wp_lift.
  destruct (q ← Py.truediv hw (width (im_convert O RGBA));
            Py.mul_int_float (height (im_convert O RGBA)) q ≫= Py.int)
    as [hh|e] eqn:Ehh; cycle 1.
  { by erewrite hat_size_height_error. }
  rewrite (hat_size_ok _ _ _ _ _ _ Ehw Ehh).
  change (Ok (hw, hh) ≫= ?f) with (f (hw, hh)). cbv beta.
  apply wp_bind, (wp_Image_resize K h0 (im_convert O RGBA)); [in_store|].
  destruct (im_resize K (im_convert O RGBA) (hw, hh)) as [resized|e] eqn:Eres;
    [|done].
  intros st3 h1 Hh10 Hs3 Hh1 Hc3.
  apply wp_bind, (wp_attr width p (im_convert B RGBA)); [in_store|].
  apply wp_bind, (wp_attr width h1 resized); [in_store|].
  apply wp_bind, (wp_attr im_size p (im_convert B RGBA)); [in_store|].
  apply wp_bind, wp_Image_new.
  intros st5 blank Hbl0 Hs5 Hbl Hc5.
  apply wp_bind,
    (wp_Image_alpha_composite p blank (im_convert B RGBA)
       (im_new RGBA (im_size (im_convert B RGBA)) transparent)); [in_store..|].
  rewrite im_alpha_composite_blank;
    [|apply mode_im_convert
     |rewrite width_im_convert; lia
     |rewrite height_im_convert; lia].
  rewrite im_copy_im_convert.
  intros st6 c Hc0 Hs6 Hc Hc6.
  destruct (mode_im_resize _ _ _ _ Eres) as [Hm1 _].
  apply wp_bind,
    (wp_Image_paste c h1 h1 (im_convert B RGBA) resized resized); [in_store..|].
  rewrite im_paste_rgba;
    [|apply mode_im_convert
     |by rewrite Hm1, mode_im_convert
     |apply im_copy_im_convert].
  cbn. unfold hat_position.
  case_decide as Hbox; [|done].
  intros st7 Hh7 Hc7.
  apply wp_ret. cbn. rewrite Hh7, lookup_insert_eq. done.
Qed.

(** C8 (rotation neutrality).  Called with an angle of 0 the compositor
    returns exactly the image (or raises exactly the exception) that the
    same steps return with the rotation step left out and the resized hat
    pasted at the same position. *)
Theorem rotation_zero_is_neutral st b o B O s ox oy :
  heap st !! b = Some B -> heap st !! o = Some O ->
  returned_image (add_santa_hat K b o s ox oy 0 st) =
  returned_image (add_santa_hat_unrotated K b o s ox oy st).
Proof.
  intros Hb Ho.
  destruct (add_santa_hat_run K st b o B O s ox oy 0 Hb Ho)
    as (st' & res & -> & _ & Hout).
  rewrite (outcome_composite K _ _ _ _ _ _ _ _ _ Hout), composite_zero.
  pose proof (add_santa_hat_unrotated_returns st b o B O s ox oy Hb Ho) as H.
  unfold wp in H.
  destruct (add_santa_hat_unrotated K b o s ox oy st) as [st2 res2].
  by rewrite <- H.
Qed.

End RotationNeutral.

Lemma rotation_zero_is_neutral_witness :
  heap (initial_store small_profile small_hat) !! 1%positive = Some small_profile /\
  heap (initial_store small_profile small_hat) !! 2%positive = Some small_hat /\
  returned_image (add_santa_hat nearest_kernels 1 2 scale_one 0 1 0
                    (initial_store small_profile small_hat)) =
  returned_image (add_santa_hat_unrotated nearest_kernels 1 2 scale_one 0 1
                    (initial_store small_profile small_hat)).
Proof.
  assert (H1 : heap (initial_store small_profile small_hat) !! 1%positive = Some small_profile)
    by reflexivity.
  assert (H2 : heap (initial_store small_profile small_hat) !! 2%positive = Some small_hat)
    by reflexivity.
  do 2 (split; [assumption|]).
  exact
    (rotation_zero_is_neutral nearest_kernels _ _ _ _ _ scale_one 0 1 H1 H2).
Defined.

(** ** The 800 x 800 scenario *)

Lemma pixel_ok_opaque_red : pixel_ok opaque_red.
Proof. unfold pixel_ok, byte. cbn. lia. Qed.

Lemma flat_im_new m size c : flat (im_new m size c) c.
Proof.
  intros x y. unfold im_new. rewrite width_raster, height_raster. intros ??.
  by rewrite getpixel_raster by lia.
Qed.

Lemma flat_im_convert_rgba im c : mode im = RGBA -> flat im c -> flat (im_convert im RGBA) c.
Proof.
  intros Hm Him x y. rewrite width_im_convert, height_im_convert. intros ??.
  rewrite getpixel_im_convert, Hm by lia. apply Him; lia.
Qed.

Section Scenario.

Context (K : Kernels).

(** C9 (scenario).  An 800 x 800 white profile picture, a 200 x 100 red hat,
    scale 0.5, no offset, no rotation, and a Lanczos filter that keeps the
    flat red hat flat.  The run returns; the hat handed to [rotate] is
    400 x 200; it is pasted at (200, 0); and the 800 x 800 result is red
    exactly on columns 200..599 of rows 0..199 and white elsewhere. *)
Theorem scenario_red_on_white st b o B O :
  heap st !! b = Some B -> heap st !! o = Some O ->
  im_size B = (800, 800) -> im_size O = (200, 100) ->
  flat (im_convert B RGBA) white ->
  flat (im_convert O RGBA) opaque_red ->
  flat_resample K (im_convert O RGBA) 400 200 opaque_red ->
  exists st' r out resized self hat,
    add_santa_hat K b o scale_half 0 0 0 st = (st', Ok r) /\
    heap st' !! r = Some out /\
    rotate_requests (new_calls st st') = [(resized, 0)] /\
    im_size resized = (400, 200) /\
    paste_requests (new_calls st st') = [(self, hat, (200, 0))] /\
    im_size out = (800, 800) /\
    forall x y, 0 <= x < 800 -> 0 <= y < 800 ->
      getpixel out x y =
      if decide (200 <= x < 600 /\ 0 <= y < 200) then opaque_red else white.
Proof.
  intros Hb Ho [= HBw HBh] [= HOw HOh] Hwhite Hred Hflat.
  specialize (Hflat Hred).
  assert (width (im_convert B RGBA) = 800) as HPw
    by (by rewrite width_im_convert, HBw).
  assert (height (im_convert B RGBA) = 800) as HPh
    by (by rewrite height_im_convert, HBh).
  assert (hat_size (width (im_convert B RGBA)) (width (im_convert O RGBA))
            (height (im_convert O RGBA)) scale_half = Ok (400, 200)) as Hsize.
  { rewrite HPw, !width_im_convert, height_im_convert, HOw, HOh.
    by vm_compute. }
  assert (im_resize K (im_convert O RGBA) (400, 200) =
          Ok (raster RGBA 400 200 (lanczos_pixel K (im_convert O RGBA) 400 200)))
    as Hresize.
  { unfold im_resize, im_size.
    rewrite width_im_convert, height_im_convert, HOw, HOh, mode_im_convert.
    rewrite decide_False by done. rewrite decide_True by done.
    by rewrite decide_False by (cbn; lia). }
  destruct (add_santa_hat_run K st b o B O scale_half 0 0 0 Hb Ho)
    as (st' & res & Hrun & _ & Hout).
  inversion Hout as [? e Hs|? w h e Hs Hr|? w h rz e Hs Hr Ht
                    |? w h rz rt Hs Hr Ht Hbox
                    |? w h rz rt r Hs Hr Ht Hbox Hf Hl Hc]; subst;
    rewrite Hsize in Hs; try done; injection Hs as <- <-;
    rewrite Hresize in Hr; try done; injection Hr as <-;
    rewrite im_rotate_zero, im_copy_raster in Ht; try done; injection Ht as <-.
  { exfalso. apply Hbox. rewrite HPw. by vm_compute. }
  rewrite HPw, width_raster in Hl, Hc.
  change (hat_position 800 (Z.max 0 400) 0 0) with (200, 0) in Hl, Hc.
  eexists st', r, _, _, _, _.
  split; [exact Hrun|]. split; [exact Hl|].
  rewrite (new_calls_app _ _ _ Hc).
  split; [reflexivity|]. split; [reflexivity|]. split; [reflexivity|].
  split.
  { unfold im_size. destruct (size_pasted (im_convert B RGBA)
      (raster RGBA 400 200 (lanczos_pixel K (im_convert O RGBA) 400 200)) (200, 0))
      as [-> ->].
    by rewrite HPw, HPh. }
  intros x y Hx Hy. unfold pasted.
  rewrite getpixel_raster by (rewrite ?HPw, ?HPh; done).
  cbn [fst snd]. rewrite width_raster, height_raster.
  change (Z.max 0 400) with 400. change (Z.max 0 200) with 200.
  destruct (decide (200 <= x < 600 /\ 0 <= y < 200)) as [[??]|Hn].
  - rewrite decide_True by lia.
    rewrite getpixel_raster by lia. rewrite Hflat by lia.
    apply blend_pixel_full, pixel_ok_opaque_red.
  - rewrite decide_False by lia. apply Hwhite; lia.
Qed.

End Scenario.

Lemma flat_resample_nearest :
  flat_resample nearest_kernels (im_convert scenario_hat RGBA) 400 200 opaque_red.
Proof.
  intros Hflat x y Hx Hy. cbn [lanczos_pixel nearest_kernels].
  assert (width (im_convert scenario_hat RGBA) = 200) as -> by reflexivity.
  assert (height (im_convert scenario_hat RGBA) = 100) as Hh by reflexivity.
  rewrite Hh. apply Hflat.
  - change (width (im_convert scenario_hat RGBA)) with 200.
    split; [apply Z.div_pos; lia|apply Z.div_lt_upper_bound; lia].
  - rewrite Hh.
    split; [apply Z.div_pos; lia|apply Z.div_lt_upper_bound; lia].
Qed.

Lemma scenario_red_on_white_witness :
  heap (initial_store scenario_profile scenario_hat) !! 1%positive = Some scenario_profile /\
  heap (initial_store scenario_profile scenario_hat) !! 2%positive = Some scenario_hat /\
  im_size scenario_profile = (800, 800) /\ im_size scenario_hat = (200, 100) /\
  flat (im_convert scenario_profile RGBA) white /\
  flat (im_convert scenario_hat RGBA) opaque_red /\
  flat_resample nearest_kernels (im_convert scenario_hat RGBA) 400 200 opaque_red /\
  exists st' r out resized self hat,
    add_santa_hat nearest_kernels 1 2 scale_half 0 0 0
      (initial_store scenario_profile scenario_hat) = (st', Ok r) /\
    heap st' !! r = Some out /\
    rotate_requests (new_calls (initial_store scenario_profile scenario_hat) st')
      = [(resized, 0)] /\
    im_size resized = (400, 200) /\
    paste_requests (new_calls (initial_store scenario_profile scenario_hat) st')
      = [(self, hat, (200, 0))] /\
    im_size out = (800, 800) /\
    forall x y, 0 <= x < 800 -> 0 <= y < 800 ->
      getpixel out x y =
      if decide (200 <= x < 600 /\ 0 <= y < 200) then opaque_red else white.
Proof.
  assert (H1 : heap (initial_store scenario_profile scenario_hat) !! 1%positive
               = Some scenario_profile) by reflexivity.
  assert (H2 : heap (initial_store scenario_profile scenario_hat) !! 2%positive
               = Some scenario_hat) by reflexivity.
  assert (H3 : im_size scenario_profile = (800, 800)) by reflexivity.
  assert (H4 : im_size scenario_hat = (200, 100)) by reflexivity.
  assert (H5 : flat (im_convert scenario_profile RGBA) white)
    by (apply flat_im_convert_rgba; [done|apply flat_im_new]).
  assert (H6 : flat (im_convert scenario_hat RGBA) opaque_red)
    by (apply flat_im_convert_rgba; [done|apply flat_im_new]).
  pose proof flat_resample_nearest as H7.
  do 7 (split; [assumption|]).
  exact
    (scenario_red_on_white nearest_kernels _ _ _ _ _ H1 H2 H3 H4 H5 H6 H7).
Defined.

(** ** A zero-height target *)

(** C10.  Valid inputs exist for which the target width is positive and the
    target height is 0: a 100-pixel-wide profile, a 1000 x 1 hat and scale
    0.5 give [int(100 * 0.5) = 50] and [int(1 * (50 / 1000)) = 0].  Nothing
    rejects the parameters before [resize] is called with [(50, 0)]; that
    call is the last one made and it raises [ValueError]. *)
Theorem zero_height_target :
  valid_raster wide_profile /\ valid_raster flat_hat /\ positive_scale scale_half /\
  target_size wide_profile flat_hat scale_half = Ok (50, 0) /\
  forall (K : Kernels) (ox oy rot : Z),
    exists st',
      add_santa_hat K 1 2 scale_half ox oy rot (initial_store wide_profile flat_hat)
        = (st', Err ValueError) /\
      resize_requests (calls st') = [(im_convert flat_hat RGBA, (50, 0))] /\
      last (calls st') = Some (CallResize (im_convert flat_hat RGBA) (50, 0)).
Proof.
  split; [split; vm_compute; discriminate|].
  split; [split; vm_compute; discriminate|].
  split; [reflexivity|].
  split; [by vm_compute|].
  intros K ox oy rot. eexists.
  split; [vm_compute; reflexivity|].
  split; vm_compute; reflexivity.
Qed.

(** * Further properties of the compositor *)

Section Returned.

Context (K : Kernels).

(** What a returning run has computed, stage by stage. *)
Lemma add_santa_hat_returned st b o B O s ox oy rot st' r :
  heap st !! b = Some B -> heap st !! o = Some O ->
  add_santa_hat K b o s ox oy rot st = (st', Ok r) ->
  exists w h resized rotated,
    target_size B O s = Ok (w, h) /\
    im_resize K (im_convert O RGBA) (w, h) = Ok resized /\
    im_rotate K resized rot = Ok rotated /\
    heap st' !! r =
      Some (pasted (im_convert B RGBA) rotated
              (hat_position (width (im_convert B RGBA)) (width rotated) ox oy)) /\
    resize_requests (new_calls st st') = [(im_convert O RGBA, (w, h))] /\
    rotate_requests (new_calls st st') = [(resized, rot)] /\
    paste_requests (new_calls st st') =
      [(im_convert B RGBA, rotated,
        hat_position (width (im_convert B RGBA)) (width rotated) ox oy)].
Proof.
  intros Hb Ho Hrun.
  destruct (add_santa_hat_run K st b o B O s ox oy rot Hb Ho)
    as (st0 & res0 & E & Hsub & Hout).
  rewrite Hrun in E. injection E as <- <-.
  inversion Hout as [| | | |? w h rz rt ? Hs Hr Ht Hbox Hf Hl Hc]; subst.
  rewrite (new_calls_app _ _ _ Hc).
  by exists w, h, rz, rt.
Qed.

Lemma blend8_byte m a c : byte (blend8 m a c).
Proof.
  unfold blend8, uint8, byte.
  pose proof (Z.mod_pos_bound (div255 (a * (255 - m) + c * m)) 256). lia.
Qed.

Lemma pixel_ok_blend_pixel m p q : pixel_ok (blend_pixel m p q).
Proof. unfold pixel_ok, blend_pixel; cbn. repeat split; apply blend8_byte. Qed.

Lemma bytes_ok_pasted self hat pos : bytes_ok self -> bytes_ok (pasted self hat pos).
Proof.
  intros Hs x y. unfold pasted.
  destruct (decide (0 <= x < width self /\ 0 <= y < height self)) as [[??]|Hn].
  - rewrite getpixel_raster by done.
    case_decide; [apply pixel_ok_blend_pixel|apply Hs].
  - rewrite getpixel_outside; [apply pixel_ok_transparent|].
    rewrite width_raster, height_raster. lia.
Qed.

(** X1.  The result is a well-formed RGBA picture of 8-bit values whenever the
    profile picture holds 8-bit values: the mode of the input, the content of
    the hat and the output of the resampling filters do not matter. *)
Theorem result_is_rgba_bytes st b o B O s ox oy rot st' r :
  heap st !! b = Some B -> heap st !! o = Some O -> bytes_ok B ->
  add_santa_hat K b o s ox oy rot st = (st', Ok r) ->
  exists out,
    heap st' !! r = Some out /\
    mode out = RGBA /\ well_formed out /\ bytes_ok out.
Proof.
  intros Hb Ho HB Hrun.
  destruct (add_santa_hat_returned _ _ _ _ _ _ _ _ _ _ _ Hb Ho Hrun)
    as (w & h & rz & rt & _ & _ & _ & Hl & _).
  eexists. split; [exact Hl|]. split; [|split].
  - unfold pasted. rewrite mode_raster. apply mode_im_convert.
  - apply well_formed_raster.
  - apply bytes_ok_pasted, bytes_ok_im_convert, HB.
Qed.

(** X2.  Pixel by pixel: where the placed hat is fully transparent the result
    shows the profile picture, and where it is fully opaque the result shows
    the hat's pixel, all four bands. *)
Theorem clear_and_opaque_pixels st b o B O s ox oy rot st' r :
  heap st !! b = Some B -> heap st !! o = Some O ->
  valid_raster B -> bytes_ok B ->
  add_santa_hat K b o s ox oy rot st = (st', Ok r) ->
  exists out self hat pos,
    heap st' !! r = Some out /\
    paste_requests (new_calls st st') = [(self, hat, pos)] /\
    forall x y,
      0 <= x < width B -> 0 <= y < height B ->
      pos.1 <= x < pos.1 + width hat -> pos.2 <= y < pos.2 + height hat ->
      (alpha (getpixel hat (x - pos.1) (y - pos.2)) = 0 ->
       getpixel out x y = getpixel (im_convert B RGBA) x y) /\
      (alpha (getpixel hat (x - pos.1) (y - pos.2)) = 255 ->
       pixel_ok (getpixel hat (x - pos.1) (y - pos.2)) ->
       getpixel out x y = getpixel hat (x - pos.1) (y - pos.2)).
Proof.
  intros Hb Ho HB HBb Hrun.
  destruct (add_santa_hat_returned _ _ _ _ _ _ _ _ _ _ _ Hb Ho Hrun)
    as (w & h & rz & rt & _ & _ & _ & Hl & _ & _ & Hp).
  eexists _, _, _, _. split; [exact Hl|]. split; [exact Hp|].
  intros x y Hx Hy Hbx Hby. unfold pasted.
  rewrite getpixel_raster
    by (rewrite ?width_profile_rgba, ?height_profile_rgba; done).
  rewrite decide_True by done. split.
  - intros ->. apply blend_pixel_clear, bytes_ok_im_convert, HBb.
  - intros -> Hok. by apply blend_pixel_full.
Qed.

(** X3.  In a run that returns, a hat whose box lies entirely off the canvas
    leaves the profile picture as it is: the returned image is the profile
    picture converted to RGBA and nothing of the hat is drawn.  In
    particular a vertical offset equal to the picture's height (the top of
    the caller's slider) makes the hat disappear. *)
Theorem hat_off_canvas st b o B O s ox oy rot st' r :
  heap st !! b = Some B -> heap st !! o = Some O -> valid_raster B ->
  add_santa_hat K b o s ox oy rot st = (st', Ok r) ->
  exists resized hat pos,
    paste_requests (new_calls st st') = [(im_convert B RGBA, hat, pos)] /\
    im_rotate K resized rot = Ok hat /\
    pos = ((width B - width hat) `div` 2 + ox, oy) /\
    ((width B <= pos.1 \/ pos.1 + width hat <= 0 \/
      height B <= pos.2 \/ pos.2 + height hat <= 0) ->
     heap st' !! r = Some (im_convert B RGBA)) /\
    (height B <= oy -> heap st' !! r = Some (im_convert B RGBA)).
Proof.
  intros Hb Ho HB Hrun.
  destruct (add_santa_hat_returned _ _ _ _ _ _ _ _ _ _ _ Hb Ho Hrun)
    as (w & h & rz & rt & _ & _ & Ht & Hl & _ & _ & Hp).
  rewrite width_profile_rgba in Hl, Hp by done.
  exists rz, rt, (hat_position (width B) (width rt) ox oy).
  split; [exact Hp|]. split; [exact Ht|]. split; [reflexivity|].
  assert ((width B <= (hat_position (width B) (width rt) ox oy).1 \/
           (hat_position (width B) (width rt) ox oy).1 + width rt <= 0 \/
           height B <= (hat_position (width B) (width rt) ox oy).2 \/
           (hat_position (width B) (width rt) ox oy).2 + height rt <= 0) ->
          heap st' !! r = Some (im_convert B RGBA)) as Hoff.
  { intros Hout. rewrite Hl. f_equal.
    rewrite <- (im_copy_im_convert B RGBA) at 2.
    unfold pasted, im_copy. apply raster_ext. intros x y Hx Hy.
    rewrite width_profile_rgba in Hx by done.
    rewrite height_profile_rgba in Hy by done.
    rewrite decide_False; [done|]. lia. }
  split; [exact Hoff|].
  intros Hoy. apply Hoff. right. right. left. exact Hoy.
Qed.

End Returned.

(** ** Alpha of the result over an opaque picture *)

Lemma blend8_alpha_table :
  Forall (fun a => bool_decide (blend8 a 255 a = 255) = bool_decide (a = 0 \/ a = 255))
    (seqZ 0 256).
Proof. apply (bool_decide_unpack _). by vm_compute. Qed.

Lemma blend8_alpha_opaque a :
  byte a -> blend8 a 255 a = 255 <-> a = 0 \/ a = 255.
Proof.
  intros Ha. pose proof blend8_alpha_table as H.
  rewrite Forall_seqZ in H. specialize (H a ltac:(unfold byte in Ha; lia)).
  split; intros Hx.
  - apply (bool_decide_unpack _). rewrite <- H. by apply bool_decide_pack.
  - apply (bool_decide_unpack _). rewrite H. by apply bool_decide_pack.
Qed.

Section MoreGeometry.

Context (K : Kernels).

(** X4.  Over an opaque pixel of the profile picture the result is opaque exactly
    when the hat's pixel is fully transparent or fully opaque: every
    half-transparent pixel of the hat (its anti-aliased edge) leaves a
    half-transparent pixel in the result. *)
Theorem opaque_iff_hat_alpha_extreme st b o B O s ox oy rot st' r :
  heap st !! b = Some B -> heap st !! o = Some O -> valid_raster B ->
  add_santa_hat K b o s ox oy rot st = (st', Ok r) ->
  exists out self hat pos,
    heap st' !! r = Some out /\
    paste_requests (new_calls st st') = [(self, hat, pos)] /\
    forall x y,
      0 <= x < width B -> 0 <= y < height B ->
      pos.1 <= x < pos.1 + width hat -> pos.2 <= y < pos.2 + height hat ->
      alpha (getpixel (im_convert B RGBA) x y) = 255 ->
      byte (alpha (getpixel hat (x - pos.1) (y - pos.2))) ->
      (alpha (getpixel out x y) = 255 <->
       alpha (getpixel hat (x - pos.1) (y - pos.2)) = 0 \/
       alpha (getpixel hat (x - pos.1) (y - pos.2)) = 255).
Proof.
  intros Hb Ho HB Hrun.
  destruct (add_santa_hat_returned _ _ _ _ _ _ _ _ _ _ _ _ Hb Ho Hrun)
    as (w & h & rz & rt & _ & _ & _ & Hl & _ & _ & Hp).
  eexists _, _, _, _. split; [exact Hl|]. split; [exact Hp|].
  intros x y Hx Hy Hbx Hby Hopaque Hbyte. unfold pasted.
  rewrite getpixel_raster
    by (rewrite ?width_profile_rgba, ?height_profile_rgba; done).
  rewrite decide_True by done. cbn [alpha blend_pixel].
  rewrite Hopaque. by apply blend8_alpha_opaque.
Qed.

Lemma im_rotate_congr im rot rot' :
  Py.mod_360 rot = Py.mod_360 rot' -> im_rotate K im rot = im_rotate K im rot'.
Proof. unfold im_rotate. by intros ->. Qed.

(** X5.  The angle matters only through [angle % 360.0]: two angles with the same
    remainder give the same picture (or the same exception).  The two ends
    of the caller's slider, -180 and 180, are such a pair. *)
Theorem angle_modulo_360 st b o B O s ox oy rot rot' :
  heap st !! b = Some B -> heap st !! o = Some O ->
  Py.mod_360 rot = Py.mod_360 rot' ->
  returned_image (add_santa_hat K b o s ox oy rot st) =
  returned_image (add_santa_hat K b o s ox oy rot' st).
Proof.
  intros Hb Ho Hmod.
  destruct (add_santa_hat_run K st b o B O s ox oy rot Hb Ho)
    as (st1 & res1 & -> & _ & Hout1).
  destruct (add_santa_hat_run K st b o B O s ox oy rot' Hb Ho)
    as (st2 & res2 & -> & _ & Hout2).
  rewrite (outcome_composite K _ _ _ _ _ _ _ _ _ Hout1).
  rewrite (outcome_composite K _ _ _ _ _ _ _ _ _ Hout2).
  unfold composite.
  destruct (hat_size _ _ _ s) as [size|e]; [cbn|done].
  destruct (im_resize K (im_convert O RGBA) size) as [rz|e]; [cbn|done].
  by rewrite (im_rotate_congr rz rot rot' Hmod).
Qed.

Lemma im_resize_nonneg im size out :
  im_resize K im size = Ok out -> 0 <= width out /\ 0 <= height out.
Proof.
  intros Hr. destruct (mode_im_resize K _ _ _ Hr) as [_ Hwf].
  rewrite <- Hwf. unfold im_copy. rewrite width_raster, height_raster. lia.
Qed.

(** X6.  A quarter turn swaps the hat's width and height, so it is centred by its
    former height, and it moves pixels without resampling them: 90 degrees
    puts the right column on top, 270 degrees the left column. *)
Theorem quarter_turn st b o B O s ox oy rot a st' r :
  heap st !! b = Some B -> heap st !! o = Some O -> valid_raster B ->
  Py.mod_360 rot = Ok a -> a = 90 \/ a = 270 ->
  add_santa_hat K b o s ox oy rot st = (st', Ok r) ->
  exists resized hat pos,
    rotate_requests (new_calls st st') = [(resized, rot)] /\
    paste_requests (new_calls st st') = [(im_convert B RGBA, hat, pos)] /\
    width hat = height resized /\ height hat = width resized /\
    pos = ((width B - height resized) `div` 2 + ox, oy) /\
    forall x y, 0 <= x < height resized -> 0 <= y < width resized ->
      getpixel hat x y =
      if decide (a = 90)
      then getpixel resized (width resized - 1 - y) x
      else getpixel resized y (height resized - 1 - x).
Proof.
  intros Hb Ho HB Hmod Ha Hrun.
  destruct (add_santa_hat_returned _ _ _ _ _ _ _ _ _ _ _ _ Hb Ho Hrun)
    as (w & h & rz & rt & _ & Hr & Ht & _ & _ & Hq & Hp).
  destruct (im_resize_nonneg _ _ _ Hr) as [Hw0 Hh0].
  rewrite width_profile_rgba in Hp by done.
  unfold im_rotate in Ht. rewrite Hmod in Ht.
  change (Ok a ≫= ?f) with (f a) in Ht. cbv beta in Ht.
  exists rz, rt, (hat_position (width B) (width rt) ox oy).
  split; [exact Hq|]. split; [exact Hp|].
  destruct Ha as [-> | ->]; cbn in Ht; injection Ht as <-.
  - unfold im_rotate_90. rewrite width_raster, height_raster.
    rewrite !Z.max_r by lia. repeat split.
    intros x y Hx Hy. by rewrite getpixel_raster.
  - unfold im_rotate_270. rewrite width_raster, height_raster.
    rewrite !Z.max_r by lia. repeat split.
    intros x y Hx Hy. by rewrite getpixel_raster.
Qed.

(** X7.  A half turn keeps the hat's size and position and mirrors it through its
    centre, again without resampling. *)
Theorem half_turn st b o B O s ox oy rot st' r :
  heap st !! b = Some B -> heap st !! o = Some O -> valid_raster B ->
  Py.mod_360 rot = Ok 180 ->
  add_santa_hat K b o s ox oy rot st = (st', Ok r) ->
  exists resized hat pos,
    rotate_requests (new_calls st st') = [(resized, rot)] /\
    paste_requests (new_calls st st') = [(im_convert B RGBA, hat, pos)] /\
    width hat = width resized /\ height hat = height resized /\
    pos = ((width B - width resized) `div` 2 + ox, oy) /\
    forall x y, 0 <= x < width resized -> 0 <= y < height resized ->
      getpixel hat x y =
      getpixel resized (width resized - 1 - x) (height resized - 1 - y).
Proof.
  intros Hb Ho HB Hmod Hrun.
  destruct (add_santa_hat_returned _ _ _ _ _ _ _ _ _ _ _ _ Hb Ho Hrun)
    as (w & h & rz & rt & _ & Hr & Ht & _ & _ & Hq & Hp).
  destruct (im_resize_nonneg _ _ _ Hr) as [Hw0 Hh0].
  rewrite width_profile_rgba in Hp by done.
  unfold im_rotate in Ht. rewrite Hmod in Ht. cbn in Ht. injection Ht as <-.
  exists rz, (im_rotate_180 rz),
    (hat_position (width B) (width (im_rotate_180 rz)) ox oy).
  split; [exact Hq|]. split; [exact Hp|].
  unfold im_rotate_180. rewrite width_raster, height_raster.
  rewrite !Z.max_r by lia. repeat split.
  intros x y Hx Hy. by rewrite getpixel_raster.
Qed.

(** X8.  An empty hat (width 0) makes the aspect-ratio division raise
    [ZeroDivisionError]; [resize] is never reached. *)
Theorem empty_hat_divides_by_zero st b o B O s ox oy rot hw :
  heap st !! b = Some B -> heap st !! o = Some O ->
  width O <= 0 ->
  Py.mul_int_float (width (im_convert B RGBA)) s ≫= Py.int = Ok hw ->
  exists st',
    add_santa_hat K b o s ox oy rot st = (st', Err ZeroDivisionError) /\
    resize_requests (new_calls st st') = [].
Proof.
  intros Hb Ho HO Hhw.
  assert (target_size B O s = Err ZeroDivisionError) as Hsize.
  { unfold target_size, hat_size. rewrite Hhw. cbn.
    rewrite width_im_convert, Z.max_l by lia.
    unfold Py.truediv. by rewrite decide_True. }
  unfold target_size in Hsize.
  destruct (add_santa_hat_run K st b o B O s ox oy rot Hb Ho)
    as (st' & res & Hrun & _ & Hout).
  inversion Hout as [? e Hs Hc|? w h e Hs|? w h rz e Hs|? w h rz rt Hs|? w h rz rt r Hs];
    subst; rewrite Hsize in Hs; simplify_eq.
  exists st'. split; [done|]. by rewrite (new_calls_app _ _ _ Hc).
Qed.

Lemma SFmul_nan y : SFmul Py.prec Py.emax y S754_nan = S754_nan.
Proof. by destruct y. Qed.

Lemma hat_size_not_finite pw sw sh s :
  s = S754_nan \/ (exists sg, s = S754_infinity sg) ->
  exists e, hat_size pw sw sh s = Err e /\ (e = ValueError \/ e = OverflowError).
Proof.
  intros Hs. unfold hat_size, Py.mul_int_float.
  destruct (Py.to_float pw) as [y|e] eqn:Ey; cbn.
  - destruct Hs as [-> | [sg ->]].
    + rewrite SFmul_nan. cbn. eauto.
    + destruct y as [sy|sy| |sy my ey]; cbn; eauto.
  - exists e. split; [done|]. right. by eapply to_float_error.
Qed.

(** X9.  A scale that is NaN or infinite makes [int] raise ([ValueError] for NaN,
    [OverflowError] for an infinity) before [resize] is called. *)
Theorem scale_not_finite st b o B O s ox oy rot :
  heap st !! b = Some B -> heap st !! o = Some O ->
  s = S754_nan \/ (exists sg, s = S754_infinity sg) ->
  exists st' e,
    add_santa_hat K b o s ox oy rot st = (st', Err e) /\
    (e = ValueError \/ e = OverflowError) /\
    resize_requests (new_calls st st') = [].
Proof.
  intros Hb Ho Hs.
  destruct (hat_size_not_finite (width (im_convert B RGBA))
              (width (im_convert O RGBA)) (height (im_convert O RGBA)) s Hs)
    as (e & Hsize & He).
  destruct (add_santa_hat_run K st b o B O s ox oy rot Hb Ho)
    as (st' & res & Hrun & _ & Hout).
  inversion Hout as [? e' Hs' Hc|? w h e' Hs'|? w h rz e' Hs'|? w h rz rt Hs'
                    |? w h rz rt r Hs'];
    subst; rewrite Hsize in Hs'; simplify_eq.
  eexists st', _. split; [done|]. split; [done|].
  by rewrite (new_calls_app _ _ _ Hc).
Qed.

(** X10.  The returned picture depends only on the two input pictures and the
    parameters, not on the rest of the store: calling the compositor again,
    after a first call has left its objects behind, returns the same
    picture. *)
Theorem repeatable st b o B O s ox oy rot st' res :
  heap st !! b = Some B -> heap st !! o = Some O ->
  add_santa_hat K b o s ox oy rot st = (st', res) ->
  returned_image (add_santa_hat K b o s ox oy rot st') =
  returned_image (st', res).
Proof.
  intros Hb Ho Hrun.
  destruct (add_santa_hat_run K st b o B O s ox oy rot Hb Ho)
    as (st0 & res0 & E & Hsub & Hout).
  rewrite Hrun in E. injection E as <- <-.
  assert (heap st' !! b = Some B) as Hb' by (by eapply lookup_weaken).
  assert (heap st' !! o = Some O) as Ho' by (by eapply lookup_weaken).
  destruct (add_santa_hat_run K st' b o B O s ox oy rot Hb' Ho')
    as (st2 & res2 & -> & _ & Hout2).
  rewrite (outcome_composite K _ _ _ _ _ _ _ _ _ Hout).
  by rewrite (outcome_composite K _ _ _ _ _ _ _ _ _ Hout2).
Qed.

End MoreGeometry.

Lemma result_is_rgba_bytes_witness :
  heap (initial_store small_profile small_hat) !! 1%positive = Some small_profile /\
  heap (initial_store small_profile small_hat) !! 2%positive = Some small_hat /\
  bytes_ok small_profile /\
  exists st' r,
    add_santa_hat nearest_kernels 1 2 scale_one 1 (-1) 30 (initial_store small_profile small_hat) = (st', Ok r) /\
    exists out,
      heap st' !! r = Some out /\
      mode out = RGBA /\ well_formed out /\ bytes_ok out.
Proof.
  assert (H1 : heap (initial_store small_profile small_hat) !! 1%positive = Some small_profile)
    by (reflexivity).
  assert (H2 : heap (initial_store small_profile small_hat) !! 2%positive = Some small_hat)
    by (reflexivity).
  assert (H3 : bytes_ok small_profile)
    by (apply bytes_ok_im_new; unfold pixel_ok, byte; cbn; lia).
  do 3 (split; [assumption|]).
  eexists _, _.
  assert (Hrun : add_santa_hat nearest_kernels 1 2 scale_one 1 (-1) 30 (initial_store small_profile small_hat) =
                 ((add_santa_hat nearest_kernels 1 2 scale_one 1 (-1) 30 (initial_store small_profile small_hat)).1, Ok 8%positive))
    by (vm_compute; reflexivity).
  split; [exact Hrun|].
  exact (result_is_rgba_bytes nearest_kernels _ _ _ _ _ _ _ _ _ _ _ H1 H2 H3 Hrun).
Defined.

Lemma clear_and_opaque_pixels_witness :
  heap (initial_store small_profile hat_3x3) !! 1%positive = Some small_profile /\
  heap (initial_store small_profile hat_3x3) !! 2%positive = Some hat_3x3 /\
  valid_raster small_profile /\
  bytes_ok small_profile /\
  exists st' r,
    add_santa_hat nearest_kernels 1 2 scale_three_quarters 0 1 0 (initial_store small_profile hat_3x3) = (st', Ok r) /\
    exists out self hat pos,
      heap st' !! r = Some out /\
      paste_requests (new_calls (initial_store small_profile hat_3x3) st') = [(self, hat, pos)] /\
      forall x y,
        0 <= x < width small_profile -> 0 <= y < height small_profile ->
        pos.1 <= x < pos.1 + width hat -> pos.2 <= y < pos.2 + height hat ->
        (alpha (getpixel hat (x - pos.1) (y - pos.2)) = 0 ->
         getpixel out x y = getpixel (im_convert small_profile RGBA) x y) /\
        (alpha (getpixel hat (x - pos.1) (y - pos.2)) = 255 ->
         pixel_ok (getpixel hat (x - pos.1) (y - pos.2)) ->
         getpixel out x y = getpixel hat (x - pos.1) (y - pos.2)).
Proof.
  assert (H1 : heap (initial_store small_profile hat_3x3) !! 1%positive = Some small_profile)
    by (reflexivity).
  assert (H2 : heap (initial_store small_profile hat_3x3) !! 2%positive = Some hat_3x3)
    by (reflexivity).
  assert (H3 : valid_raster small_profile)
    by (split; vm_compute; discriminate).
  assert (H4 : bytes_ok small_profile)
    by (apply bytes_ok_im_new; unfold pixel_ok, byte; cbn; lia).
  do 4 (split; [assumption|]).
  eexists _, _.
  assert (Hrun : add_santa_hat nearest_kernels 1 2 scale_three_quarters 0 1 0 (initial_store small_profile hat_3x3) =
                 ((add_santa_hat nearest_kernels 1 2 scale_three_quarters 0 1 0 (initial_store small_profile hat_3x3)).1, Ok 8%positive))
    by (vm_compute; reflexivity).
  split; [exact Hrun|].
  exact (clear_and_opaque_pixels nearest_kernels _ _ _ _ _ _ _ _ _ _ _ H1 H2 H3 H4 Hrun).
Defined.

Lemma hat_off_canvas_witness :
  heap (initial_store small_profile small_hat) !! 1%positive = Some small_profile /\
  heap (initial_store small_profile small_hat) !! 2%positive = Some small_hat /\
  valid_raster small_profile /\
  exists st' r,
    add_santa_hat nearest_kernels 1 2 scale_half 0 4 0 (initial_store small_profile small_hat) = (st', Ok r) /\
    exists resized hat pos,
      paste_requests (new_calls (initial_store small_profile small_hat) st') = [(im_convert small_profile RGBA, hat, pos)] /\
      im_rotate nearest_kernels resized 0 = Ok hat /\
      pos = ((width small_profile - width hat) `div` 2 + 0, 4) /\
      ((width small_profile <= pos.1 \/ pos.1 + width hat <= 0 \/
        height small_profile <= pos.2 \/ pos.2 + height hat <= 0) ->
       heap st' !! r = Some (im_convert small_profile RGBA)) /\
      (height small_profile <= 4 -> heap st' !! r = Some (im_convert small_profile RGBA)).
Proof.
  assert (H1 : heap (initial_store small_profile small_hat) !! 1%positive = Some small_profile)
    by (reflexivity).
  assert (H2 : heap (initial_store small_profile small_hat) !! 2%positive = Some small_hat)
    by (reflexivity).
  assert (H3 : valid_raster small_profile)
    by (split; vm_compute; discriminate).
  do 3 (split; [assumption|]).
  eexists _, _.
  assert (Hrun : add_santa_hat nearest_kernels 1 2 scale_half 0 4 0 (initial_store small_profile small_hat) =
                 ((add_santa_hat nearest_kernels 1 2 scale_half 0 4 0 (initial_store small_profile small_hat)).1, Ok 8%positive))
    by (vm_compute; reflexivity).
  split; [exact Hrun|].
  exact (hat_off_canvas nearest_kernels _ _ _ _ _ _ _ _ _ _ _ H1 H2 H3 Hrun).
Defined.

Lemma opaque_iff_hat_alpha_extreme_witness :
  heap (initial_store small_profile small_hat) !! 1%positive = Some small_profile /\
  heap (initial_store small_profile small_hat) !! 2%positive = Some small_hat /\
  valid_raster small_profile /\
  exists st' r,
    add_santa_hat nearest_kernels 1 2 scale_half 0 0 0 (initial_store small_profile small_hat) = (st', Ok r) /\
    exists out self hat pos,
      heap st' !! r = Some out /\
      paste_requests (new_calls (initial_store small_profile small_hat) st') = [(self, hat, pos)] /\
      forall x y,
        0 <= x < width small_profile -> 0 <= y < height small_profile ->
        pos.1 <= x < pos.1 + width hat -> pos.2 <= y < pos.2 + height hat ->
        alpha (getpixel (im_convert small_profile RGBA) x y) = 255 ->
        byte (alpha (getpixel hat (x - pos.1) (y - pos.2))) ->
        (alpha (getpixel out x y) = 255 <->
         alpha (getpixel hat (x - pos.1) (y - pos.2)) = 0 \/
         alpha (getpixel hat (x - pos.1) (y - pos.2)) = 255).
Proof.
  assert (H1 : heap (initial_store small_profile small_hat) !! 1%positive = Some small_profile)
    by (reflexivity).
  assert (H2 : heap (initial_store small_profile small_hat) !! 2%positive = Some small_hat)
    by (reflexivity).
  assert (H3 : valid_raster small_profile)
    by (split; vm_compute; discriminate).
  do 3 (split; [assumption|]).
  eexists _, _.
  assert (Hrun : add_santa_hat nearest_kernels 1 2 scale_half 0 0 0 (initial_store small_profile small_hat) =
                 ((add_santa_hat nearest_kernels 1 2 scale_half 0 0 0 (initial_store small_profile small_hat)).1, Ok 8%positive))
    by (vm_compute; reflexivity).
  split; [exact Hrun|].
  exact (opaque_iff_hat_alpha_extreme nearest_kernels _ _ _ _ _ _ _ _ _ _ _ H1 H2 H3 Hrun).
Defined.

Lemma angle_modulo_360_witness :
  heap (initial_store small_profile small_hat) !! 1%positive = Some small_profile /\
  heap (initial_store small_profile small_hat) !! 2%positive = Some small_hat /\
  Py.mod_360 (-180) = Py.mod_360 180 /\
  returned_image (add_santa_hat nearest_kernels 1 2 scale_one 0 0 (-180) (initial_store small_profile small_hat)) =
  returned_image (add_santa_hat nearest_kernels 1 2 scale_one 0 0 180 (initial_store small_profile small_hat)).
Proof.
  assert (H1 : heap (initial_store small_profile small_hat) !! 1%positive = Some small_profile)
    by reflexivity.
  assert (H2 : heap (initial_store small_profile small_hat) !! 2%positive = Some small_hat)
    by reflexivity.
  assert (H3 : Py.mod_360 (-180) = Py.mod_360 180) by reflexivity.
  do 3 (split; [assumption|]).
  exact (angle_modulo_360 nearest_kernels _ _ _ _ _ scale_one 0 0 (-180) 180 H1 H2 H3).
Defined.

Lemma quarter_turn_witness :
  heap (initial_store small_profile small_hat) !! 1%positive = Some small_profile /\
  heap (initial_store small_profile small_hat) !! 2%positive = Some small_hat /\
  valid_raster small_profile /\
  Py.mod_360 (-90) = Ok 270 /\
  (270 = 90 \/ 270 = 270) /\
  exists st' r,
    add_santa_hat nearest_kernels 1 2 scale_one 0 0 (-90) (initial_store small_profile small_hat) = (st', Ok r) /\
    exists resized hat pos,
      rotate_requests (new_calls (initial_store small_profile small_hat) st') = [(resized, -90)] /\
      paste_requests (new_calls (initial_store small_profile small_hat) st') = [(im_convert small_profile RGBA, hat, pos)] /\
      width hat = height resized /\ height hat = width resized /\
      pos = ((width small_profile - height resized) `div` 2 + 0, 0) /\
      forall x y, 0 <= x < height resized -> 0 <= y < width resized ->
        getpixel hat x y =
        if decide (270 = 90)
        then getpixel resized (width resized - 1 - y) x
        else getpixel resized y (height resized - 1 - x).
Proof.
  assert (H1 : heap (initial_store small_profile small_hat) !! 1%positive = Some small_profile)
    by (reflexivity).
  assert (H2 : heap (initial_store small_profile small_hat) !! 2%positive = Some small_hat)
    by (reflexivity).
  assert (H3 : valid_raster small_profile)
    by (split; vm_compute; discriminate).
  assert (H4 : Py.mod_360 (-90) = Ok 270)
    by (reflexivity).
  assert (H5 : 270 = 90 \/ 270 = 270)
    by (right; reflexivity).
  do 5 (split; [assumption|]).
  eexists _, _.
  assert (Hrun : add_santa_hat nearest_kernels 1 2 scale_one 0 0 (-90) (initial_store small_profile small_hat) =
                 ((add_santa_hat nearest_kernels 1 2 scale_one 0 0 (-90) (initial_store small_profile small_hat)).1, Ok 8%positive))
    by (vm_compute; reflexivity).
  split; [exact Hrun|].
  exact (quarter_turn nearest_kernels _ _ _ _ _ _ _ _ _ _ _ _ H1 H2 H3 H4 H5 Hrun).
Defined.

Lemma half_turn_witness :
  heap (initial_store small_profile small_hat) !! 1%positive = Some small_profile /\
  heap (initial_store small_profile small_hat) !! 2%positive = Some small_hat /\
  valid_raster small_profile /\
  Py.mod_360 (-180) = Ok 180 /\
  exists st' r,
    add_santa_hat nearest_kernels 1 2 scale_one 0 0 (-180) (initial_store small_profile small_hat) = (st', Ok r) /\
    exists resized hat pos,
      rotate_requests (new_calls (initial_store small_profile small_hat) st') = [(resized, -180)] /\
      paste_requests (new_calls (initial_store small_profile small_hat) st') = [(im_convert small_profile RGBA, hat, pos)] /\
      width hat = width resized /\ height hat = height resized /\
      pos = ((width small_profile - width resized) `div` 2 + 0, 0) /\
      forall x y, 0 <= x < width resized -> 0 <= y < height resized ->
        getpixel hat x y =
        getpixel resized (width resized - 1 - x) (height resized - 1 - y).
Proof.
  assert (H1 : heap (initial_store small_profile small_hat) !! 1%positive = Some small_profile)
    by (reflexivity).
  assert (H2 : heap (initial_store small_profile small_hat) !! 2%positive = Some small_hat)
    by (reflexivity).
  assert (H3 : valid_raster small_profile)
    by (split; vm_compute; discriminate).
  assert (H4 : Py.mod_360 (-180) = Ok 180)
    by (reflexivity).
  do 4 (split; [assumption|]).
  eexists _, _.
  assert (Hrun : add_santa_hat nearest_kernels 1 2 scale_one 0 0 (-180) (initial_store small_profile small_hat) =
                 ((add_santa_hat nearest_kernels 1 2 scale_one 0 0 (-180) (initial_store small_profile small_hat)).1, Ok 8%positive))
    by (vm_compute; reflexivity).
  split; [exact Hrun|].
  exact (half_turn nearest_kernels _ _ _ _ _ _ _ _ _ _ _ H1 H2 H3 H4 Hrun).
Defined.

Lemma empty_hat_divides_by_zero_witness :
  heap (initial_store small_profile (im_new RGBA (0, 3) opaque_red)) !! 1%positive = Some small_profile /\
  heap (initial_store small_profile (im_new RGBA (0, 3) opaque_red)) !! 2%positive = Some (im_new RGBA (0, 3) opaque_red) /\
  width (im_new RGBA (0, 3) opaque_red) <= 0 /\
  Py.mul_int_float (width (im_convert small_profile RGBA)) scale_half ≫= Py.int = Ok 2 /\
  exists st',
    add_santa_hat nearest_kernels 1 2 scale_half 0 0 0 (initial_store small_profile (im_new RGBA (0, 3) opaque_red)) = (st', Err ZeroDivisionError) /\
    resize_requests (new_calls (initial_store small_profile (im_new RGBA (0, 3) opaque_red)) st') = [].
Proof.
  assert (H1 : heap (initial_store small_profile (im_new RGBA (0, 3) opaque_red)) !! 1%positive = Some small_profile)
    by (reflexivity).
  assert (H2 : heap (initial_store small_profile (im_new RGBA (0, 3) opaque_red)) !! 2%positive = Some (im_new RGBA (0, 3) opaque_red))
    by (reflexivity).
  assert (H3 : width (im_new RGBA (0, 3) opaque_red) <= 0)
    by (vm_compute; discriminate).
  assert (H4 : Py.mul_int_float (width (im_convert small_profile RGBA)) scale_half ≫= Py.int = Ok 2)
    by (reflexivity).
  do 4 (split; [assumption|]).
  exact (empty_hat_divides_by_zero nearest_kernels _ _ _ _ _ scale_half 0 0 0 2 H1 H2 H3 H4).
Defined.

Lemma scale_not_finite_witness :
  heap (initial_store small_profile small_hat) !! 1%positive = Some small_profile /\
  heap (initial_store small_profile small_hat) !! 2%positive = Some small_hat /\
  (S754_nan = S754_nan \/ (exists sg, S754_nan = S754_infinity sg)) /\
  exists st' e,
    add_santa_hat nearest_kernels 1 2 S754_nan 0 0 0 (initial_store small_profile small_hat) = (st', Err e) /\
    (e = ValueError \/ e = OverflowError) /\
    resize_requests (new_calls (initial_store small_profile small_hat) st') = [].
Proof.
  assert (H1 : heap (initial_store small_profile small_hat) !! 1%positive = Some small_profile)
    by (reflexivity).
  assert (H2 : heap (initial_store small_profile small_hat) !! 2%positive = Some small_hat)
    by (reflexivity).
  assert (H3 : S754_nan = S754_nan \/ (exists sg, S754_nan = S754_infinity sg))
    by (left; reflexivity).
  do 3 (split; [assumption|]).
  exact (scale_not_finite nearest_kernels _ _ _ _ _ S754_nan 0 0 0 H1 H2 H3).
Defined.

Lemma repeatable_witness :
  heap (initial_store small_profile small_hat) !! 1%positive = Some small_profile /\
  heap (initial_store small_profile small_hat) !! 2%positive = Some small_hat /\
  exists st' res,
    add_santa_hat nearest_kernels 1 2 scale_one 0 1 90 (initial_store small_profile small_hat) = (st', res) /\
    returned_image (add_santa_hat nearest_kernels 1 2 scale_one 0 1 90 st') =
    returned_image (st', res).
Proof.
  assert (H1 : heap (initial_store small_profile small_hat) !! 1%positive = Some small_profile)
    by (reflexivity).
  assert (H2 : heap (initial_store small_profile small_hat) !! 2%positive = Some small_hat)
    by (reflexivity).
  do 2 (split; [assumption|]).
  eexists _, _.
  assert (Hrun : add_santa_hat nearest_kernels 1 2 scale_one 0 1 90 (initial_store small_profile small_hat) =
                 ((add_santa_hat nearest_kernels 1 2 scale_one 0 1 90 (initial_store small_profile small_hat)).1, Ok 8%positive))
    by (vm_compute; reflexivity).
  split; [exact Hrun|].
  exact (repeatable nearest_kernels _ _ _ _ _ _ _ _ _ _ _ H1 H2 Hrun).
Defined.

(** * The script *)

(** ** Directories *)

Lemma stat_one fs (c : string) :
  stat fs [c] =
  match fs !! [c] with
  | Some n => Returned n
  | None => Raised FileNotFoundError
  end.
Proof. unfold stat. cbn. by destruct (fs !! [c]). Qed.

Lemma stat_two fs (c d : string) :
  stat fs [c; d] =
  match fs !! [c] with
  | None => Raised FileNotFoundError
  | Some (File _) => Raised NotADirectoryError
  | Some Dir =>
      match fs !! [c; d] with
      | Some n => Returned n
      | None => Raised FileNotFoundError
      end
  end.
Proof.
  unfold stat. cbn. by destruct (fs !! [c]) as [[?|]|].
Qed.

Lemma makedirs_output_dir fs :
  os_makedirs OUTPUT_DIR true fs =
  match fs !! OUTPUT_DIR with
  | Some (File _) => (fs, Raised FileExistsError)
  | Some Dir => (fs, Returned tt)
  | None => (<[OUTPUT_DIR := Dir]> fs, Returned tt)
  end.
Proof.
  unfold os_makedirs, OUTPUT_DIR. cbn. unfold os_mkdir, path_isdir. cbn.
  destruct (fs !! ["outputs"]) as [[d|]|] eqn:E; cbn; rewrite ?E; done.
Qed.

(** X11.  [prepare_directories] turns a missing "outputs" into a directory, leaves
    an existing directory alone, and raises [FileExistsError] when a regular
    file of that name is in the way; it touches nothing else. *)
Theorem prepare_directories_spec w :
  match files w !! OUTPUT_DIR with
  | Some (File _) => prepare_directories w = (w, Raised FileExistsError)
  | _ =>
      exists w',
        prepare_directories w = (w', Returned tt) /\
        files w' !! OUTPUT_DIR = Some Dir /\
        (forall p, p <> OUTPUT_DIR -> files w' !! p = files w !! p) /\
        pillow w' = pillow w /\ page w' = page w
  end.
Proof.
  destruct w as [st fs pg]. unfold prepare_directories, with_files.
  cbn [files pillow page]. rewrite makedirs_output_dir.
  destruct (fs !! OUTPUT_DIR) as [[d|]|] eqn:E; [done| |].
  - eexists. split; [done|]. cbn [files pillow page]. auto.
  - eexists. split; [done|]. cbn [files pillow page]. rewrite lookup_insert_eq.
    repeat split. intros p Hp. by rewrite lookup_insert_ne.
Qed.

(** X12.  Running [prepare_directories] a second time changes nothing and ends as
    the first run did. *)
Theorem prepare_directories_idempotent w :
  prepare_directories (prepare_directories w).1 = prepare_directories w.
Proof.
  destruct w as [st fs pg]. unfold prepare_directories, with_files.
  cbn [files pillow page]. rewrite (makedirs_output_dir fs).
  destruct (fs !! OUTPUT_DIR) as [[d|]|] eqn:E; cbn [files pillow page fst];
    rewrite makedirs_output_dir.
  - by rewrite E.
  - by rewrite E.
  - rewrite lookup_insert_eq. done.
Qed.

(** ** Running the script *)

Lemma awp_bind {A B : Type} (m : App A) (f : A -> App B) w Q :
  awp m w (fun w' r =>
    match r with
    | Returned a => awp (f a) w' Q
    | Raised e => Q w' (Raised e)
    end) ->
  awp (m ≫= f) w Q.
Proof.
  unfold awp, mbind, App_bind. destruct (m w) as [w' [a|e]]; cbn; done.
Qed.

Lemma awp_ret {A : Type} (a : A) w (Q : World -> Outcome A -> Prop) :
  Q w (Returned a) -> awp (mret a) w Q.
Proof. done. Qed.

Lemma awp_st_call x w (Q : World -> Outcome unit -> Prop) :
  Q (mkWorld (pillow w) (files w) (page w ++ [x])) (Returned tt) ->
  awp (st_call x) w Q.
Proof. done. Qed.

Lemma awp_result {A : Type} (r : Outcome A) w (Q : World -> Outcome A -> Prop) :
  Q w r -> awp (result r) w Q.
Proof. done. Qed.

Lemma awp_read p w (Q : World -> Outcome bytes -> Prop) :
  Q w (read_file (files w) p) -> awp (read p) w Q.
Proof. done. Qed.

Lemma awp_with_pillow {A : Type} (m : M A) w (Q : World -> Outcome A -> Prop) :
  wp m (pillow w) (fun st' r =>
    Q (mkWorld st' (files w) (page w))
      match r with
      | Ok a => Returned a
      | Err e => Raised (PyExn e)
      end) ->
  awp (with_pillow m) w Q.
Proof. unfold awp, wp, with_pillow. by destruct (m (pillow w)). Qed.

Lemma awp_with_files {A : Type} (f : gmap path Node -> gmap path Node * Outcome A)
    w (Q : World -> Outcome A -> Prop) :
  Q (mkWorld (pillow w) (f (files w)).1 (page w)) (f (files w)).2 ->
  awp (with_files f) w Q.
Proof. unfold awp, with_files. by destruct (f (files w)). Qed.

Lemma awp_except {A : Type} (body : App A) w (Q : World -> Outcome (option A) -> Prop) :
  awp body w (fun w' r =>
    match r with
    | Returned a => Q w' (Returned (Some a))
    | Raised FileNotFoundError => Q w' (Returned None)
    | Raised e => Q w' (Raised e)
    end) ->
  awp (except_FileNotFoundError body) w Q.
Proof.
  unfold awp, except_FileNotFoundError.
  by destruct (body w) as [w' [a|[]]].
Qed.

Lemma awp_run {A : Type} (m : App A) w w' r :
  awp m w (fun w1 r1 => w1 = w' /\ r1 = r) -> m w = (w', r).
Proof. unfold awp. destruct (m w). cbn. by intros [-> ->]. Qed.

Lemma awp_Image_open_bytes env data im w (Q : World -> Outcome ref -> Prop) :
  decode env data = Some im ->
  (forall st' l,
      heap (pillow w) !! l = None -> heap (pillow w) ⊆ heap st' ->
      heap st' !! l = Some im -> calls st' = calls (pillow w) ->
      Q (mkWorld st' (files w) (page w)) (Returned l)) ->
  awp (Image_open_bytes env data) w Q.
Proof.
  intros Hd HQ. unfold Image_open_bytes. rewrite Hd.
  apply awp_with_pillow, wp_alloc. intros st' l ????. by apply HQ.
Qed.

Lemma awp_slider_float env label mn mx v step w (Q : World -> Outcome Py.float -> Prop) :
  Q (mkWorld (pillow w) (files w) (page w ++ [st_slider_float label mn mx v step]))
    (pick_float env label mn mx v step) ->
  awp (slider_float env label mn mx v step) w Q.
Proof.
  intros HQ. unfold slider_float. apply awp_bind, awp_st_call.
  apply awp_result.
  by destruct (pick_float env label mn mx v step).
Qed.

Lemma awp_slider_int env label mn mx v step w (Q : World -> Outcome Z -> Prop) :
  Q (mkWorld (pillow w) (files w) (page w ++ [st_slider_int label mn mx v step]))
    (pick_int env label mn mx v step) ->
  awp (slider_int env label mn mx v step) w Q.
Proof.
  intros HQ. unfold slider_int. apply awp_bind, awp_st_call.
  apply awp_result.
  by destruct (pick_int env label mn mx v step).
Qed.

(** With the asset and the upload in place [main] shows its controls, opens
    the two pictures and goes on to compose. *)
Lemma main_reaches_compositor env K w O B s ox oy rot :
  run_with_upload env w O B s ox oy rot ->
  exists st1 hat prof ws,
    is_controls B ws /\
    heap st1 !! hat = Some O /\ heap st1 !! prof = Some B /\
    calls st1 = calls (pillow w) /\
    main env K w =
    compose_and_publish env K prof hat s ox oy rot
      (mkWorld st1 (files w) (page w ++ ws)).
Proof.
  intros (a & d & Hread & Hda & Hup & Hdd & Hs & Hox & Hoy & Hrot).
  unfold picked_scale, picked_offset_x, picked_offset_y, picked_rotation in *.
  pose (Q := fun (w' : World) (r : Outcome unit) =>
    exists st1 hat prof ws,
      is_controls B ws /\
      heap st1 !! hat = Some O /\ heap st1 !! prof = Some B /\
      calls st1 = calls (pillow w) /\
      (w', r) = compose_and_publish env K prof hat s ox oy rot
                  (mkWorld st1 (files w) (page w ++ ws))).
  assert (awp (main env K) w Q) as H; cycle 1.
  { unfold awp, Q in H. destruct (main env K w). exact H. }
  unfold main.
  apply awp_bind, awp_st_call.
  apply awp_bind, awp_except. unfold Image_open.
  apply awp_bind, awp_read. cbn [files pillow page]. rewrite Hread.
  apply (awp_Image_open_bytes env a O); [done|]. cbn [files pillow page].
  intros st0 hat Hh0 Hsub0 Hhat Hc0.
  apply awp_bind. unfold file_uploader.
  apply awp_bind, awp_st_call, awp_ret. rewrite Hup.
  apply awp_bind, (awp_Image_open_bytes env d B); [done|]. cbn [files pillow page].
  intros st1 prof Hp0 Hsub1 Hprof Hc1.
  apply awp_bind, awp_slider_float. rewrite Hs. cbn [files pillow page].
  apply awp_bind, awp_with_pillow, (wp_attr width prof B); [done|].
  cbn [files pillow page].
  apply awp_bind, awp_slider_int. rewrite Hox. cbn [files pillow page].
  apply awp_bind, awp_with_pillow, (wp_attr height prof B); [done|].
  cbn [files pillow page].
  apply awp_bind, awp_slider_int. rewrite Hoy. cbn [files pillow page].
  apply awp_bind, awp_slider_int. rewrite Hrot. cbn [files pillow page].
  unfold awp, Q.
  exists st1, hat, prof. eexists.
  split; [by eexists _, _, _, _, _, _, _|].
  split; [by eapply lookup_weaken|]. split; [done|].
  split; [by rewrite Hc1, Hc0|].
  rewrite <- !app_assoc. cbn [app].
  symmetry. apply surjective_pairing.
Qed.

Lemma removelast_output_path : removelast output_path = OUTPUT_DIR.
Proof. reflexivity. Qed.

Lemma stat_output_dir fs :
  stat fs OUTPUT_DIR =
  match fs !! OUTPUT_DIR with
  | Some n => Returned n
  | None => Raised FileNotFoundError
  end.
Proof. apply stat_one. Qed.

Lemma stat_output_path fs :
  fs !! OUTPUT_DIR = Some Dir ->
  stat fs output_path =
  match fs !! output_path with
  | Some n => Returned n
  | None => Raised FileNotFoundError
  end.
Proof.
  intros Hd. unfold output_path, os_path_join, OUTPUT_DIR in *. cbn [app].
  by rewrite stat_two, Hd.
Qed.

(** Saving into an existing "outputs" directory writes the file, and reading
    it back gives the bytes written. *)
Lemma write_then_read fs data :
  fs !! OUTPUT_DIR = Some Dir -> fs !! output_path <> Some Dir ->
  write_file output_path data fs = (<[output_path := File data]> fs, Returned tt) /\
  read_file (<[output_path := File data]> fs) output_path = Returned data.
Proof.
  intros Hd Hf. unfold write_file, read_file.
  rewrite removelast_output_path, stat_output_dir, Hd.
  rewrite (stat_output_path fs Hd).
  rewrite stat_output_path by (by rewrite lookup_insert_ne).
  rewrite lookup_insert_eq.
  by destruct (fs !! output_path) as [[?|]|].
Qed.

Lemma write_without_directory fs data :
  fs !! OUTPUT_DIR = None ->
  write_file output_path data fs = (fs, Raised FileNotFoundError).
Proof.
  intros Hd. unfold write_file.
  by rewrite removelast_output_path, stat_output_dir, Hd.
Qed.

(** What the second half of [main] does, from the compositor's result. *)
Lemma awp_compose_and_publish env K w hat prof O B s ox oy rot
    (Q : World -> Outcome unit -> Prop) :
  heap (pillow w) !! hat = Some O -> heap (pillow w) !! prof = Some B ->
  (forall st2,
      match composite K B O s ox oy rot with
      | Err e => Q (mkWorld st2 (files w) (page w)) (Raised (PyExn e))
      | Ok out =>
          forall caption label,
            match write_file output_path (encode_png env out) (files w) with
            | (fs', Returned _) =>
                match read_file fs' output_path with
                | Returned data =>
                    Q (mkWorld st2 fs'
                         (page w ++ [st_image out caption true;
                                     st_download_button label data
                                       "santa_profile.png" "image/png"]))
                      (Returned tt)
                | Raised e =>
                    Q (mkWorld st2 fs' (page w ++ [st_image out caption true]))
                      (Raised e)
                end
            | (fs', Raised e) =>
                Q (mkWorld st2 fs' (page w ++ [st_image out caption true])) (Raised e)
            end
      end) ->
  awp (compose_and_publish env K prof hat s ox oy rot) w Q.
Proof.
  intros Hhat Hprof HQ. unfold compose_and_publish.
  apply awp_bind, awp_with_pillow.
  eapply wp_mono; [by apply (add_santa_hat_outcome K _ prof hat B O)|].
  intros st2 res [Hsub Hout]. specialize (HQ st2).
  rewrite <- (outcome_composite K _ _ _ _ _ _ _ _ _ Hout) in HQ.
  destruct res as [r|e]; [|exact HQ].
  cbn [returned_image] in HQ.
  apply awp_bind, awp_with_pillow. unfold wp, load. cbn [pillow files page fst snd].
  destruct (heap st2 !! r) as [out|] eqn:Hr; [|exact HQ].
  specialize (HQ "サンタクロースプロフィール画像" "画像をダウンロード").
  apply awp_bind, awp_st_call. cbn [pillow files page].
  apply awp_bind. unfold Image_save_png.
  apply awp_bind, awp_with_pillow. unfold wp, load. cbn [pillow files page fst snd].
  rewrite Hr. apply awp_with_files. cbn [pillow files page].
  fold output_path.
  destruct (write_file output_path (encode_png env out) (files w)) as [fs' [[]|e]];
    cbn [fst snd]; [|exact HQ].
  apply awp_bind, awp_read. cbn [pillow files page].
  destruct (read_file fs' output_path) as [data|e]; [|exact HQ].
  apply awp_st_call. cbn [pillow files page].
  by rewrite <- app_assoc.
Qed.

(** With an "outputs" directory in place, a run whose composition succeeds
    writes the PNG of the composite and offers those bytes for download. *)
Lemma main_publishes env K w O B s ox oy rot out :
  run_with_upload env w O B s ox oy rot ->
  composite K B O s ox oy rot = Ok out ->
  files w !! OUTPUT_DIR = Some Dir ->
  files w !! output_path <> Some Dir ->
  exists w' ws caption label,
    main env K w = (w', Returned tt) /\
    files w' = <[output_path := File (encode_png env out)]> (files w) /\
    is_controls B ws /\
    page w' = page w ++ ws ++
      [st_image out caption true;
       st_download_button label (encode_png env out) "santa_profile.png" "image/png"].
Proof.
  intros Hrun Hcomp Hdir Hfile.
  destruct (main_reaches_compositor env K w O B s ox oy rot Hrun)
    as (st1 & hat & prof & ws & Hws & Hhat & Hprof & _ & ->).
  destruct (write_then_read (files w) (encode_png env out) Hdir Hfile) as [Hw Hr].
  pose (Q := fun (w' : World) (r : Outcome unit) =>
    exists caption label,
      r = Returned tt /\
      files w' = <[output_path := File (encode_png env out)]> (files w) /\
      page w' = page w ++ ws ++
        [st_image out caption true;
         st_download_button label (encode_png env out)
           "santa_profile.png" "image/png"]).
  assert (awp (compose_and_publish env K prof hat s ox oy rot)
            (mkWorld st1 (files w) (page w ++ ws)) Q) as H.
  { apply (awp_compose_and_publish env K _ hat prof O B); [done..|].
    intros st2. rewrite Hcomp. intros caption label.
    cbn [pillow files page]. rewrite Hw, Hr.
    exists caption, label. cbn [files page]. by rewrite <- app_assoc. }
  unfold awp, Q in H.
  destruct (compose_and_publish _ _ _ _ _ _ _ _ _) as [w' r].
  cbn [fst snd] in H. destruct H as (caption & label & -> & Hf & Hp).
  by exists w', ws, caption, label.
Qed.

(** ** What [main] does *)

Section Main.

Context (env : Env) (K : Kernels).

(** X13.  Without the hat asset [main] shows the title and an error message and
    returns normally: no uploader, no sliders, nothing opened or written. *)
Theorem main_asset_missing w :
  read_file (files w) SANTA_HAT_PATH = Raised FileNotFoundError ->
  exists title message,
    main env K w =
    (mkWorld (pillow w) (files w) (page w ++ [st_title title; st_error message]),
     Returned tt).
Proof.
  intros Hread. eexists _, _. apply awp_run. unfold main.
  apply awp_bind, awp_st_call.
  apply awp_bind, awp_except. unfold Image_open.
  apply awp_bind, awp_read. cbn [files pillow page]. rewrite Hread.
  apply awp_st_call. cbn [files pillow page].
  by rewrite <- app_assoc.
Qed.

(** X14.  Only [FileNotFoundError] is handled: when the asset path runs through a
    regular file, names a directory, or holds bytes that are no picture, the
    exception leaves [main] after the title. *)
Theorem main_hat_error_propagates w e :
  (read_file (files w) SANTA_HAT_PATH = Raised e /\ e <> FileNotFoundError) \/
  (exists a, read_file (files w) SANTA_HAT_PATH = Returned a /\
             decode env a = None /\ e = UnidentifiedImageError) ->
  exists title,
    main env K w =
    (mkWorld (pillow w) (files w) (page w ++ [st_title title]), Raised e).
Proof.
  intros Hbad. eexists. apply awp_run. unfold main.
  apply awp_bind, awp_st_call.
  apply awp_bind, awp_except. unfold Image_open.
  apply awp_bind, awp_read. cbn [files pillow page].
  destruct Hbad as [[Hread Hne]|(a & Hread & Hdec & ->)]; rewrite Hread.
  - by destruct e.
  - unfold Image_open_bytes. rewrite Hdec. done.
Qed.

(** X15.  With the asset in place and nothing uploaded [main] shows the title and
    the uploader and stops: no slider, no call into the compositor, no file
    written. *)
Theorem main_without_upload w a O :
  read_file (files w) SANTA_HAT_PATH = Returned a ->
  decode env a = Some O ->
  upload env = None ->
  exists w' title label type,
    main env K w = (w', Returned tt) /\
    files w' = files w /\
    calls (pillow w') = calls (pillow w) /\
    page w' = page w ++ [st_title title; st_file_uploader label type].
Proof.
  intros Hread Hdec Hup.
  pose (Q := fun (w' : World) (r : Outcome unit) =>
    exists title label type,
      r = Returned tt /\ files w' = files w /\
      calls (pillow w') = calls (pillow w) /\
      page w' = page w ++ [st_title title; st_file_uploader label type]).
  assert (awp (main env K) w Q) as H.
  { unfold main.
    apply awp_bind, awp_st_call.
    apply awp_bind, awp_except. unfold Image_open.
    apply awp_bind, awp_read. cbn [files pillow page]. rewrite Hread.
    apply (awp_Image_open_bytes env a O); [done|]. cbn [files pillow page].
    intros st0 hat Hh0 Hsub0 Hhat Hc0.
    apply awp_bind. unfold file_uploader.
    apply awp_bind, awp_st_call, awp_ret. rewrite Hup.
    apply awp_ret. unfold Q. cbn [files pillow page].
    eexists _, _, _. by rewrite <- app_assoc. }
  unfold awp, Q in H. destruct (main env K w) as [w' r]. cbn [fst snd] in H.
  destruct H as (title & label & type & -> & ? & ? & ?).
  by exists w', title, label, type.
Qed.

(** X16.  When the compositor raises (a degenerate target size, say), the
    exception leaves [main] right after the sliders: no picture is shown, no
    file is written, no download is offered. *)
Theorem main_compositor_raises w O B s ox oy rot e :
  run_with_upload env w O B s ox oy rot ->
  composite K B O s ox oy rot = Err e ->
  exists w' ws,
    main env K w = (w', Raised (PyExn e)) /\
    files w' = files w /\
    is_controls B ws /\
    page w' = page w ++ ws.
Proof.
  intros Hrun Hcomp.
  destruct (main_reaches_compositor env K w O B s ox oy rot Hrun)
    as (st1 & hat & prof & ws & Hws & Hhat & Hprof & _ & ->).
  pose (Q := fun (w' : World) (r : Outcome unit) =>
    r = Raised (PyExn e) /\ files w' = files w /\ page w' = page w ++ ws).
  assert (awp (compose_and_publish env K prof hat s ox oy rot)
            (mkWorld st1 (files w) (page w ++ ws)) Q) as H.
  { apply (awp_compose_and_publish env K _ hat prof O B); [done..|].
    intros st2. rewrite Hcomp. done. }
  unfold awp, Q in H.
  destruct (compose_and_publish _ _ _ _ _ _ _ _ _) as [w' r].
  cbn [fst snd] in H. destruct H as (-> & Hf & Hp).
  by exists w', ws.
Qed.

(** X17.  Without an "outputs" directory the composite is shown and then [save]
    raises [FileNotFoundError], which [main] does not handle: nothing is
    written and no download is offered. *)
Theorem main_needs_output_directory w O B s ox oy rot out :
  run_with_upload env w O B s ox oy rot ->
  composite K B O s ox oy rot = Ok out ->
  files w !! OUTPUT_DIR = None ->
  exists w' ws caption,
    main env K w = (w', Raised FileNotFoundError) /\
    files w' = files w /\
    is_controls B ws /\
    page w' = page w ++ ws ++ [st_image out caption true].
Proof.
  intros Hrun Hcomp Hdir.
  destruct (main_reaches_compositor env K w O B s ox oy rot Hrun)
    as (st1 & hat & prof & ws & Hws & Hhat & Hprof & _ & ->).
  pose (Q := fun (w' : World) (r : Outcome unit) =>
    exists caption,
      r = Raised FileNotFoundError /\ files w' = files w /\
      page w' = page w ++ ws ++ [st_image out caption true]).
  assert (awp (compose_and_publish env K prof hat s ox oy rot)
            (mkWorld st1 (files w) (page w ++ ws)) Q) as H.
  { apply (awp_compose_and_publish env K _ hat prof O B); [done..|].
    intros st2. rewrite Hcomp. intros caption label.
    cbn [pillow files page]. rewrite write_without_directory by done.
    exists caption. cbn [files page]. by rewrite <- app_assoc. }
  unfold awp, Q in H.
  destruct (compose_and_publish _ _ _ _ _ _ _ _ _) as [w' r].
  cbn [fst snd] in H. destruct H as (caption & -> & Hf & Hp).
  by exists w', ws, caption.
Qed.

Lemma read_file_insert_other fs k n (c d : string) :
  k <> [c] -> k <> [c; d] ->
  read_file (<[k := n]> fs) [c; d] = read_file fs [c; d].
Proof.
  intros H1 H2. unfold read_file. rewrite !stat_two.
  by rewrite !lookup_insert_ne.
Qed.

(** X18.  The whole script, started where "outputs" is missing or already a
    directory: [prepare_directories] makes the directory, so the save of
    [main] cannot fail for want of it; the run returns with the composite
    written and offered for download. *)
Theorem script_publishes w O B s ox oy rot out :
  run_with_upload env w O B s ox oy rot ->
  composite K B O s ox oy rot = Ok out ->
  files w !! OUTPUT_DIR = None \/ files w !! OUTPUT_DIR = Some Dir ->
  files w !! output_path <> Some Dir ->
  exists w' ws caption label,
    script env K w = (w', Returned tt) /\
    files w' =
      <[output_path := File (encode_png env out)]> (<[OUTPUT_DIR := Dir]> (files w)) /\
    is_controls B ws /\
    page w' = page w ++ ws ++
      [st_image out caption true;
       st_download_button label (encode_png env out) "santa_profile.png" "image/png"].
Proof.
  intros (a & d & Hread & Hrest) Hcomp Hdir Hfile.
  pose (w1 := mkWorld (pillow w) (<[OUTPUT_DIR := Dir]> (files w)) (page w)).
  assert (prepare_directories w = (w1, Returned tt)) as Hprep.
  { unfold prepare_directories, with_files. rewrite makedirs_output_dir.
    destruct Hdir as [-> | Hd]; [done|].
    rewrite Hd. unfold w1. by rewrite insert_id. }
  assert (run_with_upload env w1 O B s ox oy rot) as Hrun1.
  { exists a, d. split; [|exact Hrest].
    unfold w1. cbn [files]. unfold SANTA_HAT_PATH in *.
    by rewrite read_file_insert_other. }
  destruct (main_publishes env K w1 O B s ox oy rot out Hrun1 Hcomp)
    as (w' & ws & caption & label & Hmain & Hf & Hws & Hp).
  { unfold w1. cbn [files]. apply lookup_insert_eq. }
  { unfold w1. cbn [files]. by rewrite lookup_insert_ne. }
  exists w', ws, caption, label.
  split; [|done].
  unfold script, mbind, App_bind. by rewrite Hprep.
Qed.

End Main.

(** ** The one file [main] writes *)

Lemma writes_only_bind {A B : Type} p (m : App A) (f : A -> App B) :
  writes_only p m -> (forall a, writes_only p (f a)) -> writes_only p (m ≫= f).
Proof.
  intros Hm Hf w q Hq. specialize (Hm w q Hq).
  unfold mbind, App_bind. destruct (m w) as [w' [a|e]]; cbn [fst] in *.
  - by rewrite Hf.
  - done.
Qed.

Lemma writes_only_same {A : Type} p (m : App A) :
  (forall w, files (m w).1 = files w) -> writes_only p m.
Proof. intros H w q _. by rewrite H. Qed.

Lemma writes_only_with_pillow {A : Type} p (m : M A) : writes_only p (with_pillow m).
Proof.
  apply writes_only_same. intros w. unfold with_pillow.
  by destruct (m (pillow w)).
Qed.

Lemma writes_only_except {A : Type} p (body : App A) :
  writes_only p body -> writes_only p (except_FileNotFoundError body).
Proof.
  intros Hb w q Hq. specialize (Hb w q Hq).
  unfold except_FileNotFoundError. by destruct (body w) as [w' [a|[]]].
Qed.

Lemma writes_only_write_file p data : writes_only p (with_files (write_file p data)).
Proof.
  intros w q Hq. unfold with_files, write_file.
  destruct (stat (files w) (removelast p)) as [[?|]|]; cbn [files fst]; try done.
  destruct (stat (files w) p) as [[?|]|]; cbn [files fst];
    rewrite ?lookup_insert_ne; done.
Qed.

Lemma writes_only_Image_open_bytes p env data :
  writes_only p (Image_open_bytes env data).
Proof.
  unfold Image_open_bytes. destruct (decode env data).
  - apply writes_only_with_pillow.
  - by apply writes_only_same.
Qed.

Lemma writes_only_slider_float p env l mn mx v st :
  writes_only p (slider_float env l mn mx v st).
Proof. apply writes_only_bind; [|intros _]; by apply writes_only_same. Qed.

Lemma writes_only_slider_int p env l mn mx v st :
  writes_only p (slider_int env l mn mx v st).
Proof. apply writes_only_bind; [|intros _]; by apply writes_only_same. Qed.

(** X19.  Whatever the environment and however the run ends, [main] changes no
    file other than "outputs/santa_profile.png": it never touches the hat
    asset and never creates a directory. *)
Theorem main_writes_only_output_file env K w q :
  q <> output_path -> files (main env K w).1 !! q = files w !! q.
Proof.
  intros Hq. revert w q Hq. change (writes_only output_path (main env K)).
  unfold main.
  apply writes_only_bind; [by apply writes_only_same|intros _].
  apply writes_only_bind.
  { apply writes_only_except, writes_only_bind;
      [by apply writes_only_same|intros ?; apply writes_only_Image_open_bytes]. }
  intros [hat|]; [|by apply writes_only_same].
  apply writes_only_bind.
  { apply writes_only_bind; [|intros _]; by apply writes_only_same. }
  intros [data|]; [|by apply writes_only_same].
  apply writes_only_bind; [apply writes_only_Image_open_bytes|intros prof].
  apply writes_only_bind; [apply writes_only_slider_float|intros s].
  apply writes_only_bind; [apply writes_only_with_pillow|intros pw].
  apply writes_only_bind; [apply writes_only_slider_int|intros ox].
  apply writes_only_bind; [apply writes_only_with_pillow|intros ph].
  apply writes_only_bind; [apply writes_only_slider_int|intros oy].
  apply writes_only_bind; [apply writes_only_slider_int|intros rot].
  apply writes_only_bind; [apply writes_only_with_pillow|intros combined].
  apply writes_only_bind; [apply writes_only_with_pillow|intros shown].
  apply writes_only_bind; [by apply writes_only_same|intros _].
  apply writes_only_bind.
  { apply writes_only_bind; [apply writes_only_with_pillow|intros im].
    apply writes_only_write_file. }
  intros _.
  apply writes_only_bind; [by apply writes_only_same|intros bytes].
  by apply writes_only_same.
Qed.

Lemma run_with_upload_sample :
  run_with_upload (sample_env (Some [Byte.x02])) (empty_world fresh_checkout)
    small_hat small_profile f_0_6 0 (-10) 0.
Proof. exists [Byte.x01], [Byte.x02]. repeat split; reflexivity. Qed.

Lemma main_asset_missing_witness :
  read_file (files (empty_world ∅)) SANTA_HAT_PATH = Raised FileNotFoundError /\
  exists title message,
    main (sample_env None) nearest_kernels (empty_world ∅) =
    (mkWorld (pillow (empty_world ∅)) (files (empty_world ∅))
       (page (empty_world ∅) ++ [st_title title; st_error message]),
     Returned tt).
Proof.
  assert (H1 : read_file (files (empty_world ∅)) SANTA_HAT_PATH = Raised FileNotFoundError)
    by reflexivity.
  split; [assumption|].
  exact (main_asset_missing (sample_env None) nearest_kernels (empty_world ∅) H1).
Defined.

Lemma main_hat_error_propagates_witness :
  ((read_file (files (empty_world (<[["assets"] := File []]> ∅))) SANTA_HAT_PATH
      = Raised NotADirectoryError /\
    NotADirectoryError <> FileNotFoundError) \/
   (exists a,
      read_file (files (empty_world (<[["assets"] := File []]> ∅))) SANTA_HAT_PATH
        = Returned a /\
      decode (sample_env None) a = None /\
      NotADirectoryError = UnidentifiedImageError)) /\
  exists title,
    main (sample_env None) nearest_kernels (empty_world (<[["assets"] := File []]> ∅)) =
    (mkWorld (pillow (empty_world (<[["assets"] := File []]> ∅)))
       (files (empty_world (<[["assets"] := File []]> ∅)))
       (page (empty_world (<[["assets"] := File []]> ∅)) ++ [st_title title]),
     Raised NotADirectoryError).
Proof.
  assert (H1 :
    (read_file (files (empty_world (<[["assets"] := File []]> ∅))) SANTA_HAT_PATH
       = Raised NotADirectoryError /\
     NotADirectoryError <> FileNotFoundError) \/
    (exists a,
       read_file (files (empty_world (<[["assets"] := File []]> ∅))) SANTA_HAT_PATH
         = Returned a /\
       decode (sample_env None) a = None /\
       NotADirectoryError = UnidentifiedImageError))
    by (left; split; [reflexivity|discriminate]).
  split; [assumption|].
  exact (main_hat_error_propagates (sample_env None) nearest_kernels
           (empty_world (<[["assets"] := File []]> ∅)) NotADirectoryError H1).
Defined.

Lemma main_without_upload_witness :
  read_file (files (empty_world fresh_checkout)) SANTA_HAT_PATH = Returned [Byte.x01] /\
  decode (sample_env None) [Byte.x01] = Some small_hat /\
  upload (sample_env None) = None /\
  exists w' title label type,
    main (sample_env None) nearest_kernels (empty_world fresh_checkout) = (w', Returned tt) /\
    files w' = files (empty_world fresh_checkout) /\
    calls (pillow w') = calls (pillow (empty_world fresh_checkout)) /\
    page w' = page (empty_world fresh_checkout) ++ [st_title title; st_file_uploader label type].
Proof.
  assert (H1 : read_file (files (empty_world fresh_checkout)) SANTA_HAT_PATH
               = Returned [Byte.x01]) by reflexivity.
  assert (H2 : decode (sample_env None) [Byte.x01] = Some small_hat) by reflexivity.
  assert (H3 : upload (sample_env None) = None) by reflexivity.
  do 3 (split; [assumption|]).
  exact (main_without_upload (sample_env None) nearest_kernels
           (empty_world fresh_checkout) [Byte.x01] small_hat H1 H2 H3).
Defined.

Lemma main_compositor_raises_witness :
  run_with_upload (sample_env (Some [Byte.x03])) (empty_world fresh_checkout)
    small_hat pixel_profile f_0_6 0 (-10) 0 /\
  composite nearest_kernels pixel_profile small_hat f_0_6 0 (-10) 0 = Err ValueError /\
  exists w' ws,
    main (sample_env (Some [Byte.x03])) nearest_kernels (empty_world fresh_checkout)
      = (w', Raised (PyExn ValueError)) /\
    files w' = files (empty_world fresh_checkout) /\
    is_controls pixel_profile ws /\
    page w' = page (empty_world fresh_checkout) ++ ws.
Proof.
  assert (H1 : run_with_upload (sample_env (Some [Byte.x03])) (empty_world fresh_checkout)
                 small_hat pixel_profile f_0_6 0 (-10) 0)
    by (exists [Byte.x01], [Byte.x03]; repeat split; reflexivity).
  assert (H2 : composite nearest_kernels pixel_profile small_hat f_0_6 0 (-10) 0
               = Err ValueError) by reflexivity.
  do 2 (split; [assumption|]).
  exact (main_compositor_raises (sample_env (Some [Byte.x03])) nearest_kernels
           (empty_world fresh_checkout) small_hat pixel_profile f_0_6 0 (-10) 0
           ValueError H1 H2).
Defined.

Lemma main_needs_output_directory_witness :
  exists out,
    run_with_upload (sample_env (Some [Byte.x02])) (empty_world fresh_checkout)
      small_hat small_profile f_0_6 0 (-10) 0 /\
    composite nearest_kernels small_profile small_hat f_0_6 0 (-10) 0 = Ok out /\
    files (empty_world fresh_checkout) !! OUTPUT_DIR = None /\
    exists w' ws caption,
      main (sample_env (Some [Byte.x02])) nearest_kernels (empty_world fresh_checkout)
        = (w', Raised FileNotFoundError) /\
      files w' = files (empty_world fresh_checkout) /\
      is_controls small_profile ws /\
      page w' = page (empty_world fresh_checkout) ++ ws ++ [st_image out caption true].
Proof.
  eexists.
  pose proof run_with_upload_sample as H1.
  assert (H3 : files (empty_world fresh_checkout) !! OUTPUT_DIR = None) by reflexivity.
  split; [exact H1|].
  split; [vm_compute; reflexivity|].
  split; [exact H3|].
  refine (main_needs_output_directory (sample_env (Some [Byte.x02])) nearest_kernels
            (empty_world fresh_checkout) small_hat small_profile f_0_6 0 (-10) 0
            _ H1 _ H3).
  vm_compute. reflexivity.
Defined.

Lemma script_publishes_witness :
  exists out,
    run_with_upload (sample_env (Some [Byte.x02])) (empty_world fresh_checkout)
      small_hat small_profile f_0_6 0 (-10) 0 /\
    composite nearest_kernels small_profile small_hat f_0_6 0 (-10) 0 = Ok out /\
    (files (empty_world fresh_checkout) !! OUTPUT_DIR = None \/
     files (empty_world fresh_checkout) !! OUTPUT_DIR = Some Dir) /\
    files (empty_world fresh_checkout) !! output_path <> Some Dir /\
    exists w' ws caption label,
      script (sample_env (Some [Byte.x02])) nearest_kernels (empty_world fresh_checkout)
        = (w', Returned tt) /\
      files w' =
        <[output_path := File (encode_png (sample_env (Some [Byte.x02])) out)]>
          (<[OUTPUT_DIR := Dir]> (files (empty_world fresh_checkout))) /\
      is_controls small_profile ws /\
      page w' = page (empty_world fresh_checkout) ++ ws ++
        [st_image out caption true;
         st_download_button label (encode_png (sample_env (Some [Byte.x02])) out)
           "santa_profile.png" "image/png"].
Proof.
  eexists.
  pose proof run_with_upload_sample as H1.
  assert (H3 : files (empty_world fresh_checkout) !! OUTPUT_DIR = None \/
               files (empty_world fresh_checkout) !! OUTPUT_DIR = Some Dir)
    by (left; reflexivity).
  assert (H4 : files (empty_world fresh_checkout) !! output_path <> Some Dir)
    by (vm_compute; discriminate).
  split; [exact H1|].
  split; [vm_compute; reflexivity|].
  split; [exact H3|]. split; [exact H4|].
  refine (script_publishes (sample_env (Some [Byte.x02])) nearest_kernels
            (empty_world fresh_checkout) small_hat small_profile f_0_6 0 (-10) 0
            _ H1 _ H3 H4).
  vm_compute. reflexivity.
Defined.

Lemma main_writes_only_output_file_witness :
  SANTA_HAT_PATH <> output_path /\
  files (main (sample_env (Some [Byte.x02])) nearest_kernels
           (empty_world (<[OUTPUT_DIR := Dir]> fresh_checkout))).1 !! SANTA_HAT_PATH =
  files (empty_world (<[OUTPUT_DIR := Dir]> fresh_checkout)) !! SANTA_HAT_PATH.
Proof.
  assert (H1 : SANTA_HAT_PATH <> output_path) by discriminate.
  split; [assumption|].
  exact (main_writes_only_output_file (sample_env (Some [Byte.x02])) nearest_kernels
           (empty_world (<[OUTPUT_DIR := Dir]> fresh_checkout)) SANTA_HAT_PATH H1).
Defined.
